(** * Academic paper generator: stage controller and collaborative generation

    A shallow embedding of the Python sources
    - [ai_service.py]            (module [AIService]),
    - [conversation_manager.py]  (module [ConversationManager]),
    - [collaboration_engine.py]  (module [CollaborationEngine]),
    - [prompt_templates.py]      (module [PromptBuilder]),
    - [paper_generator.py]       (module [PaperGenerator]),
    - [app.py]                   (module [App]),
    followed by the properties established about them.

    Python dictionaries are finite maps ([gmap]); objects that the code
    mutates in place (the session store, the sessions it holds) live in an
    explicit [State] that every operation threads; exceptions are results
    [Raise e] of a small state-and-exception monad.  The language-model
    backends, the wall clock and the JSON parser are external: they are
    fields of a [World] that the definitions take as a parameter. *)

From Stdlib Require Import QArith Qabs Sorting.Sorted.
From Corelib Require Import PrimFloat.
From Stdlib Require Import Floats.SpecFloat Floats.FloatOps Numbers.Cyclic.Int63.Uint63.
From stdpp Require Import gmap strings list fin_maps.
Close Scope Q_scope.

(** ** Python values *)

(** The values a [Dict[str, Any]] obtained from [json.loads] or from a request
    body may hold. *)
#[local] Unset Elimination Schemes.
Inductive value :=
| VNone
| VBool (b : bool)
| VInt (z : Z)
| VFloat (q : Q)
| VStr (s : string)
| VList (l : list value)
| VDict (d : list (string * value)).
#[local] Set Elimination Schemes.

(** Python truth value testing ([if v], [not v]). *)
Definition truthy (v : value) : bool :=
  match v with
  | VNone => false
  | VBool b => b
  | VInt z => negb (z =? 0)%Z
  | VFloat q => negb (Qnum q =? 0)%Z
  | VStr s => negb (String.eqb s "")
  | VList l => match l with [] => false | _ => true end
  | VDict d => match d with [] => false | _ => true end
  end.

(** Truth value of a string ([if s]). *)
Definition str_truthy (s : string) : bool := negb (String.eqb s "").

(** The [float] an [int] becomes as an operand of the true division [/]: a
    binary64 number, exact for the small lengths converted here. *)
Definition float_of_nat (n : nat) : float :=
  PrimFloat.of_uint63 (Uint63.of_Z (Z.of_nat n)).

(** ** Exceptions and the state-and-exception monad *)

Inductive exn :=
| Exception (msg : string)
| ValueError (msg : string)
| IndexError (msg : string).

(** [str(e)] *)
Definition str_exn (e : exn) : string :=
  match e with
  | Exception msg => msg
  | ValueError msg => msg
  | IndexError msg => msg
  end.

Inductive Res (A : Type) :=
| Val (a : A)
| Raise (e : exn).
Arguments Val {A} a.
Arguments Raise {A} e.

Definition is_raise {A} (r : Res A) : bool :=
  match r with Val _ => false | Raise _ => true end.

(** ** Wall clock *)

Record datetime := {
  year : nat; month : nat; day : nat;
  hour : nat; minute : nat; second : nat; microsecond : nat
}.

Fixpoint digits_go (fuel n : nat) (acc : string) : string :=
  match fuel with
  | 0 => acc
  | S fuel' =>
      let acc' := String (Ascii.ascii_of_nat (48 + n mod 10)) acc in
      if n / 10 =? 0 then acc' else digits_go fuel' (n / 10) acc'
  end.

(** Decimal numeral of [n], at least one digit. *)
Definition decimal (n : nat) : string := digits_go (S n) n "".

Fixpoint zeros (k : nat) : string :=
  match k with 0 => "" | S k' => String (Ascii.ascii_of_nat 48) (zeros k') end.

(** [%02d]-style zero padding. *)
Definition pad (width n : nat) : string :=
  let s := decimal n in zeros (width - String.length s) +:+ s.

(** [d.strftime('%Y-%m-%d %H:%M:%S')] *)
Definition strftime_seconds (d : datetime) : string :=
  pad 4 (year d) +:+ "-" +:+ pad 2 (month d) +:+ "-" +:+ pad 2 (day d) +:+ " "
  +:+ pad 2 (hour d) +:+ ":" +:+ pad 2 (minute d) +:+ ":" +:+ pad 2 (second d).

(** [d.isoformat()]: the fraction is printed only when it is not zero. *)
Definition isoformat (d : datetime) : string :=
  pad 4 (year d) +:+ "-" +:+ pad 2 (month d) +:+ "-" +:+ pad 2 (day d) +:+ "T"
  +:+ pad 2 (hour d) +:+ ":" +:+ pad 2 (minute d) +:+ ":" +:+ pad 2 (second d)
  +:+ (if microsecond d =? 0 then "" else "." +:+ pad 6 (microsecond d)).

(** ** Chat messages and the external world *)

(** A request message [{"role": ..., "content": ...}]. *)
Record ChatMessage := { chat_role : string; chat_content : string }.

(** What one request to a backend produces: the reply text, or the message of
    the exception its [chat] method raises. *)
Inductive outcome :=
| Reply (text : string)
| Failure (msg : string).

Record World := {
  (** keys of [AIServiceManager.services], in insertion order *)
  service_names : list string;
  (** outcome of the [n]-th backend request of a run, sent to the named
      service with the given messages, temperature and [max_tokens] *)
  backend : nat -> string -> list ChatMessage -> Q -> nat -> outcome;
  (** value of the [n]-th call of [datetime.now()] *)
  clock : nat -> datetime;
  (** [json.loads] on an object literal; [None] when it raises *)
  json_loads : string -> option (gmap string value)
}.

(** ** Data model of [conversation_manager.py] and [collaboration_engine.py] *)

(** [Message] dataclass. *)
Record Message := {
  role : string;
  content : string;
  timestamp : string;
  metadata : gmap string value
}.

(** One entry of the trace [result["iterations"]] of a collaborative
    generation. *)
Record Iteration := {
  iteration : nat;
  type : string;
  iter_content : string
}.

(** The session context, a [Dict[str, Any]], by the keys the program reads or
    writes: ["collected_info"], ["current_stage"], ["paper_content"] and the
    per-section keys ["<section>_generation_process"] (indexed here by the
    section).  A key that is absent is [None]. *)
Record Context := {
  collected_info : option (gmap string value);
  current_stage : option string;
  paper_content : option (gmap string string);
  generation_process : gmap string (list Iteration)
}.

(** The empty dictionary [{}] as a context. *)
Definition empty_context : Context :=
  {| collected_info := None; current_stage := None;
     paper_content := None; generation_process := ∅ |}.

(** [ConversationSession] dataclass. *)
Record ConversationSession := {
  session_id : string;
  user_id : string;
  title : string;
  messages : list Message;
  context : Context;
  created_at : string;
  updated_at : string;
  status : string
}.

(** A file [<storage_path>/<name>.json]: either one that [_load_session]
    reads back as a session, or one on which loading fails. *)
Inductive StoredFile :=
| Stored (s : ConversationSession)
| Unreadable.

(** The mutable state of a run: the manager's in-memory sessions, the session
    files, and how many backend requests and clock readings were made. *)
Record State := {
  active_sessions : gmap string ConversationSession;
  storage : gmap string StoredFile;
  requests : nat;
  clock_reads : nat
}.

Definition M (A : Type) : Type := State -> Res A * State.

Definition ret {A} (a : A) : M A := fun st => (Val a, st).

Definition raise {A} (e : exn) : M A := fun st => (Raise e, st).

Definition bind {A B} (m : M A) (k : A -> M B) : M B :=
  fun st =>
    match m st with
    | (Val a, st') => k a st'
    | (Raise e, st') => (Raise e, st')
    end.

(** [try: m  except Exception as e: h e] *)
Definition try_except {A} (m : M A) (h : exn -> M A) : M A :=
  fun st =>
    match m st with
    | (Val a, st') => (Val a, st')
    | (Raise e, st') => h e st'
    end.

Declare Scope monad_scope.
Delimit Scope monad_scope with monad.
Notation "x <- m ;; k" := (bind m (fun x => k))
  (at level 100, m at next level, right associativity) : monad_scope.
Notation "m ;;; k" := (bind m (fun _ => k))
  (at level 100, right associativity) : monad_scope.
Open Scope monad_scope.

(** [datetime.now()] *)
Definition now (w : World) : M datetime :=
  fun st =>
    (Val (clock w (clock_reads st)),
     {| active_sessions := active_sessions st; storage := storage st;
        requests := requests st; clock_reads := S (clock_reads st) |}).

(** ** [ai_service.py] *)

Module AIService.
Section Manager.
Context (w : World).

(** [AIServiceManager.get_service]; a registered service is identified by
    its key in [self.services]. *)
Definition get_service (service_name : option string) : option string :=
  match service_name with
  | Some name =>
      if str_truthy name then
        (if bool_decide (name ∈ service_names w) then Some name else None)
      else head (service_names w)
  | None => head (service_names w)
  end.

(** [AIServiceManager.get_service_names] *)
Definition get_service_names : list string := service_names w.

(** [AIServiceManager.chat]: raises when no service is found, otherwise
    issues one request to the service, whose own [chat] either returns the
    reply or raises. *)
Definition chat (messages : list ChatMessage) (service_name : option string)
    (temperature : Q) (max_tokens : nat) : M string :=
  match get_service service_name with
  | None => raise (Exception "没有可用的AI服务")
  | Some service =>
      fun st =>
        let st' :=
          {| active_sessions := active_sessions st; storage := storage st;
             requests := S (requests st); clock_reads := clock_reads st |} in
        match backend w (requests st) service messages temperature max_tokens with
        | Reply text => (Val text, st')
        | Failure msg => (Raise (Exception msg), st')
        end
  end.
End Manager.
End AIService.

(** ** [conversation_manager.py] *)

Module ConversationManager.

Definition with_messages (s : ConversationSession) (ms : list Message) (t : string)
  : ConversationSession :=
  {| session_id := session_id s; user_id := user_id s; title := title s;
     messages := ms; context := context s;
     created_at := created_at s; updated_at := t; status := status s |}.

Definition with_context (s : ConversationSession) (c : Context) (t : string)
  : ConversationSession :=
  {| session_id := session_id s; user_id := user_id s; title := title s;
     messages := messages s; context := c;
     created_at := created_at s; updated_at := t; status := status s |}.

Definition with_status (s : ConversationSession) (new_status : string) (t : string)
  : ConversationSession :=
  {| session_id := session_id s; user_id := user_id s; title := title s;
     messages := messages s; context := context s;
     created_at := created_at s; updated_at := t; status := new_status |}.

(** The argument of [update_context]: the keys it carries. *)
Record ContextUpdates := {
  upd_collected_info : option (gmap string value);
  upd_current_stage : option string;
  upd_paper_content : option (gmap string string);
  upd_generation_process : gmap string (list Iteration)
}.

(** [context.update(context_updates)] *)
Definition dict_update (c : Context) (u : ContextUpdates) : Context :=
  {| collected_info :=
       match upd_collected_info u with Some x => Some x | None => collected_info c end;
     current_stage :=
       match upd_current_stage u with Some x => Some x | None => current_stage c end;
     paper_content :=
       match upd_paper_content u with Some x => Some x | None => paper_content c end;
     generation_process := upd_generation_process u ∪ generation_process c |}.

Section Manager.
Context (w : World).

(** The object stored under [session_id] in [self.active_sessions] is
    mutated in place: its new value replaces the old one there. *)
Definition mutate (session_id : string) (s : ConversationSession) : M unit :=
  fun st =>
    (Val (),
     {| active_sessions := <[session_id := s]> (active_sessions st);
        storage := storage st;
        requests := requests st; clock_reads := clock_reads st |}).

(** The present value of the object [get_session session_id] returned
    earlier, [s] at that time: it is the one held in [self.active_sessions]. *)
Definition current (session_id : string) (s : ConversationSession)
  : M ConversationSession :=
  fun st => (Val (default s (active_sessions st !! session_id)), st).

(** [_save_session]: the file is named after the session's own identifier.
    The write is taken to succeed.  The source raises here, after the memory
    was changed, when the file cannot be opened (an identifier that is no
    file name) or the text cannot be encoded; what is proved of a call that
    returns is proved of the runs in which every write succeeded. *)
Definition _save_session (session : ConversationSession) : M unit :=
  fun st =>
    (Val (),
     {| active_sessions := active_sessions st;
        storage := <[session_id session := Stored session]> (storage st);
        requests := requests st; clock_reads := clock_reads st |}).

(** [_load_session]: [None] when the file is missing or fails to load. *)
Definition _load_session (session_id : string) : M (option ConversationSession) :=
  fun st =>
    (Val (match storage st !! session_id with
          | Some (Stored s) => Some s
          | Some Unreadable => None
          | None => None
          end), st).

(** [get_session]: memory first, then the disk; a session read from the
    disk is kept in memory. *)
Definition get_session (session_id : string) : M (option ConversationSession) :=
  fun st =>
    match active_sessions st !! session_id with
    | Some s => (Val (Some s), st)
    | None =>
        (session <- _load_session session_id ;;
         match session with
         | Some s => mutate session_id s ;;; ret (Some s)
         | None => ret None
         end) st
    end.

(** [add_message] *)
Definition add_message (session_id role content : string)
    (metadata : option (gmap string value)) : M Message :=
  session <- get_session session_id ;;
  match session with
  | None => raise (ValueError ("会话不存在: " +:+ session_id))
  | Some session =>
      t <- now w ;;
      let message :=
        {| role := role; content := content; timestamp := isoformat t;
           metadata := default ∅ metadata |} in
      t' <- now w ;;
      let session' := with_messages session (messages session ++ [message]) (isoformat t') in
      mutate session_id session' ;;;
      _save_session session' ;;;
      ret message
  end.

(** [get_messages]: [messages[-limit:]] when [limit] is given and not zero. *)
Definition get_messages (session_id : string) (limit : option nat) : M (list Message) :=
  session <- get_session session_id ;;
  match session with
  | None => ret []
  | Some session =>
      let messages := messages session in
      ret (match limit with
           | Some (S l) => drop (length messages - S l) messages
           | Some 0 => messages
           | None => messages
           end)
  end.

(** [get_messages_for_api] *)
Definition get_messages_for_api (session_id : string) (limit : option nat)
  : M (list ChatMessage) :=
  messages <- get_messages session_id limit ;;
  ret (map (fun msg => {| chat_role := role msg; chat_content := content msg |}) messages).

(** [update_context] *)
Definition update_context (session_id : string) (context_updates : ContextUpdates) : M unit :=
  session <- get_session session_id ;;
  match session with
  | None => raise (ValueError ("会话不存在: " +:+ session_id))
  | Some session =>
      t <- now w ;;
      let session' := with_context session (dict_update (context session) context_updates)
                        (isoformat t) in
      mutate session_id session' ;;;
      _save_session session' ;;;
      ret ()
  end.

(** [get_context]: the empty dictionary for a session that is not found. *)
Definition get_context (session_id : string) : M Context :=
  session <- get_session session_id ;;
  match session with
  | None => ret empty_context
  | Some session => ret (context session)
  end.

(** [update_session_status] *)
Definition update_session_status (session_id : string) (new_status : string) : M unit :=
  session <- get_session session_id ;;
  match session with
  | None => raise (ValueError ("会话不存在: " +:+ session_id))
  | Some session =>
      t <- now w ;;
      let session' := with_status session new_status (isoformat t) in
      mutate session_id session' ;;;
      _save_session session' ;;;
      ret ()
  end.

(** [d.strftime('%Y%m%d_%H%M%S')] *)
Definition strftime_compact (d : datetime) : string :=
  pad 4 (year d) +:+ pad 2 (month d) +:+ pad 2 (day d) +:+ "_"
  +:+ pad 2 (hour d) +:+ pad 2 (minute d) +:+ pad 2 (second d).

(** The context [create_session] gives a new session.  Its keys
    ["missing_info"] and ["paper_outline"] are written here and read
    nowhere. *)
Definition initial_context : Context :=
  {| collected_info := Some ∅; current_stage := Some "initial";
     paper_content := None; generation_process := ∅ |}.

(** [create_session]: the identifier is the user followed by the time of
    creation to the second. *)
Definition create_session (user_id title : string) : M ConversationSession :=
  t <- now w ;;
  let session_id := user_id +:+ "_" +:+ strftime_compact t in
  t' <- now w ;;
  let now := isoformat t' in
  let session :=
    {| session_id := session_id; user_id := user_id; title := title;
       messages := []; context := initial_context;
       created_at := now; updated_at := now; status := "active" |} in
  mutate session_id session ;;;
  _save_session session ;;;
  ret session.

(** [delete_session]: the session leaves the memory and its file is removed,
    each if it is there. *)
Definition delete_session (session_id : string) : M unit :=
  fun st =>
    (Val (),
     {| active_sessions := delete session_id (active_sessions st);
        storage := delete session_id (storage st);
        requests := requests st; clock_reads := clock_reads st |}).

(** Where a stable sort by [updated_at], latest first, puts [x] in front of
    the sorted [l], all of whose elements come after [x] in the input: before
    the first element that is not later than [x]. *)
Fixpoint insert_latest_first (x : ConversationSession) (l : list ConversationSession)
    : list ConversationSession :=
  match l with
  | [] => [x]
  | y :: l' =>
      if String.ltb (updated_at x) (updated_at y) then y :: insert_latest_first x l'
      else x :: y :: l'
  end.

(** [sessions.sort(key=lambda x: x.updated_at, reverse=True)] *)
Definition sort_latest_first (sessions : list ConversationSession)
    : list ConversationSession :=
  foldr insert_latest_first [] sessions.

(** [for filename in os.listdir(...)] of [list_sessions]: the sessions of
    the files that load, of the user if one is given, in the order of the
    listing. *)
Fixpoint listed_sessions (st : State) (listing : list string) (user : option string)
    : list ConversationSession :=
  match listing with
  | [] => []
  | session_id :: rest =>
      match fst (_load_session session_id st) with
      | Val (Some session) =>
          match user with
          | None => session :: listed_sessions st rest user
          | Some u =>
              if String.eqb (user_id session) u
              then session :: listed_sessions st rest user
              else listed_sessions st rest user
          end
      | Val None => listed_sessions st rest user
      | Raise _ => listed_sessions st rest user
      end
  end.

(** [list_sessions]; [listing] holds the names of the session files, without
    their extension, in the order [os.listdir] returns them. *)
Definition list_sessions (listing : list string) (user : option string)
    : M (list ConversationSession) :=
  fun st => (Val (sort_latest_first (listed_sessions st listing user)), st).
End Manager.
End ConversationManager.

(** ** Configuration and prompt provider *)

(** An entry of [model_collaboration.roles] in [config.yaml]; a key that is
    absent is [None]. *)
Record RoleConfig := {
  description : option string;
  temperature : option Q
}.

(** The parts of [config.yaml] the program reads. *)
Record Config := {
  role_config : gmap string RoleConfig;
  cfg_max_rounds : option nat;
  cfg_min_rounds : option nat
}.

(** [prompt_templates.py], and the engine's [_format_collected_info].  They
    render a dictionary or a text into a constant template with [str.format];
    every template holds exactly the placeholders it is given, so they return
    a text and do not raise.  The texts are only ever sent to a backend, and
    how a dictionary with arbitrary values prints is left open. *)
Record PromptTemplates := {
  get_model_collaboration_prompt : string -> string -> string -> string;
  get_content_generation_prompt : string -> gmap string value -> string;
  get_quality_review_prompt : string -> string;
  get_structure_optimization_prompt : string -> string;
  _format_collected_info : gmap string value -> string
}.

(** The newline and the double quote as texts. *)
Definition nl : string := String (Ascii.ascii_of_nat 10) "".
Definition dq : string := String (Ascii.ascii_of_nat 34) "".

(** A text given line by line. *)
Definition lines (ls : list string) : string := String.concat nl ls.

(** ** [collaboration_engine.py] *)

Module CollaborationEngine.

(** [ModelRole] *)
Definition INFORMATION_COLLECTOR : string := "information_collector".
Definition CONTENT_GENERATOR : string := "content_generator".
Definition QUALITY_REVIEWER : string := "quality_reviewer".
Definition STRUCTURE_OPTIMIZER : string := "structure_optimizer".

Definition roles : list string :=
  [INFORMATION_COLLECTOR; CONTENT_GENERATOR; QUALITY_REVIEWER; STRUCTURE_OPTIMIZER].

(** [for i, role in enumerate(roles): mapping[role] = services[i % len(services)]],
    from index [i] on.  The index is in range as soon as [services] is not
    empty, which the caller has checked. *)
Fixpoint assign_loop (services : list string) (rs : list string) (i : nat)
    (mapping : gmap string string) : gmap string string :=
  match rs with
  | [] => mapping
  | role :: rest =>
      match services !! (i mod length services) with
      | Some service => assign_loop services rest (S i) (<[role := service]> mapping)
      | None => mapping
      end
  end.

(** [_assign_services_to_roles] *)
Definition _assign_services_to_roles (w : World) : gmap string string :=
  let services := AIService.get_service_names w in
  match services with
  | [] => ∅
  | [service_name] =>
      <[STRUCTURE_OPTIMIZER := service_name]>
        (<[QUALITY_REVIEWER := service_name]>
           (<[CONTENT_GENERATOR := service_name]>
              (<[INFORMATION_COLLECTOR := service_name]> ∅)))
  | _ => assign_loop services roles 0 ∅
  end.

(** The dictionary [review_quality] returns. *)
Record ReviewResult := { review : string; review_status : string }.

(** The dictionary [collaborative_generation] returns; [error] is [None]
    when the key is absent. *)
Record GenerationResult := {
  section : string;
  final_content : string;
  iterations : list Iteration;
  status : string;
  error : option string
}.

(** The local variables of [collaborative_generation] that its exception
    handler and its caller see: [current_content] ([None] while it is not
    bound) and the trace [result["iterations"]]. *)
Record Frame := { current_content : option string; trace : list Iteration }.

(** Run [m] inside the [try] block: if it raises, the block is left with the
    locals [fr]; otherwise continue with [k]. *)
Definition guarded {A} (m : M A) (fr : Frame)
    (k : A -> State -> (option exn * Frame) * State) : State -> (option exn * Frame) * State :=
  fun st =>
    match m st with
    | (Val a, st') => k a st'
    | (Raise e, st') => ((Some e, fr), st')
    end.

Section Engine.
Context (w : World) (cfg : Config) (p : PromptTemplates).

(** [self.role_service_mapping], computed once from the registry. *)
Definition role_service_mapping : gmap string string := _assign_services_to_roles w.

(** [self.role_config.get(role, {})] *)
Definition role_config_get (role : string) : RoleConfig :=
  default {| description := None; temperature := None |} (role_config cfg !! role).

(** [collect_information] *)
Definition collect_information (current_stage : string)
    (collected_info : gmap string value)
    (conversation_history : option (list ChatMessage)) : M string :=
  let role_config := role_config_get INFORMATION_COLLECTOR in
  let temperature := default (7 # 10)%Q (temperature role_config) in
  let collected_info_text := _format_collected_info p collected_info in
  let prompt :=
    get_model_collaboration_prompt p INFORMATION_COLLECTOR collected_info_text current_stage in
  let system_role := default "信息收集专家" (description role_config) in
  let messages :=
    [{| chat_role := "system"; chat_content := system_role |}]
    ++ match conversation_history with
       | Some (m :: h) => drop (length (m :: h) - 6) (m :: h)
       | Some [] => []
       | None => []
       end
    ++ [{| chat_role := "user"; chat_content := prompt |}] in
  let service_name := role_service_mapping !! INFORMATION_COLLECTOR in
  try_except
    (AIService.chat w messages service_name temperature 2000)
    (fun e => ret ("信息收集失败: " +:+ str_exn e)).

(** [generate_content] *)
Definition generate_content (section : string) (collected_info : gmap string value)
    (requirements : string) : M string :=
  let role_config := role_config_get CONTENT_GENERATOR in
  let temperature := default (8 # 10)%Q (temperature role_config) in
  let prompt := get_content_generation_prompt p section collected_info in
  let prompt :=
    if str_truthy requirements
    then prompt +:+ nl +:+ nl +:+ "额外要求：" +:+ nl +:+ requirements
    else prompt in
  let system_role := default "内容生成专家" (description role_config) in
  let messages :=
    [{| chat_role := "system"; chat_content := system_role |};
     {| chat_role := "user"; chat_content := prompt |}] in
  let service_name := role_service_mapping !! CONTENT_GENERATOR in
  try_except
    (AIService.chat w messages service_name temperature 4000)
    (fun e => ret ("内容生成失败: " +:+ str_exn e)).

(** [review_quality] *)
Definition review_quality (content : string) (section : string) : M ReviewResult :=
  let role_config := role_config_get QUALITY_REVIEWER in
  let temperature := default (3 # 10)%Q (temperature role_config) in
  let prompt := get_quality_review_prompt p content in
  let prompt :=
    if str_truthy section
    then "请审核以下论文" +:+ section +:+ "部分的内容：" +:+ nl +:+ nl +:+ prompt
    else prompt in
  let system_role := default "质量审核专家" (description role_config) in
  let messages :=
    [{| chat_role := "system"; chat_content := system_role |};
     {| chat_role := "user"; chat_content := prompt |}] in
  let service_name := role_service_mapping !! QUALITY_REVIEWER in
  try_except
    (response <- AIService.chat w messages service_name temperature 3000 ;;
     ret {| review := response; review_status := "success" |})
    (fun e => ret {| review := "审核失败: " +:+ str_exn e; review_status := "error" |}).

(** [optimize_structure] *)
Definition optimize_structure (content : string) (section : string) : M string :=
  let role_config := role_config_get STRUCTURE_OPTIMIZER in
  let temperature := default (5 # 10)%Q (temperature role_config) in
  let prompt := get_structure_optimization_prompt p content in
  let prompt :=
    if str_truthy section
    then "请优化以下论文" +:+ section +:+ "部分的结构：" +:+ nl +:+ nl +:+ prompt
    else prompt in
  let system_role := default "结构优化专家" (description role_config) in
  let messages :=
    [{| chat_role := "system"; chat_content := system_role |};
     {| chat_role := "user"; chat_content := prompt |}] in
  let service_name := role_service_mapping !! STRUCTURE_OPTIMIZER in
  try_except
    (AIService.chat w messages service_name temperature 4000)
    (fun e => ret ("结构优化失败: " +:+ str_exn e)).

(** The request of step four of an iteration: the generator is asked for an
    improved version; the call is not wrapped in a handler of its own. *)
Definition improve (current_content review optimized_content : string) : M string :=
  let improvement_prompt :=
    lines [""; "基于以下审核意见和优化建议，改进内容：";
           ""; "原始内容："; current_content;
           ""; "审核意见："; review;
           ""; "优化建议："; optimized_content;
           ""; "请生成改进后的内容："; ""] in
  let role_config := role_config_get CONTENT_GENERATOR in
  let messages :=
    [{| chat_role := "system";
        chat_content := default "内容生成专家" (description role_config) |};
     {| chat_role := "user"; chat_content := improvement_prompt |}] in
  let service_name := role_service_mapping !! CONTENT_GENERATOR in
  AIService.chat w messages service_name (7 # 10)%Q 4000.

(** [for i in range(iterations): ...] inside the [try] block, with
    [remaining] iterations to go, the next one having index [i]. *)
Fixpoint refine (section : string) (remaining i : nat) (current_content : string)
    (trace : list Iteration) : State -> (option exn * Frame) * State :=
  match remaining with
  | 0 => fun st => ((None, {| current_content := Some current_content; trace := trace |}), st)
  | S remaining' =>
      guarded (review_quality current_content section)
        {| current_content := Some current_content; trace := trace |}
        (fun review_result =>
           let trace1 :=
             trace ++ [{| iteration := i + 1; type := "quality_review";
                          iter_content := review review_result |}] in
           guarded (optimize_structure current_content section)
             {| current_content := Some current_content; trace := trace1 |}
             (fun optimized_content =>
                let trace2 :=
                  trace1 ++ [{| iteration := i + 1; type := "structure_optimization";
                                iter_content := optimized_content |}] in
                guarded (improve current_content (review review_result) optimized_content)
                  {| current_content := Some current_content; trace := trace2 |}
                  (fun improved_content =>
                     refine section remaining' (S i) improved_content
                       (trace2 ++ [{| iteration := i + 1; type := "improved_generation";
                                      iter_content := improved_content |}]))))
  end.

(** The [try] block of [collaborative_generation]. *)
Definition generation_block (section : string) (collected_info : gmap string value)
    (iterations : nat) : State -> (option exn * Frame) * State :=
  guarded (generate_content section collected_info "")
    {| current_content := None; trace := [] |}
    (fun initial_content =>
       refine section iterations 0 initial_content
         [{| iteration := 0; type := "initial_generation";
             iter_content := initial_content |}]).

(** [collaborative_generation]: the handler keeps the trace built so far and
    takes [current_content] if it is bound, the empty text otherwise. *)
Definition collaborative_generation (section : string)
    (collected_info : gmap string value) (iterations : nat) : M GenerationResult :=
  fun st =>
    let '((exc, fr), st') := generation_block section collected_info iterations st in
    (Val match exc with
         | None =>
             {| section := section;
                final_content := default "" (current_content fr);
                iterations := trace fr;
                status := "success";
                error := None |}
         | Some e =>
             {| section := section;
                final_content :=
                  match current_content fr with Some c => c | None => "" end;
                iterations := trace fr;
                status := "error";
                error := Some (str_exn e) |}
         end, st').
End Engine.
End CollaborationEngine.

(** ** [prompt_templates.py]: the texts of the guided dialogue *)

(** The constants [SYSTEM_ROLE] and [INFORMATION_COLLECTION] of
    [PromptTemplates], and its [_format_collected_info].  The dictionary
    [INFORMATION_COLLECTION] always has the key ["initial"]: its text is kept
    apart from its other entries. *)
Record PromptTexts := {
  SYSTEM_ROLE : string;
  initial_collection_prompt : string;
  further_collection_prompts : gmap string string;
  format_collected_info : gmap string value -> string
}.

Module PromptBuilder.
Section Builder.
Context (t : PromptTexts).

(** The dictionary [PromptTemplates.INFORMATION_COLLECTION]. *)
Definition INFORMATION_COLLECTION : gmap string string :=
  <["initial" := initial_collection_prompt t]> (further_collection_prompts t).

(** [PromptTemplates.get_information_collection_prompt]: the text of the
    stage, that of ["initial"] for a stage without one. *)
Definition get_information_collection_prompt (stage : string) : string :=
  default (initial_collection_prompt t) (INFORMATION_COLLECTION !! stage).

(** [any(collected_info.values())] *)
Definition any_value (collected_info : gmap string value) : bool :=
  existsb (fun kv => truthy (snd kv)) (map_to_list collected_info).

(** [PromptBuilder.build_information_collection_message]: the summary of
    what was provided is added only when some value is truthy. *)
Definition build_information_collection_message (stage : string)
    (collected_info : option (gmap string value)) : string :=
  let base_prompt := get_information_collection_prompt stage in
  match collected_info with
  | Some info =>
      if any_value info
      then base_prompt +:+ nl +:+ nl +:+ "**您已提供的信息：**" +:+ nl
           +:+ format_collected_info t info
      else base_prompt
  | None => base_prompt
  end.
End Builder.
End PromptBuilder.

(** ** [paper_generator.py] *)

Module PaperGenerator.

(** [PaperGenerationStage] *)
Definition INITIAL : string := "initial".
Definition RESEARCH_BACKGROUND : string := "research_background".
Definition METHODOLOGY : string := "methodology".
Definition RESULTS : string := "results".
Definition DISCUSSION : string := "discussion".
Definition LITERATURE_REVIEW : string := "literature_review".
Definition GENERATING : string := "generating".
Definition COMPLETED : string := "completed".

(** [PaperSection] *)
Definition ABSTRACT : string := "abstract".
Definition INTRODUCTION : string := "introduction".
Definition CONCLUSION : string := "conclusion".

(** [self.stage_flow] *)
Definition stage_flow : list string :=
  [INITIAL; RESEARCH_BACKGROUND; METHODOLOGY; RESULTS; DISCUSSION;
   LITERATURE_REVIEW; GENERATING].

(** [self.max_rounds] and [self.min_rounds], with their defaults. *)
Definition max_rounds (cfg : Config) : nat := default 15 (cfg_max_rounds cfg).
Definition min_rounds (cfg : Config) : nat := default 5 (cfg_min_rounds cfg).

(** The dictionaries the entry points return, by shape. *)
Inductive Response :=
| RespError (error : string)
| RespCollecting (session_id stage message : string) (round : nat) (status : string)
| RespMissing (session_id stage message : string) (missing_info : list string)
    (status : string)
| RespCompleted (session_id stage message : string)
    (paper_content : gmap string string) (status : string)
| RespRegenerated (session_id section content : string) (status : string).

(** The value under ["status"], if the key is there. *)
Definition response_status (r : Response) : option string :=
  match r with
  | RespError _ => None
  | RespCollecting _ _ _ _ st => Some st
  | RespMissing _ _ _ _ st => Some st
  | RespCompleted _ _ _ _ st => Some st
  | RespRegenerated _ _ _ st => Some st
  end.

(** The value under ["stage"], if the key is there. *)
Definition response_stage (r : Response) : option string :=
  match r with
  | RespCollecting _ stage _ _ _ => Some stage
  | RespMissing _ stage _ _ _ => Some stage
  | RespCompleted _ stage _ _ _ => Some stage
  | RespError _ => None
  | RespRegenerated _ _ _ _ => None
  end.

(** *** The regular expression [\{[^}]+\}] *)

Definition is_open (c : Ascii.ascii) : bool := Ascii.eqb c (Ascii.ascii_of_nat 123).
Definition is_close (c : Ascii.ascii) : bool := Ascii.eqb c (Ascii.ascii_of_nat 125).

(** The characters of [s] before its first closing brace; [None] when [s]
    has no closing brace. *)
Fixpoint until_close (s : string) : option string :=
  match s with
  | EmptyString => None
  | String c s' =>
      if is_close c then Some EmptyString
      else match until_close s' with
           | Some body => Some (String c body)
           | None => None
           end
  end.

(** [re.search(r'\{[^}]+\}', s, re.DOTALL)], the matched text: the leftmost
    opening brace that is followed by at least one character other than a
    closing brace and then by a closing brace, up to that closing brace. *)
Fixpoint re_search (s : string) : option string :=
  match s with
  | EmptyString => None
  | String c s' =>
      if is_open c then
        match until_close s' with
        | Some (String b body) => Some (String c (String b body +:+ "}"))
        | Some EmptyString => re_search s'
        | None => re_search s'
        end
      else re_search s'
  end.

(** *** Completeness *)

Definition required_fields : list string :=
  ["研究主题"; "研究背景"; "研究目标"; "研究方法"; "数据来源"; "研究发现"].

(** [field not in collected_info or not collected_info[field]] *)
Definition absent_or_falsy (collected_info : gmap string value) (field : string) : bool :=
  match collected_info !! field with
  | None => true
  | Some v => negb (truthy v)
  end.

(** [for field in fields: if ...: missing_info.append(field)] *)
Fixpoint missing_loop (collected_info : gmap string value) (fields : list string)
    (missing_info : list string) : list string :=
  match fields with
  | [] => missing_info
  | field :: rest =>
      if absent_or_falsy collected_info field
      then missing_loop collected_info rest (missing_info ++ [field])
      else missing_loop collected_info rest missing_info
  end.

Record Completeness := {
  is_complete : bool;
  missing_info : list string;
  completeness_rate : float
}.

(** [_check_information_completeness]; the rate is the true division of two
    integers, a binary64 [float]. *)
Definition _check_information_completeness (collected_info : gmap string value)
  : Completeness :=
  let missing_info := missing_loop collected_info required_fields [] in
  {| is_complete := length missing_info =? 0;
     missing_info := missing_info;
     completeness_rate :=
       PrimFloat.div (float_of_nat (length required_fields - length missing_info))
         (float_of_nat (length required_fields)) |}.

Section Generator.
Context (w : World) (cfg : Config) (p : PromptTemplates).

(** What [_extract_information] falls back to. *)
Definition fallback_info (user_input : string) : gmap string value :=
  {[ "用户补充信息" := VStr user_input ]}.

Definition extraction_prompt (user_input stage : string) : string :=
  lines [""; "请从以下用户输入中提取学术论文相关的信息，并以结构化方式返回：";
         ""; "用户输入："; user_input;
         ""; "当前阶段：" +:+ stage;
         ""; "请提取以下类型的信息（如果有）：";
         "- 研究主题"; "- 研究背景"; "- 研究目标"; "- 研究方法"; "- 数据来源";
         "- 研究发现"; "- 理论基础"; "- 文献引用"; "- 研究问题"; "- 研究意义";
         "- 研究局限"; "- 未来方向";
         ""; "请以JSON格式返回提取的信息，例如：";
         "{";
         "    " +:+ dq +:+ "研究主题" +:+ dq +:+ ": " +:+ dq +:+ "..." +:+ dq +:+ ",";
         "    " +:+ dq +:+ "研究背景" +:+ dq +:+ ": " +:+ dq +:+ "..." +:+ dq +:+ ",";
         "    ...";
         "}";
         ""; "如果某项信息不存在，请忽略该字段。"; ""].

(** The two messages [_extract_information] sends. *)
Definition extraction_messages (user_input stage : string) : list ChatMessage :=
  [{| chat_role := "system";
      chat_content := "你是信息提取专家，擅长从文本中提取结构化信息。" |};
   {| chat_role := "user"; chat_content := extraction_prompt user_input stage |}].

(** [_extract_information]: the inner [try] around [json.loads] passes on
    any failure, the outer one turns any exception into the fallback. *)
Definition _extract_information (user_input stage : string) : M (gmap string value) :=
  try_except
    (let messages := extraction_messages user_input stage in
     response <- AIService.chat w messages None (3 # 10)%Q 1000 ;;
     match re_search response with
     | Some json_match =>
         match json_loads w json_match with
         | Some extracted => ret extracted
         | None => ret (fallback_info user_input)
         end
     | None => ret (fallback_info user_input)
     end)
    (fun e => ret (fallback_info user_input)).

Definition only_stage (stage : string) : ConversationManager.ContextUpdates :=
  {| ConversationManager.upd_collected_info := None;
     ConversationManager.upd_current_stage := Some stage;
     ConversationManager.upd_paper_content := None;
     ConversationManager.upd_generation_process := ∅ |}.

Definition only_collected_info (collected_info : gmap string value)
  : ConversationManager.ContextUpdates :=
  {| ConversationManager.upd_collected_info := Some collected_info;
     ConversationManager.upd_current_stage := None;
     ConversationManager.upd_paper_content := None;
     ConversationManager.upd_generation_process := ∅ |}.

Definition only_generation_process (section : string) (trace : list Iteration)
  : ConversationManager.ContextUpdates :=
  {| ConversationManager.upd_collected_info := None;
     ConversationManager.upd_current_stage := None;
     ConversationManager.upd_paper_content := None;
     ConversationManager.upd_generation_process := {[ section := trace ]} |}.

Definition only_paper_content (paper_content : gmap string string)
  : ConversationManager.ContextUpdates :=
  {| ConversationManager.upd_collected_info := None;
     ConversationManager.upd_current_stage := None;
     ConversationManager.upd_paper_content := Some paper_content;
     ConversationManager.upd_generation_process := ∅ |}.

Definition paper_content_and_stage (paper_content : gmap string string) (stage : string)
  : ConversationManager.ContextUpdates :=
  {| ConversationManager.upd_collected_info := None;
     ConversationManager.upd_current_stage := Some stage;
     ConversationManager.upd_paper_content := Some paper_content;
     ConversationManager.upd_generation_process := ∅ |}.

(** [_continue_information_collection] *)
Definition _continue_information_collection (session_id current_stage : string)
    (collected_info : gmap string value) (current_round : nat) : M Response :=
  let stage_index :=
    if length stage_flow <=? current_round then length stage_flow - 1 else current_round in
  match stage_flow !! (stage_index `min` (length stage_flow - 1)) with
  | None => raise (IndexError "list index out of range")
  | Some next_stage =>
      ConversationManager.update_context w session_id (only_stage next_stage) ;;;
      conversation_history <- ConversationManager.get_messages_for_api session_id (Some 6) ;;
      response_message <-
        CollaborationEngine.collect_information w cfg p next_stage collected_info
          (Some conversation_history) ;;
      ConversationManager.add_message w session_id "assistant" response_message None ;;;
      ret (RespCollecting session_id next_stage response_message (current_round + 1)
             "collecting")
  end.

Definition missing_prompt (missing_info : list string) : string :=
  let missing_info_text := String.concat "、" missing_info in
  lines [""; "感谢您提供的详细信息！我注意到还需要补充一些关键信息，以便生成更完整的论文：";
         ""; "缺失的信息：" +:+ missing_info_text;
         ""; "请补充这些信息，或者如果您认为现有信息已经足够，我可以开始生成论文。您希望：";
         ""; "1. 补充缺失的信息"; "2. 基于现有信息开始生成论文";
         ""; "请选择或直接提供补充信息。"; ""].

(** [_collect_missing_information] *)
Definition _collect_missing_information (session_id : string)
    (collected_info : gmap string value) (missing_info : list string) : M Response :=
  let prompt := missing_prompt missing_info in
  ConversationManager.add_message w session_id "assistant" prompt None ;;;
  ret (RespMissing session_id "collecting_missing" prompt missing_info "collecting").

(** The section list of [_generate_full_paper]. *)
Definition sections : list string :=
  [ABSTRACT; INTRODUCTION; LITERATURE_REVIEW; METHODOLOGY; RESULTS; DISCUSSION;
   CONCLUSION].

(** [for section in sections: ...] of [_generate_full_paper], the dictionary
    [paper_content] being filled as it goes. *)
Fixpoint generate_sections (session_id : string) (collected_info : gmap string value)
    (todo : list string) (paper_content : gmap string string) : M (gmap string string) :=
  match todo with
  | [] => ret paper_content
  | section :: rest =>
      result <- CollaborationEngine.collaborative_generation w cfg p section collected_info 1 ;;
      let paper_content :=
        <[section := CollaborationEngine.final_content result]> paper_content in
      ConversationManager.update_context w session_id
        (only_generation_process section (CollaborationEngine.iterations result)) ;;;
      generate_sections session_id collected_info rest paper_content
  end.

(** [_generate_full_paper] *)
Definition _generate_full_paper (session_id : string) (collected_info : gmap string value)
  : M (gmap string string) :=
  generate_sections session_id collected_info sections ∅.

Definition notification : string :=
  lines [""; "非常好！我已经收集到足够的信息。现在我将开始为您生成学术论文。";
         ""; "生成过程包括以下步骤：";
         "1. 生成摘要（Abstract）"; "2. 生成引言（Introduction）";
         "3. 生成文献综述（Literature Review）"; "4. 生成研究方法（Methodology）";
         "5. 生成研究结果（Results）"; "6. 生成讨论（Discussion）";
         "7. 生成结论（Conclusion）";
         ""; "整个过程可能需要几分钟时间，请稍候..."; ""].

Definition completion_message : string :=
  lines [""; "论文生成完成！您可以在右侧查看完整的论文内容。";
         ""; "您可以："; "1. 下载论文"; "2. 继续修改某个部分"; "3. 重新生成某个章节";
         ""; "请告诉我您的需求。"; ""].

(** [_start_paper_generation] *)
Definition _start_paper_generation (session_id : string)
    (collected_info : gmap string value) : M Response :=
  ConversationManager.update_context w session_id (only_stage GENERATING) ;;;
  ConversationManager.add_message w session_id "assistant" notification None ;;;
  paper_content <- _generate_full_paper session_id collected_info ;;
  ConversationManager.update_context w session_id
    (paper_content_and_stage paper_content COMPLETED) ;;;
  ConversationManager.update_session_status w session_id "completed" ;;;
  ConversationManager.add_message w session_id "assistant" completion_message None ;;;
  ret (RespCompleted session_id COMPLETED completion_message paper_content "completed").

(** [process_user_input].  [collected_info.update(extracted_info)] is the
    union in which the extracted entries win; [len(session.messages)] reads
    the session object after the user message was appended to it. *)
Definition process_user_input (session_id user_input : string) : M Response :=
  session <- ConversationManager.get_session session_id ;;
  match session with
  | None => ret (RespError "会话不存在")
  | Some session =>
      ConversationManager.add_message w session_id "user" user_input None ;;;
      context <- ConversationManager.get_context session_id ;;
      let current_stage := default INITIAL (current_stage context) in
      let collected_info := default ∅ (collected_info context) in
      extracted_info <- _extract_information user_input current_stage ;;
      let collected_info := extracted_info ∪ collected_info in
      ConversationManager.update_context w session_id (only_collected_info collected_info) ;;;
      session <- ConversationManager.current session_id session ;;
      let current_round := length (messages session) / 2 in
      if current_round <? min_rounds cfg then
        _continue_information_collection session_id current_stage collected_info
          current_round
      else
        let completeness := _check_information_completeness collected_info in
        if is_complete completeness || (max_rounds cfg <=? current_round) then
          _start_paper_generation session_id collected_info
        else
          _collect_missing_information session_id collected_info
            (missing_info completeness)
  end.

(** [regenerate_section]; [additional_requirements] is not used by the
    body. *)
Definition regenerate_section (session_id section additional_requirements : string)
  : M Response :=
  context <- ConversationManager.get_context session_id ;;
  let collected_info := default ∅ (collected_info context) in
  result <- CollaborationEngine.collaborative_generation w cfg p section collected_info 1 ;;
  let paper_content := default ∅ (paper_content context) in
  let paper_content :=
    <[section := CollaborationEngine.final_content result]> paper_content in
  ConversationManager.update_context w session_id (only_paper_content paper_content) ;;;
  ret (RespRegenerated session_id section (CollaborationEngine.final_content result)
         "success").

(** [get_paper_content] *)
Definition get_paper_content (session_id : string) : M (option (gmap string string)) :=
  context <- ConversationManager.get_context session_id ;;
  ret (paper_content context).

(** [text += ...] for each section of [sections_order] that is a key of
    [paper_content], in that order; [render] gives the text of one
    section. *)
Fixpoint export_sections (render : string -> string -> string)
    (sections_order : list (string * string)) (paper_content : gmap string string)
    (text : string) : string :=
  match sections_order with
  | [] => text
  | (section_key, section_title) :: rest =>
      match paper_content !! section_key with
      | Some body => export_sections render rest paper_content
                       (text +:+ render section_title body)
      | None => export_sections render rest paper_content text
      end
  end.

(** ["=" * n] *)
Fixpoint times (s : string) (n : nat) : string :=
  match n with 0 => "" | S n' => s +:+ times s n' end.

(** [_export_as_markdown] *)
Definition _export_as_markdown (paper_content : gmap string string) : M string :=
  let sections_order :=
    [("abstract", "摘要 (Abstract)");
     ("introduction", "引言 (Introduction)");
     ("literature_review", "文献综述 (Literature Review)");
     ("methodology", "研究方法 (Methodology)");
     ("results", "研究结果 (Results)");
     ("discussion", "讨论 (Discussion)");
     ("conclusion", "结论 (Conclusion)")] in
  let markdown := "# 学术论文" +:+ nl +:+ nl in
  t <- now w ;;
  let markdown := markdown +:+ "生成时间：" +:+ strftime_seconds t +:+ nl +:+ nl in
  let markdown := markdown +:+ "---" +:+ nl +:+ nl in
  ret (export_sections
         (fun section_title body =>
            "## " +:+ section_title +:+ nl +:+ nl +:+ body +:+ nl +:+ nl)
         sections_order paper_content markdown).

(** [_export_as_text] *)
Definition _export_as_text (paper_content : gmap string string) : M string :=
  let sections_order :=
    [("abstract", "摘要"); ("introduction", "引言"); ("literature_review", "文献综述");
     ("methodology", "研究方法"); ("results", "研究结果"); ("discussion", "讨论");
     ("conclusion", "结论")] in
  let text := times "=" 60 +:+ nl in
  let text := text +:+ "学术论文" +:+ nl in
  t <- now w ;;
  let text := text +:+ "生成时间：" +:+ strftime_seconds t +:+ nl in
  let text := text +:+ times "=" 60 +:+ nl +:+ nl in
  ret (export_sections
         (fun section_title body =>
            section_title +:+ nl +:+ times "-" 60 +:+ nl +:+ nl +:+ body +:+ nl +:+ nl)
         sections_order paper_content text).

(** [export_paper]: nothing is exported when the content is absent or
    empty. *)
Definition export_paper (session_id format : string) : M string :=
  paper_content <- get_paper_content session_id ;;
  match paper_content with
  | None => ret ""
  | Some paper_content =>
      if bool_decide (paper_content = ∅) then ret ""
      else if String.eqb format "markdown" then _export_as_markdown paper_content
      else if String.eqb format "text" then _export_as_text paper_content
      else _export_as_markdown paper_content
  end.

(** The dictionary [start_new_paper] returns. *)
Record Started := {
  started_session_id : string;
  started_stage : string;
  started_message : string;
  started_round : nat
}.

Context (t : PromptTexts).

(** [start_new_paper]: a new session that opens with the system message and
    the first guiding message. *)
Definition start_new_paper (user_id title : string) : M Started :=
  session <- ConversationManager.create_session w user_id title ;;
  ConversationManager.add_message w (session_id session) "system" (SYSTEM_ROLE t) None ;;;
  let initial_message := PromptBuilder.build_information_collection_message t INITIAL None in
  ConversationManager.add_message w (session_id session) "assistant" initial_message None ;;;
  ret {| started_session_id := session_id session;
         started_stage := INITIAL;
         started_message := initial_message;
         started_round := 1 |}.
End Generator.
End PaperGenerator.

(** ** [app.py]: the request handlers over the generator *)

Module App.

(** What a handler answers: the data of a successful answer (status 200),
    or an error text with its HTTP status. *)
Inductive Answer (A : Type) :=
| Success (data : A)
| Error (code : nat) (error : string).
Arguments Success {A} data.
Arguments Error {A} code error.

(** The body of a [/api/paper/start] request, by the keys the handler
    reads; a key that is absent is [None].  The bodies covered are those in
    which [user_id] and [title] are texts, [collected_info] is an object and
    [skip_conversation] is a boolean. *)
Record StartRequest := {
  req_user_id : option string;
  req_title : option string;
  req_collected_info : option (gmap string value);
  req_skip_conversation : option bool
}.

(** The [data] of a successful start: the fixed answer when the dialogue
    is skipped, otherwise what [start_new_paper] returned. *)
Inductive StartData :=
| Skipped (session_id stage message : string)
| Opened (result : PaperGenerator.Started).

(** The file [export_paper] sends. *)
Record Download := {
  body : string;
  download_name : string;
  mimetype : string
}.

(** [if collected_info] on a dictionary. *)
Definition dict_truthy {A} (m : gmap string A) : bool := negb (bool_decide (m = ∅)).

Section Handlers.
Context (w : World) (cfg : Config) (p : PromptTemplates) (t : PromptTexts).

(** [start_paper] *)
Definition start_paper (data : StartRequest) : M (Answer StartData) :=
  try_except
    (let user_id := default "default_user" (req_user_id data) in
     let title := default "新论文项目" (req_title data) in
     let collected_info := default ∅ (req_collected_info data) in
     let skip_conversation := default false (req_skip_conversation data) in
     session <- ConversationManager.create_session w user_id title ;;
     (if dict_truthy collected_info then
        ConversationManager.update_context w (session_id session)
          {| ConversationManager.upd_collected_info := Some collected_info;
             ConversationManager.upd_current_stage :=
               Some (if skip_conversation then "generating" else "initial");
             ConversationManager.upd_paper_content := None;
             ConversationManager.upd_generation_process := ∅ |}
      else ret ()) ;;;
     if skip_conversation then
       ret (Success (Skipped (session_id session) "generating"
                       "项目创建成功，即将开始生成论文"))
     else
       result <- PaperGenerator.start_new_paper w t user_id title ;;
       ret (Success (Opened result)))
    (fun e => ret (Error 500 (str_exn e))).

(** [not x] on an optional text: absent or empty. *)
Definition blank (x : option string) : bool :=
  match x with
  | Some s => negb (str_truthy s)
  | None => true
  end.

(** [generate_paper]: the full paper without the dialogue. *)
Definition generate_paper (session_id : option string)
    : M (Answer (gmap string string * string)) :=
  try_except
    (if blank session_id then ret (Error 400 "缺少session_id参数")
     else
       let session_id := default "" session_id in
       context <- ConversationManager.get_context session_id ;;
       let collected_info := default ∅ (collected_info context) in
       paper_content <- PaperGenerator._generate_full_paper w cfg p session_id collected_info ;;
       ConversationManager.update_context w session_id
         (PaperGenerator.paper_content_and_stage paper_content "completed") ;;;
       ConversationManager.update_session_status w session_id "completed" ;;;
       ret (Success (paper_content, session_id)))
    (fun e => ret (Error 500 (str_exn e))).

(** [export_paper]: [format] is the query argument, ["markdown"] when it is
    not given.  The handler reads [session.title] of what [get_session]
    returns; on [None] that raises, which the handler answers with 500. *)
Definition export_paper (session_id : string) (format : option string)
    : M (Answer Download) :=
  try_except
    (let format := default "markdown" format in
     content <- PaperGenerator.export_paper w session_id format ;;
     if negb (str_truthy content) then ret (Error 404 "论文内容不存在")
     else
       session <- ConversationManager.get_session session_id ;;
       match session with
       | None => raise (Exception "'NoneType' object has no attribute 'title'")
       | Some session =>
           d <- now w ;;
           let filename := title session +:+ "_" +:+ ConversationManager.strftime_compact d in
           if String.eqb format "markdown" then
             ret (Success {| body := content; download_name := filename +:+ ".md";
                             mimetype := "text/markdown" |})
           else
             ret (Success {| body := content; download_name := filename +:+ ".txt";
                             mimetype := "text/plain" |})
       end)
    (fun e => ret (Error 500 (str_exn e))).
End Handlers.
End App.

(** * Vocabulary of the properties *)

(** The number a finite [float] stands for. *)
Definition float_value (f : float) : option Q :=
  match Prim2SF f with
  | S754_zero _ => Some 0%Q
  | S754_finite s m e => Some ((if s then -1 else 1) * inject_Z (Z.pos m) * Qpower 2 e)%Q
  | S754_infinity _ => None
  | S754_nan => None
  end.

(** What [get_session] finds for an identifier: the session held in memory,
    otherwise the one its file loads as. *)
Definition find_session (st : State) (session_id : string) : option ConversationSession :=
  match active_sessions st !! session_id with
  | Some s => Some s
  | None =>
      match storage st !! session_id with
      | Some (Stored s) => Some s
      | Some Unreadable => None
      | None => None
      end
  end.

(** The session is held in memory under the identifier. *)
Definition in_memory (st : State) (session_id : string) (s : ConversationSession) : Prop :=
  active_sessions st !! session_id = Some s.

(** Two states with the same sessions, files and clock position: they may
    differ in the number of backend requests only. *)
Definition same_store (st st' : State) : Prop :=
  active_sessions st' = active_sessions st
  ∧ storage st' = storage st
  ∧ clock_reads st' = clock_reads st.

(** Two values of a session that agree on everything but the generation
    traces and the time of the last update. *)
Definition only_traces_differ (s s' : ConversationSession) : Prop :=
  session_id s' = session_id s ∧ user_id s' = user_id s ∧ title s' = title s
  ∧ messages s' = messages s ∧ status s' = status s ∧ created_at s' = created_at s
  ∧ collected_info (context s') = collected_info (context s)
  ∧ current_stage (context s') = current_stage (context s)
  ∧ paper_content (context s') = paper_content (context s).

(** The [collected_info] dictionary of a session, empty when the session or
    the key is absent. *)
Definition info_of (st : State) (session_id : string) : gmap string value :=
  match find_session st session_id with
  | Some s => default ∅ (collected_info (context s))
  | None => ∅
  end.

(** A field counts as filled when it is a key whose value is truthy. *)
Definition filled (info : gmap string value) (field : string) : Prop :=
  ∃ v, info !! field = Some v ∧ truthy v = true.

(** The state after a sequence of user turns on one session. *)
Fixpoint run_turns (w : World) (cfg : Config) (p : PromptTemplates) (session_id : string)
    (inputs : list string) (st : State) : State :=
  match inputs with
  | [] => st
  | user_input :: rest =>
      run_turns w cfg p session_id rest
        (snd (PaperGenerator.process_user_input w cfg p session_id user_input st))
  end.

(** [a] may stand before [b]: [b] was not updated later than [a]. *)
Definition not_later (b a : ConversationSession) : Prop :=
  String.ltb (updated_at a) (updated_at b) = false.

(** No character of the text is a closing brace. *)
Fixpoint no_close (s : string) : Prop :=
  match s with
  | EmptyString => True
  | String c s' => PaperGenerator.is_close c = false ∧ no_close s'
  end.

(** The part of [process_user_input] that follows the appending of the user
    message; [session] is what [get_session] returned at the start. *)
Definition turn_tail (w : World) (cfg : Config) (p : PromptTemplates)
    (session_id user_input : string) (session : ConversationSession)
    : M PaperGenerator.Response :=
  context <- ConversationManager.get_context session_id ;;
  let current_stage := default PaperGenerator.INITIAL (current_stage context) in
  let collected_info := default ∅ (collected_info context) in
  extracted_info <- PaperGenerator._extract_information w user_input current_stage ;;
  let collected_info := extracted_info ∪ collected_info in
  ConversationManager.update_context w session_id
    (PaperGenerator.only_collected_info collected_info) ;;;
  session <- ConversationManager.current session_id session ;;
  let current_round := length (messages session) / 2 in
  if current_round <? PaperGenerator.min_rounds cfg then
    PaperGenerator._continue_information_collection w cfg p session_id current_stage
      collected_info current_round
  else
    let completeness := PaperGenerator._check_information_completeness collected_info in
    if PaperGenerator.is_complete completeness
       || (PaperGenerator.max_rounds cfg <=? current_round) then
      PaperGenerator._start_paper_generation w cfg p session_id collected_info
    else
      PaperGenerator._collect_missing_information w session_id collected_info
        (PaperGenerator.missing_info completeness).

(** The session is in memory under its own identifier and its file holds
    the same value. *)
Definition persisted (st : State) (sid : string) : Prop :=
  ∃ s, active_sessions st !! sid = Some s ∧ session_id s = sid
       ∧ storage st !! sid = Some (Stored s).

(** [m] keeps the property [I] of the state, whether it returns or raises. *)
Definition keeps {A} (I : State → Prop) (m : M A) : Prop :=
  ∀ st, I st → I (snd (m st)).

(** The session [sid] is in memory under its own identifier and the other
    identifier resolves to [x]. *)
Definition beside (sid other : string) (x : option ConversationSession) (st : State) : Prop :=
  (∃ s, active_sessions st !! sid = Some s ∧ session_id s = sid)
  ∧ find_session st other = x.

(** * Scenarios

    Concrete worlds, configurations and stores on which the definitions are
    run. *)

Module Scenario.

(** A clock that advances one second per reading. *)
Definition ticking (n : nat) : datetime :=
  {| year := 2024; month := 1; day := 1; hour := 0;
     minute := (n / 60) mod 60; second := n mod 60; microsecond := 0 |}.

(** A clock that advances one microsecond per reading. *)
Definition racing (n : nat) : datetime :=
  {| year := 2024; month := 1; day := 1; hour := 0;
     minute := 0; second := 0; microsecond := n |}.

(** No [config.yaml]: every default applies. *)
Definition defaults : Config :=
  {| role_config := ∅; cfg_max_rounds := None; cfg_min_rounds := None |}.


(** Stand-in prompt texts. *)
Definition prompts : PromptTemplates :=
  {| get_model_collaboration_prompt := fun role collected_info stage =>
       role +:+ ": " +:+ collected_info +:+ " @ " +:+ stage;
     get_content_generation_prompt := fun section _ => "write " +:+ section;
     get_quality_review_prompt := fun content => "review " +:+ content;
     get_structure_optimization_prompt := fun content => "optimize " +:+ content;
     _format_collected_info := fun _ => "info" |}.

(** No backend is registered. *)
Definition offline : World :=
  {| service_names := [];
     backend := fun _ _ _ _ _ => Failure "unreachable";
     clock := ticking;
     json_loads := fun _ => None |}.

(** No backend, and a clock read several times within one second. *)
Definition offline_racing : World :=
  {| service_names := [];
     backend := fun _ _ _ _ _ => Failure "unreachable";
     clock := racing;
     json_loads := fun _ => None |}.

(** One backend whose outcomes are given by the position of the request in
    the run. *)
Definition scripted (script : nat → outcome) : World :=
  {| service_names := ["ollama"];
     backend := fun n _ _ _ _ => script n;
     clock := ticking;
     json_loads := fun _ => None |}.

(** The seventh request, the improved generation of iteration 2, fails. *)
Definition fails_in_second_iteration : World :=
  scripted (fun n =>
    match n with
    | 0 => Reply "draft"
    | 3 => Reply "better"
    | 6 => Failure "timeout"
    | _ => Reply "remarks"
    end).

(** Only the second request, the review of iteration 1, fails. *)
Definition reviewer_fails : World :=
  scripted (fun n =>
    match n with
    | 0 => Reply "draft"
    | 1 => Failure "timeout"
    | 3 => Reply "better"
    | _ => Reply "remarks"
    end).

(** Three registered backends. *)
Definition three_backends : World :=
  {| service_names := ["ollama"; "api_1_gpt"; "api_2_glm"];
     backend := fun _ _ _ _ _ => Reply "ok";
     clock := ticking;
     json_loads := fun _ => None |}.

(** The object text whose research topic is the empty text. *)
Definition blank_topic : string :=
  "{" +:+ dq +:+ "研究主题" +:+ dq +:+ ": " +:+ dq +:+ dq +:+ "}".

(** A backend that answers every request with [blank_topic], which
    [json.loads] reads as the dictionary with that one entry. *)
Definition blanking : World :=
  {| service_names := ["ollama"];
     backend := fun _ _ _ _ _ => Reply ("提取结果：" +:+ blank_topic);
     clock := ticking;
     json_loads := fun text =>
       if String.eqb text blank_topic then Some {[ "研究主题" := VStr "" ]} else None |}.

Definition message (r c : string) : Message :=
  {| role := r; content := c; timestamp := "2024-01-01T00:00:00"; metadata := ∅ |}.

(** The identifier [create_session] gives a session of user [u]. *)
Definition sid : string := "u_20240101_000000".

(** A session with the given transcript, collected fields and paper. *)
Definition session (ms : list Message) (info : gmap string value)
    (paper : option (gmap string string)) : ConversationSession :=
  {| session_id := sid; user_id := "u"; title := "新论文项目";
     messages := ms;
     context := {| collected_info := Some info; current_stage := Some "initial";
                   paper_content := paper; generation_process := ∅ |};
     created_at := "2024-01-01T00:00:00"; updated_at := "2024-01-01T00:00:00";
     status := "active" |}.

(** A store that holds the one session, in memory and on the disk. *)
Definition holding (s : ConversationSession) : State :=
  {| active_sessions := {[ session_id s := s ]};
     storage := {[ session_id s := Stored s ]};
     requests := 0; clock_reads := 0 |}.

(** A store with no session at all. *)
Definition empty_store : State :=
  {| active_sessions := ∅; storage := ∅; requests := 0; clock_reads := 0 |}.

(** A transcript of the system message and [n] further messages. *)
Definition transcript (n : nat) : list Message :=
  message "system" "..." :: replicate n (message "assistant" "...").

(** Stand-in texts of the guided dialogue. *)
Definition texts : PromptTexts :=
  {| SYSTEM_ROLE := "你是学术论文写作助手";
     initial_collection_prompt := "请介绍您的研究主题";
     further_collection_prompts := {[ "research_background" := "请介绍研究背景" ]};
     format_collected_info := fun _ => "info" |}.

(** Every required field filled. *)
Definition complete_info : gmap string value :=
  list_to_map ((fun field => (field, VStr "已填写")) <$> PaperGenerator.required_fields).

(** A start request that brings one prefilled field and keeps the dialogue. *)
Definition prefilled : App.StartRequest :=
  {| App.req_user_id := Some "u"; App.req_title := None;
     App.req_collected_info := Some {[ "研究主题" := VStr "大模型" ]};
     App.req_skip_conversation := None |}.

(** A start request that skips the dialogue and brings nothing. *)
Definition skipping : App.StartRequest :=
  {| App.req_user_id := Some "u"; App.req_title := None;
     App.req_collected_info := None;
     App.req_skip_conversation := Some true |}.

(** Two backends that answer every request with their name and the number
    of the request. *)
Definition answering : World :=
  {| service_names := ["ollama"; "api_1_gpt"];
     backend := fun n name _ _ _ => Reply (name +:+ " #" +:+ pad 1 n);
     clock := ticking;
     json_loads := fun _ => None |}.

(** One backend through one iteration: a draft, two remarks, the improved
    text. *)
Definition one_pass : World :=
  scripted (fun n =>
    match n with
    | 0 => Reply "draft"
    | 3 => Reply "better"
    | _ => Reply "remarks"
    end).

End Scenario.

(** * Properties *)

(** ** Role assignment *)

Section RoleAssignment.
Import CollaborationEngine.

Lemma roles_lookup_cases (i : nat) (role : string) :
  roles !! i = Some role →
  (i = 0 ∧ role = INFORMATION_COLLECTOR) ∨ (i = 1 ∧ role = CONTENT_GENERATOR)
  ∨ (i = 2 ∧ role = QUALITY_REVIEWER) ∨ (i = 3 ∧ role = STRUCTURE_OPTIMIZER).
Proof.
  destruct i as [|[|[|[|i]]]]; simpl; intros H; inversion H; auto.
Qed.

Lemma assign_loop_roles (services : list string) :
  2 ≤ length services →
  ∀ i role, roles !! i = Some role →
    assign_loop services roles 0 ∅ !! role = services !! (i mod length services).
Proof.
  intros Hlen.
  assert (Hin : ∀ i, is_Some (services !! (i mod length services))).
  { intros i. apply lookup_lt_is_Some, Nat.mod_upper_bound. lia. }
  destruct (Hin 0) as [s0 H0], (Hin 1) as [s1 H1], (Hin 2) as [s2 H2], (Hin 3) as [s3 H3].
  unfold roles. cbn [assign_loop]. rewrite H0, H1, H2, H3.
  intros i role Hrole.
  destruct (roles_lookup_cases i role Hrole) as [[-> ->]|[[-> ->]|[[-> ->]|[-> ->]]]].
  - rewrite H0. do 3 (rewrite lookup_insert_ne by done). apply lookup_insert_eq.
  - rewrite H1. do 2 (rewrite lookup_insert_ne by done). apply lookup_insert_eq.
  - rewrite H2. do 1 (rewrite lookup_insert_ne by done). apply lookup_insert_eq.
  - rewrite H3. apply lookup_insert_eq.
Qed.

(** C2.  With no registered backend the role assignment is the empty
    mapping.  With [N >= 1] registered backends, the role at index [i] of the
    fixed order collector, generator, reviewer, optimizer is mapped, and it is
    mapped to the backend at index [i mod N] of the registered names.  With a
    single backend all four roles are mapped to it. *)
Theorem assign_services_round_robin (w : World) :
  let services := service_names w in
  let mapping := _assign_services_to_roles w in
  (length services = 0 → mapping = ∅)
  ∧ (1 ≤ length services →
     ∀ i role, roles !! i = Some role →
       is_Some (mapping !! role)
       ∧ mapping !! role = services !! (i mod length services))
  ∧ (∀ only, services = [only] → ∀ role, role ∈ roles → mapping !! role = Some only).
Proof.
  intros services mapping. subst mapping.
  unfold _assign_services_to_roles, AIService.get_service_names. fold services.
  assert (Hone : ∀ only role i, roles !! i = Some role →
            (<[STRUCTURE_OPTIMIZER := only]>
              (<[QUALITY_REVIEWER := only]>
                (<[CONTENT_GENERATOR := only]>
                  (<[INFORMATION_COLLECTOR := only]> (∅ : gmap string string))))) !! role
            = Some only).
  { intros only role i Hrole.
    destruct (roles_lookup_cases i role Hrole) as [[-> ->]|[[-> ->]|[[-> ->]|[-> ->]]]];
      repeat (rewrite lookup_insert_ne by done); apply lookup_insert_eq. }
  split; [|split].
  - destruct services; [done | simpl; lia].
  - intros Hlen i role Hrole.
    destruct services as [|a [|b l]] eqn:E.
    + simpl in Hlen. lia.
    + rewrite (Hone a role i Hrole). simpl length. rewrite Nat.mod_1_r. simpl. eauto.
    + rewrite <- E. rewrite assign_loop_roles with (i := i); [| rewrite E; simpl; lia | done].
      split; [|done]. apply lookup_lt_is_Some, Nat.mod_upper_bound. rewrite E. simpl. lia.
  - intros only -> role Hin. apply list_elem_of_lookup in Hin as [i Hi]. eauto.
Qed.
End RoleAssignment.

(** With three backends the optimizer, at index 3, shares the first
    backend with the collector. *)
Lemma assign_services_round_robin_witness :
  CollaborationEngine._assign_services_to_roles Scenario.three_backends
    !! CollaborationEngine.STRUCTURE_OPTIMIZER = Some "ollama"
  ∧ CollaborationEngine._assign_services_to_roles Scenario.three_backends
    !! CollaborationEngine.QUALITY_REVIEWER = Some "api_2_glm".
Proof.
  destruct (assign_services_round_robin Scenario.three_backends) as (_ & H & _).
  split.
  - apply (H ltac:(simpl; lia) 3 CollaborationEngine.STRUCTURE_OPTIMIZER eq_refl).
  - apply (H ltac:(simpl; lia) 2 CollaborationEngine.QUALITY_REVIEWER eq_refl).
Defined.

(** ** Completeness check *)

Section Completeness.
Import PaperGenerator.

Lemma absent_or_falsy_filled ci f : absent_or_falsy ci f = false ↔ filled ci f.
Proof.
  unfold absent_or_falsy, filled. destruct (ci !! f) as [v|].
  - destruct (truthy v) eqn:E; simpl; split; eauto; try done.
    intros (v' & Hv & Ht). inversion Hv; subst. congruence.
  - split; [done | intros (? & ? & _); done].
Qed.

Lemma absent_or_falsy_not_filled ci f : absent_or_falsy ci f = true ↔ ¬ filled ci f.
Proof.
  rewrite <- absent_or_falsy_filled. destruct (absent_or_falsy ci f); split; congruence.
Qed.

Lemma missing_loop_filter ci fields acc :
  missing_loop ci fields acc = acc ++ List.filter (absent_or_falsy ci) fields.
Proof.
  revert acc. induction fields as [|f fields IH]; intros acc; simpl.
  - by rewrite app_nil_r.
  - destruct (absent_or_falsy ci f); rewrite IH; [by rewrite <- app_assoc | done].
Qed.

Lemma list_filter_sublist {A} (f : A → bool) (l : list A) : sublist (List.filter f l) l.
Proof.
  induction l as [|a l IH]; simpl; [constructor|].
  destruct (f a); by constructor.
Qed.

Lemma filled_not_missing info field :
  filled info field → field ∉ missing_info (_check_information_completeness info).
Proof.
  intros Hf Hin. unfold _check_information_completeness in Hin. cbn [missing_info] in Hin.
  rewrite missing_loop_filter, app_nil_l in Hin.
  apply list_elem_of_In, filter_In in Hin as [_ Hin].
  by apply absent_or_falsy_not_filled in Hin.
Qed.

(** The binary64 quotient of [6 - n] by 6 and the fraction it rounds. *)
Lemma completeness_rate_near (n : nat) :
  n ≤ 6 →
  ∃ q,
    float_value (PrimFloat.div (float_of_nat (6 - n)) (float_of_nat 6)) = Some q
    ∧ (Qabs (q - inject_Z (Z.of_nat (6 - n)) / 6) <= 1 # 2 ^ 54)%Q
    ∧ ((q == inject_Z (Z.of_nat (6 - n)) / 6)%Q ↔ n ∈ [0; 3; 6]).
Proof.
  intros Hn.
  assert (Hcases : ∀ m, m ∈ [0; 3; 6] ↔ m = 0 ∨ m = 3 ∨ m = 6).
  { intros m. rewrite !elem_of_cons, elem_of_nil. tauto. }
  setoid_rewrite Hcases.
  do 7 (destruct n as [|n];
        [eexists; split; [vm_compute; reflexivity|]; split;
         [vm_compute; congruence
         |vm_compute; split;
          [intros H; try discriminate H; auto
          |intros [H|[H|H]]; (discriminate H || reflexivity)]]|]).
  lia.
Qed.

(** C5.  The completeness check is a function of [collected_info] alone over
    the six required fields: [is_complete] holds exactly when each of the six
    is a key with a truthy value; [missing_info] consists of exactly the
    required fields that are absent or falsy, in the order of the required
    list; and [completeness_rate] is [(6 - |missing_info|) / 6] as Python
    computes it, the binary64 quotient of the two integers: a number within
    [2^-54] of the fraction, and the fraction itself exactly when 0, 3 or 6
    fields are missing. *)
Theorem completeness_check (collected_info : gmap string value) :
  let r := _check_information_completeness collected_info in
  required_fields = ["研究主题"; "研究背景"; "研究目标"; "研究方法"; "数据来源"; "研究发现"]
  ∧ (is_complete r = true ↔ ∀ field, field ∈ required_fields → filled collected_info field)
  ∧ (∀ field, field ∈ missing_info r ↔
       field ∈ required_fields ∧ ¬ filled collected_info field)
  ∧ sublist (missing_info r) required_fields
  ∧ completeness_rate r
    = PrimFloat.div (float_of_nat (6 - length (missing_info r))) (float_of_nat 6)
  ∧ ∃ q,
      float_value (completeness_rate r) = Some q
      ∧ (Qabs (q - inject_Z (Z.of_nat (6 - length (missing_info r))) / 6) <= 1 # 2 ^ 54)%Q
      ∧ ((q == inject_Z (Z.of_nat (6 - length (missing_info r))) / 6)%Q
         ↔ length (missing_info r) ∈ [0; 3; 6]).
Proof.
  intros r. subst r. unfold _check_information_completeness.
  cbn [is_complete missing_info completeness_rate].
  rewrite missing_loop_filter, app_nil_l.
  assert (Hmem : ∀ field,
            field ∈ List.filter (absent_or_falsy collected_info) required_fields ↔
            field ∈ required_fields ∧ ¬ filled collected_info field).
  { intros field. rewrite !list_elem_of_In, filter_In, absent_or_falsy_not_filled. done. }
  split; [done|]. split; [|split; [done|split; [|split]]].
  - rewrite Nat.eqb_eq, length_zero_iff_nil. split.
    + intros Hnil field Hin. destruct (absent_or_falsy collected_info field) eqn:E.
      * apply absent_or_falsy_not_filled in E.
        assert (field ∈ List.filter (absent_or_falsy collected_info) required_fields) as Hf
          by (apply Hmem; done).
        rewrite Hnil in Hf. by apply elem_of_nil in Hf.
      * by apply absent_or_falsy_filled.
    + intros Hall.
      destruct (List.filter (absent_or_falsy collected_info) required_fields)
        as [|f l]; [done|].
      assert (f ∈ f :: l) as Hf by left. apply Hmem in Hf as [Hin Hn].
      destruct Hn. by apply Hall.
  - apply list_filter_sublist.
  - reflexivity.
  - change (length required_fields) with 6. apply completeness_rate_near.
    change 6 with (length required_fields). apply List.filter_length_le.
Qed.
End Completeness.

(** With the topic filled, the method set to the empty text and the rest
    absent, five fields are missing and the rate is the binary64 number next
    to one sixth, [6004799503160661 / 2^55]. *)
Lemma completeness_check_witness :
  let info : gmap string value := {[ "研究主题" := VStr "大模型"; "研究方法" := VStr "" ]} in
  let r := PaperGenerator._check_information_completeness info in
  PaperGenerator.is_complete r = false
  ∧ PaperGenerator.missing_info r = ["研究背景"; "研究目标"; "研究方法"; "数据来源"; "研究发现"]
  ∧ PaperGenerator.completeness_rate r = PrimFloat.div 1 6
  ∧ float_value (PaperGenerator.completeness_rate r)
    = Some (1 * inject_Z 6004799503160661 * Qpower 2 (-55))%Q.
Proof.
  intros info r.
  destruct (completeness_check info) as (_ & _ & _ & _ & Hrate & _).
  split; [reflexivity|]. split; [reflexivity|].
  fold r in Hrate. rewrite Hrate. split; vm_compute; reflexivity.
Defined.

(** ** The session store *)

Lemma same_store_refl st : same_store st st.
Proof. done. Qed.

Lemma same_store_trans st1 st2 st3 :
  same_store st1 st2 → same_store st2 st3 → same_store st1 st3.
Proof. unfold same_store. intros (-> & -> & ->) (-> & -> & ->). done. Qed.

Lemma in_memory_same_store st st' sid s :
  in_memory st sid s → same_store st st' → in_memory st' sid s.
Proof. unfold in_memory. intros H (-> & _). done. Qed.

Lemma find_session_in_memory st sid s :
  in_memory st sid s → find_session st sid = Some s.
Proof. unfold in_memory, find_session. by intros ->. Qed.

Section ManagerFacts.
Import ConversationManager.
Context (w : World).

Lemma get_session_in_memory st sid s :
  in_memory st sid s → get_session sid st = (Val (Some s), st).
Proof. unfold in_memory, get_session. intros ->. done. Qed.

(** [get_session] returns what [find_session] describes, leaves the session
    in memory when there is one, and changes nothing otherwise. *)
Lemma get_session_find st sid :
  fst (get_session sid st) = Val (find_session st sid)
  ∧ find_session (snd (get_session sid st)) sid = find_session st sid
  ∧ (∀ s, find_session st sid = Some s → in_memory (snd (get_session sid st)) sid s)
  ∧ (find_session st sid = None → snd (get_session sid st) = st).
Proof.
  unfold get_session, find_session, in_memory, bind, _load_session, mutate, ret.
  destruct (active_sessions st !! sid) as [s|] eqn:Ha; simpl.
  - rewrite Ha. repeat split; try done.
  - destruct (storage st !! sid) as [[s|]|] eqn:Hs; simpl;
      rewrite ?Ha, ?Hs, ?lookup_insert_eq; repeat split; try done.
Qed.

Lemma get_session_not_found st sid :
  find_session st sid = None → get_session sid st = (Val None, st).
Proof.
  intros H. destruct (get_session_find st sid) as (H1 & _ & _ & H4).
  rewrite H in H1. specialize (H4 H).
  destruct (get_session sid st) as [r st']. simpl in *. by subst.
Qed.

Lemma get_session_clock st sid :
  clock_reads (snd (get_session sid st)) = clock_reads st.
Proof.
  unfold get_session, bind, _load_session, mutate, ret.
  destruct (active_sessions st !! sid); [done|].
  by destruct (storage st !! sid) as [[|]|].
Qed.

Lemma add_message_in_memory st sid s role content md :
  in_memory st sid s →
  ∃ st' t t',
    add_message w sid role content md st
    = (Val {| role := role; content := content; timestamp := t; metadata := default ∅ md |},
       st')
    ∧ in_memory st' sid
        (with_messages s
           (messages s ++ [{| role := role; content := content; timestamp := t;
                              metadata := default ∅ md |}]) t')
    ∧ requests st' = requests st.
Proof.
  intros H. unfold add_message, bind. rewrite (get_session_in_memory _ _ _ H).
  unfold now, mutate, _save_session, ret, in_memory. simpl.
  eexists _, _, _. split; [reflexivity|]. simpl. rewrite lookup_insert_eq. done.
Qed.

Lemma update_context_in_memory st sid s u :
  in_memory st sid s →
  ∃ st' t,
    update_context w sid u st = (Val (), st')
    ∧ in_memory st' sid (with_context s (dict_update (context s) u) t)
    ∧ requests st' = requests st.
Proof.
  intros H. unfold update_context, bind. rewrite (get_session_in_memory _ _ _ H).
  unfold now, mutate, _save_session, ret, in_memory. simpl.
  eexists _, _. split; [reflexivity|]. simpl. rewrite lookup_insert_eq. done.
Qed.

Lemma update_session_status_in_memory st sid s new_status :
  in_memory st sid s →
  ∃ st' t,
    update_session_status w sid new_status st = (Val (), st')
    ∧ in_memory st' sid (with_status s new_status t)
    ∧ requests st' = requests st.
Proof.
  intros H. unfold update_session_status, bind. rewrite (get_session_in_memory _ _ _ H).
  unfold now, mutate, _save_session, ret, in_memory. simpl.
  eexists _, _. split; [reflexivity|]. simpl. rewrite lookup_insert_eq. done.
Qed.

Lemma get_context_in_memory st sid s :
  in_memory st sid s → get_context sid st = (Val (context s), st).
Proof.
  intros H. unfold get_context, bind. by rewrite (get_session_in_memory _ _ _ H).
Qed.

Lemma get_context_find st sid s :
  find_session st sid = Some s →
  ∃ st0, get_context sid st = (Val (context s), st0) ∧ in_memory st0 sid s
         ∧ clock_reads st0 = clock_reads st.
Proof.
  intros Hfind. unfold get_context, bind.
  destruct (get_session_find st sid) as (Hg1 & _ & Hg3 & _).
  pose proof (get_session_clock st sid) as Hc.
  specialize (Hg3 s Hfind). rewrite Hfind in Hg1.
  destruct (get_session sid st) as [r0 st0]. simpl in Hg1, Hg3, Hc. subst r0.
  by exists st0.
Qed.

Lemma get_messages_in_memory st sid s n :
  in_memory st sid s →
  get_messages sid (Some (S n)) st
  = (Val (drop (length (messages s) - S n) (messages s)), st).
Proof.
  intros H. unfold get_messages, bind. by rewrite (get_session_in_memory _ _ _ H).
Qed.

(** C10.  For a session identifier that is neither in memory nor the name of
    a session file that loads, [get_context] returns the empty mapping and
    [get_messages] the empty list, both without raising and without changing
    anything, whereas [add_message], [update_context] and
    [update_session_status] raise the session-not-found [ValueError]. *)
Theorem unknown_session_operations (st : State) (session_id : string) :
  active_sessions st !! session_id = None →
  (∀ s, storage st !! session_id ≠ Some (Stored s)) →
  get_context session_id st = (Val empty_context, st)
  ∧ (∀ limit, get_messages session_id limit st = (Val [], st))
  ∧ (∀ role content metadata,
       add_message w session_id role content metadata st
       = (Raise (ValueError ("会话不存在: " +:+ session_id)), st))
  ∧ (∀ context_updates,
       update_context w session_id context_updates st
       = (Raise (ValueError ("会话不存在: " +:+ session_id)), st))
  ∧ (∀ new_status,
       update_session_status w session_id new_status st
       = (Raise (ValueError ("会话不存在: " +:+ session_id)), st)).
Proof.
  intros Hmem Hdisk.
  assert (H : find_session st session_id = None).
  { unfold find_session. rewrite Hmem.
    destruct (storage st !! session_id) as [[s|]|] eqn:E; try done. by destruct (Hdisk s). }
  pose proof (get_session_not_found _ _ H) as Hg.
  unfold get_context, get_messages, add_message, update_context, update_session_status, bind.
  rewrite Hg. repeat split.
Qed.
End ManagerFacts.

(** On a store without any session, reading a context gives the empty
    dictionary and appending a message raises. *)
Lemma unknown_session_operations_witness :
  ConversationManager.get_context "ghost" Scenario.empty_store
  = (Val empty_context, Scenario.empty_store)
  ∧ ConversationManager.add_message Scenario.offline "ghost" "user" "hello" None
      Scenario.empty_store
    = (Raise (ValueError "会话不存在: ghost"), Scenario.empty_store).
Proof.
  destruct (unknown_session_operations Scenario.offline Scenario.empty_store "ghost")
    as (Hc & _ & Ha & _).
  - reflexivity.
  - intros s. simpl. rewrite lookup_empty. discriminate.
  - split; [exact Hc | exact (Ha "user" "hello" None)].
Defined.

(** ** The collaborative generation loop *)

Section EngineFacts.
Import CollaborationEngine.
Context (w : World) (cfg : Config) (p : PromptTemplates).

Lemma chat_same_store messages service_name temperature max_tokens st :
  same_store st (snd (AIService.chat w messages service_name temperature max_tokens st)).
Proof.
  unfold AIService.chat. destruct (AIService.get_service w service_name); [|done].
  destruct (backend w _ _ _ _ _); done.
Qed.

(** A call wrapped in a handler that returns a value never raises. *)
Lemma try_except_total {A} (m : M A) (h : exn → A) st :
  ∃ a, try_except m (fun e => ret (h e)) st = (Val a, snd (m st)).
Proof.
  unfold try_except, ret. destruct (m st) as [[a|e] st']; eauto.
Qed.

Lemma generate_content_total section collected_info requirements st :
  ∃ c st', generate_content w cfg p section collected_info requirements st = (Val c, st')
           ∧ same_store st st'.
Proof.
  unfold generate_content.
  match goal with |- context [try_except ?m (fun e => ret (@?h e))] =>
    destruct (try_except_total m h st) as [a Ha]; rewrite Ha end.
  eexists _, _. split; [done|]. apply chat_same_store.
Qed.

Lemma optimize_structure_total content section st :
  ∃ c st', optimize_structure w cfg p content section st = (Val c, st') ∧ same_store st st'.
Proof.
  unfold optimize_structure.
  match goal with |- context [try_except ?m (fun e => ret (@?h e))] =>
    destruct (try_except_total m h st) as [a Ha]; rewrite Ha end.
  eexists _, _. split; [done|]. apply chat_same_store.
Qed.

Lemma review_quality_total content section st :
  ∃ r st', review_quality w cfg p content section st = (Val r, st') ∧ same_store st st'.
Proof.
  unfold review_quality.
  match goal with |- context [try_except ?m (fun e => ret (@?h e))] =>
    destruct (try_except_total m h st) as [a Ha]; rewrite Ha end.
  eexists _, _. split; [done|].
  unfold bind. 
  match goal with |- context [AIService.chat w ?a ?b ?c ?d st] =>
    pose proof (chat_same_store a b c d st) as Hs;
    destruct (AIService.chat w a b c d st) as [[x|e] st'] end; done.
Qed.

Lemma collect_information_total stage collected_info history st :
  ∃ c st', collect_information w cfg p stage collected_info history st = (Val c, st')
           ∧ same_store st st'.
Proof.
  unfold collect_information.
  match goal with |- context [try_except ?m (fun e => ret (@?h e))] =>
    destruct (try_except_total m h st) as [a Ha]; rewrite Ha end.
  eexists _, _. split; [done|]. apply chat_same_store.
Qed.

Lemma improve_same_store c r o st : same_store st (snd (improve w cfg c r o st)).
Proof. apply chat_same_store. Qed.

Lemma refine_same_store section n : ∀ i c tr st,
  same_store st (snd (refine w cfg p section n i c tr st)).
Proof.
  induction n as [|n IH]; intros i c tr st; simpl; [done|].
  unfold guarded.
  destruct (review_quality_total c section st) as (r & st1 & -> & H1).
  destruct (optimize_structure_total c section st1) as (o & st2 & -> & H2).
  pose proof (improve_same_store c (review r) o st2) as H3.
  destruct (improve w cfg c (review r) o st2) as [[c'|e] st3]; simpl in *.
  - eapply same_store_trans; [|apply IH]. eauto using same_store_trans.
  - eauto using same_store_trans.
Qed.

Lemma collaborative_generation_total section collected_info k st :
  ∃ r st', collaborative_generation w cfg p section collected_info k st = (Val r, st')
           ∧ same_store st st'.
Proof.
  unfold collaborative_generation, generation_block, guarded.
  destruct (generate_content_total section collected_info "" st) as (c & st1 & -> & H1).
  match goal with |- context [refine w cfg p ?a ?b ?c ?d ?e st1] =>
    pose proof (refine_same_store a b c d e st1) as H2;
    destruct (refine w cfg p a b c d e st1) as [[exc fr] st2] end.
  simpl in *. eexists _, _. split; [done|]. eauto using same_store_trans.
Qed.

(** Iterations that complete can be run first; iterations after an abort
    are not run. *)
Lemma refine_split section a b : ∀ i c tr st,
  refine w cfg p section (a + b) i c tr st =
  match refine w cfg p section a i c tr st with
  | ((None, fr), st') =>
      match current_content fr with
      | Some c' => refine w cfg p section b (i + a) c' (trace fr) st'
      | None => ((None, fr), st')
      end
  | ((Some e, fr), st') => ((Some e, fr), st')
  end.
Proof.
  induction a as [|a IH]; intros i c tr st.
  - cbn [Nat.add refine current_content trace]. by replace (i + 0) with i by lia.
  - cbn [Nat.add refine]. unfold guarded.
    destruct (review_quality w cfg p c section st) as [[r|e] st1]; [|done].
    destruct (optimize_structure w cfg p c section st1) as [[o|e] st2]; [|done].
    destruct (improve w cfg c (review r) o st2) as [[c'|e] st3]; [|done].
    rewrite IH. by replace (i + S a) with (S i + a) by lia.
Qed.

(** After [n] completed iterations from index [i], the last record is the
    improved generation of iteration [i + n] and holds the current content. *)
Lemma refine_last section n : ∀ i c tr st fr st',
  refine w cfg p section n i c tr st = ((None, fr), st') →
  1 ≤ n →
  ∃ c', current_content fr = Some c'
        ∧ last (trace fr) = Some {| iteration := i + n; type := "improved_generation";
                                    iter_content := c' |}.
Proof.
  induction n as [|n IH]; intros i c tr st fr st' H Hn; [lia|].
  simpl in H. unfold guarded in H.
  destruct (review_quality w cfg p c section st) as [[r|e] st1]; [|done].
  destruct (optimize_structure w cfg p c section st1) as [[o|e] st2]; [|done].
  destruct (improve w cfg c (review r) o st2) as [[c'|e] st3]; [|done].
  destruct n as [|n].
  - simpl in H. inversion H; subst. simpl. eexists. split; [done|].
    rewrite last_snoc. repeat f_equal; lia.
  - apply IH in H as (c'' & H1 & H2); [|lia]. exists c''. split; [done|].
    rewrite H2. do 2 f_equal. lia.
Qed.

(** A role method whose request fails returns its failure text. *)
Lemma try_except_raise {A} (m : M A) (h : exn → M A) st e st' :
  m st = (Raise e, st') → try_except m h st = h e st'.
Proof. unfold try_except. by intros ->. Qed.

(** The loop either completes, or stops at the first improved generation
    that fails: iteration [i + j + 1], after [j] completed ones. *)
Lemma refine_outcome section n : ∀ i c tr st,
  (∃ fr st',
     refine w cfg p section n i c tr st = ((None, fr), st')
     ∧ length (trace fr) = length tr + 3 * n)
  ∨ (∃ j c' tr' rv o e st1 st2 st3 st',
       j < n
       ∧ refine w cfg p section j i c tr st
         = ((None, {| current_content := Some c'; trace := tr' |}), st1)
       ∧ review_quality w cfg p c' section st1 = (Val rv, st2)
       ∧ optimize_structure w cfg p c' section st2 = (Val o, st3)
       ∧ improve w cfg c' (review rv) o st3 = (Raise e, st')
       ∧ refine w cfg p section n i c tr st
         = ((Some e,
             {| current_content := Some c';
                trace := tr' ++ [{| iteration := i + j + 1; type := "quality_review";
                                    iter_content := review rv |};
                                 {| iteration := i + j + 1; type := "structure_optimization";
                                    iter_content := o |}] |}), st')).
Proof.
  induction n as [|n IH]; intros i c tr st.
  - left. eexists _, _. split; [reflexivity|]. cbn. lia.
  - destruct (review_quality_total c section st) as (rv & st1 & Hrev & _).
    destruct (optimize_structure_total c section st1) as (o & st2 & Hopt & _).
    destruct (improve w cfg c (review rv) o st2) as [[c1|e] st3] eqn:Himp.
    + match goal with |- context [refine w cfg p section (S n) i c tr st] =>
        assert (Hstep : ∀ m, refine w cfg p section (S m) i c tr st
                  = refine w cfg p section m (S i) c1
                      ((tr ++ [{| iteration := i + 1; type := "quality_review";
                                  iter_content := review rv |}]
                           ++ [{| iteration := i + 1; type := "structure_optimization";
                                  iter_content := o |}])
                          ++ [{| iteration := i + 1; type := "improved_generation";
                                 iter_content := c1 |}]) st3) end.
      { intros m. cbn [refine]. unfold guarded. rewrite Hrev, Hopt, Himp.
        by rewrite <- !app_assoc. }
      rewrite Hstep.
      match goal with |- context [refine w cfg p section n (S i) c1 ?t st3] =>
        destruct (IH (S i) c1 t st3)
          as [(fr & st' & Hrun & Hlen)
             | (j & c' & tr' & rv' & o' & e & s1 & s2 & s3 & st' & Hj & Hpre & Hr & Ho & Hi & Hrun)]
      end.
      * left. exists fr, st'. split; [done|]. rewrite Hlen, !length_app. cbn. lia.
      * right. exists (S j), c', tr', rv', o', e, s1, s2, s3, st'.
        split; [lia|]. rewrite Hstep. split; [done|]. split; [done|]. split; [done|].
        split; [done|]. rewrite Hrun.
        replace (i + S j + 1) with (S i + j + 1) by lia. reflexivity.
    + right. exists 0, c, tr, rv, o, e, st, st1, st2, st3.
      split; [lia|]. split; [reflexivity|]. split; [done|]. split; [done|]. split; [done|].
      cbn [refine]. unfold guarded. rewrite Hrev, Hopt, Himp.
      rewrite <- app_assoc. replace (i + 0 + 1) with (i + 1) by lia. reflexivity.
Qed.

(** C3, amended.  For every section, every [collected_info], every number
    [k] of iterations and every state:

    - if iterations [1 .. i-1] of the run complete and the improved-generation
      request of iteration [i] fails, with [1 <= i <= k], then
      [collaborative_generation] stops there: the state it leaves is the one
      right after the failing request, the trace ends with the review and the
      optimization of iteration [i], [status] is ["error"], [error] holds the
      message of the failure, and [final_content] is the content iteration
      [i] started from, which is the initial generation when [i = 1] and the
      improved generation of iteration [i - 1] otherwise;
    - a failure of the request of the generator's first call, of the
      reviewer or of the optimizer is caught by the role method, which
      returns its failure text: that text is the initial content, the review
      or the optimization the loop goes on with;
    - so the run always returns, and it ends with the status ["error"] only
      in the way of the first item: because the improved generation of some
      iteration failed.  Otherwise all [k] iterations ran and the status is
      ["success"]. *)
Theorem improved_generation_failure_aborts
    (section : string) (collected_info : gmap string value) (k : nat) (st : State) :
  (∀ (i : nat) (st0 st1 st2 st3 st4 : State) (c0 c o : string) (tr : list Iteration)
     (r : ReviewResult) (e : exn),
     1 ≤ i ≤ k →
     generate_content w cfg p section collected_info "" st = (Val c0, st0) →
     refine w cfg p section (i - 1) 0 c0
       [{| iteration := 0; type := "initial_generation"; iter_content := c0 |}] st0
     = ((None, {| current_content := Some c; trace := tr |}), st1) →
     review_quality w cfg p c section st1 = (Val r, st2) →
     optimize_structure w cfg p c section st2 = (Val o, st3) →
     improve w cfg c (review r) o st3 = (Raise e, st4) →
     collaborative_generation w cfg p section collected_info k st
     = (Val {| CollaborationEngine.section := section;
               final_content := c;
               iterations :=
                 tr ++ [{| iteration := i; type := "quality_review";
                           iter_content := review r |};
                        {| iteration := i; type := "structure_optimization";
                           iter_content := o |}];
               status := "error";
               error := Some (str_exn e) |}, st4)
     ∧ (i = 1 → c = c0)
     ∧ (2 ≤ i → last tr = Some {| iteration := i - 1; type := "improved_generation";
                                  iter_content := c |}))
  ∧ (∀ (requirements : string) (st1 st2 : State) (e : exn),
       (∀ messages temperature max_tokens,
          AIService.chat w messages (role_service_mapping w !! CONTENT_GENERATOR)
            temperature max_tokens st1 = (Raise e, st2)) →
       generate_content w cfg p section collected_info requirements st1
       = (Val ("内容生成失败: " +:+ str_exn e), st2))
  ∧ (∀ (content : string) (st1 st2 : State) (e : exn),
       (∀ messages temperature max_tokens,
          AIService.chat w messages (role_service_mapping w !! QUALITY_REVIEWER)
            temperature max_tokens st1 = (Raise e, st2)) →
       review_quality w cfg p content section st1
       = (Val {| review := "审核失败: " +:+ str_exn e; review_status := "error" |}, st2))
  ∧ (∀ (content : string) (st1 st2 : State) (e : exn),
       (∀ messages temperature max_tokens,
          AIService.chat w messages (role_service_mapping w !! STRUCTURE_OPTIMIZER)
            temperature max_tokens st1 = (Raise e, st2)) →
       optimize_structure w cfg p content section st1
       = (Val ("结构优化失败: " +:+ str_exn e), st2))
  ∧ ∃ (c0 : string) (st0 : State) (result : GenerationResult) (st' : State),
      generate_content w cfg p section collected_info "" st = (Val c0, st0)
      ∧ collaborative_generation w cfg p section collected_info k st = (Val result, st')
      ∧ ((status result = "success" ∧ error result = None
          ∧ length (iterations result) = 1 + 3 * k)
         ∨ (∃ (i : nat) (c o : string) (tr : list Iteration) (r : ReviewResult) (e : exn)
              (st1 st2 st3 : State),
              1 ≤ i ≤ k
              ∧ refine w cfg p section (i - 1) 0 c0
                  [{| iteration := 0; type := "initial_generation"; iter_content := c0 |}] st0
                = ((None, {| current_content := Some c; trace := tr |}), st1)
              ∧ review_quality w cfg p c section st1 = (Val r, st2)
              ∧ optimize_structure w cfg p c section st2 = (Val o, st3)
              ∧ improve w cfg c (review r) o st3 = (Raise e, st')
              ∧ status result = "error"
              ∧ error result = Some (str_exn e)
              ∧ final_content result = c)).
Proof.
  split; [|split; [|split; [|split]]].
  - intros i st0 st1 st2 st3 st4 c0 c o tr r e Hi Hgen Hpre Hrev Hopt Himp.
    split; [|split].
    + unfold collaborative_generation, generation_block, guarded. rewrite Hgen.
      replace k with ((i - 1) + S (k - i)) by lia.
      rewrite refine_split, Hpre. cbn [current_content trace refine].
      unfold guarded. rewrite Hrev, Hopt, Himp. cbn.
      replace (i - 1 + 1) with i by lia. by rewrite <- app_assoc.
    + intros ->. simpl in Hpre. by inversion Hpre.
    + intros Hi2. apply refine_last in Hpre as (c' & H1 & H2); [|lia].
      simpl in H1, H2. inversion H1; subst. done.
  - intros requirements st1 st2 e Hfail. unfold generate_content.
    by rewrite (try_except_raise _ _ _ _ _ (Hfail _ _ _)).
  - intros content st1 st2 e Hfail. unfold review_quality.
    erewrite try_except_raise; [reflexivity|]. unfold bind. by rewrite Hfail.
  - intros content st1 st2 e Hfail. unfold optimize_structure.
    by rewrite (try_except_raise _ _ _ _ _ (Hfail _ _ _)).
  - destruct (generate_content_total section collected_info "" st)
      as (c0 & st0 & Hgen & _).
    exists c0, st0. unfold collaborative_generation, generation_block, guarded.
    rewrite Hgen.
    destruct (refine_outcome section k 0 c0
                [{| iteration := 0; type := "initial_generation"; iter_content := c0 |}] st0)
      as [(fr & st' & Hrun & Hlen)
         | (j & c & tr & r & o & e & st1 & st2 & st3 & st' & Hj & Hpre & Hr & Ho & Hi & Hrun)];
      rewrite Hrun.
    + eexists _, st'. split; [done|]. split; [reflexivity|]. left. cbn.
      split; [done|]. split; [done|]. rewrite Hlen. cbn. lia.
    + eexists _, st'. split; [done|]. split; [reflexivity|]. right.
      exists (S j), c, o, tr, r, e, st1, st2, st3.
      split; [lia|]. replace (S j - 1) with j by lia. done.
Qed.
End EngineFacts.

(** A three-iteration run whose improved generation fails in iteration 2
    returns the improved content of iteration 1; and a reviewer whose request
    fails hands the loop its failure text. *)
Lemma improved_generation_failure_aborts_witness :
  (∃ trace st',
     CollaborationEngine.collaborative_generation Scenario.fails_in_second_iteration
       Scenario.defaults Scenario.prompts "abstract" ∅ 3 Scenario.empty_store
     = (Val {| CollaborationEngine.section := "abstract";
               CollaborationEngine.final_content := "better";
               CollaborationEngine.iterations := trace;
               CollaborationEngine.status := "error";
               CollaborationEngine.error := Some "timeout" |}, st')
     ∧ last trace = Some {| iteration := 2; type := "structure_optimization";
                            iter_content := "remarks" |}
     ∧ requests st' = 7)
  ∧ ∃ st1 st2,
      requests st1 = 1
      ∧ CollaborationEngine.review_quality Scenario.reviewer_fails Scenario.defaults
          Scenario.prompts "draft" "abstract" st1
        = (Val {| CollaborationEngine.review := "审核失败: timeout";
                  CollaborationEngine.review_status := "error" |}, st2).
Proof.
  split.
  - destruct (improved_generation_failure_aborts Scenario.fails_in_second_iteration
                Scenario.defaults Scenario.prompts "abstract" ∅ 3 Scenario.empty_store)
      as (Habort & _).
    edestruct (Habort 2) as (H & _ & _).
    + lia.
    + vm_compute. reflexivity.
    + vm_compute. reflexivity.
    + vm_compute. reflexivity.
    + vm_compute. reflexivity.
    + vm_compute. reflexivity.
    + eexists _, _. split; [exact H|]. split; reflexivity.
  - destruct (improved_generation_failure_aborts Scenario.reviewer_fails
                Scenario.defaults Scenario.prompts "abstract" ∅ 1 Scenario.empty_store)
      as (_ & _ & Hreview & _).
    exists {| active_sessions := ∅; storage := ∅; requests := 1; clock_reads := 0 |}.
    eexists. split; [reflexivity|].
    apply (Hreview "draft" _ _ (Exception "timeout")).
    intros messages temperature max_tokens. reflexivity.
Defined.

(** C3 as stated fails.  When only the reviewer's request of iteration 1
    fails, the run goes on and ends with [status] ["success"]; and when no
    backend is reachable at all, the first generation fails but
    [final_content] is the generator's failure text, not the empty text. *)
Lemma backend_failure_counterexample :
  let after_initial :=
    snd (CollaborationEngine.generate_content Scenario.reviewer_fails Scenario.defaults
           Scenario.prompts "abstract" ∅ "" Scenario.empty_store) in
  fst (CollaborationEngine.review_quality Scenario.reviewer_fails Scenario.defaults
         Scenario.prompts "draft" "abstract" after_initial)
  = Val {| CollaborationEngine.review := "审核失败: timeout";
           CollaborationEngine.review_status := "error" |}
  ∧ fst (CollaborationEngine.collaborative_generation Scenario.reviewer_fails
           Scenario.defaults Scenario.prompts "abstract" ∅ 1 Scenario.empty_store)
    = Val {| CollaborationEngine.section := "abstract";
             CollaborationEngine.final_content := "better";
             CollaborationEngine.iterations :=
               [{| iteration := 0; type := "initial_generation"; iter_content := "draft" |};
                {| iteration := 1; type := "quality_review";
                   iter_content := "审核失败: timeout" |};
                {| iteration := 1; type := "structure_optimization";
                   iter_content := "remarks" |};
                {| iteration := 1; type := "improved_generation";
                   iter_content := "better" |}];
             CollaborationEngine.status := "success";
             CollaborationEngine.error := None |}
  ∧ match fst (CollaborationEngine.collaborative_generation Scenario.offline
                 Scenario.defaults Scenario.prompts "abstract" ∅ 1 Scenario.empty_store) with
    | Val r =>
        CollaborationEngine.final_content r = "内容生成失败: 没有可用的AI服务"
        ∧ CollaborationEngine.status r = "error"
    | Raise _ => False
    end.
Proof. vm_compute. repeat split. Qed.

(** ** Information extraction *)

Section ExtractionFacts.
Import PaperGenerator.
Context (w : World).

Lemma chat_no_service messages temperature max_tokens st :
  service_names w = [] →
  AIService.chat w messages None temperature max_tokens st
  = (Raise (Exception "没有可用的AI服务"), st).
Proof. unfold AIService.chat, AIService.get_service. intros ->. done. Qed.

Lemma chat_first_service messages temperature max_tokens st service :
  head (service_names w) = Some service →
  AIService.chat w messages None temperature max_tokens st
  = (match backend w (requests st) service messages temperature max_tokens with
     | Reply text => Val text
     | Failure msg => Raise (Exception msg)
     end,
    {| active_sessions := active_sessions st; storage := storage st;
       requests := S (requests st); clock_reads := clock_reads st |}).
Proof.
  unfold AIService.chat, AIService.get_service. intros ->.
  destruct (backend w _ _ _ _ _); done.
Qed.

(** C4.  [_extract_information] never raises: it always returns a mapping.
    Whenever its structured-parse attempt fails, it returns exactly the
    one-entry mapping from ["用户补充信息"] (the catch-all field for what the
    user supplied) to the raw text of the user turn.  This covers no
    registered backend, a backend request that fails, a reply in which the
    regular expression finds no brace-delimited text, and a brace-delimited
    text that [json.loads] rejects. *)
Theorem extraction_falls_back (user_input stage : string) (st : State) :
  let r := fst (_extract_information w user_input stage st) in
  let fallback : gmap string value := {[ "用户补充信息" := VStr user_input ]} in
  let reply := fun service =>
    backend w (requests st) service (extraction_messages user_input stage) (3 # 10)%Q 1000 in
  (∃ extracted, r = Val extracted)
  ∧ (service_names w = [] → r = Val fallback)
  ∧ (∀ service msg,
       head (service_names w) = Some service → reply service = Failure msg →
       r = Val fallback)
  ∧ (∀ service response,
       head (service_names w) = Some service → reply service = Reply response →
       re_search response = None → r = Val fallback)
  ∧ (∀ service response json_match,
       head (service_names w) = Some service → reply service = Reply response →
       re_search response = Some json_match → json_loads w json_match = None →
       r = Val fallback).
Proof.
  intros r fallback reply. subst r reply. unfold _extract_information, try_except, bind.
  change ({[ "用户补充信息" := VStr user_input ]} : gmap string value)
    with (fallback_info user_input) in fallback. subst fallback.
  split; [|split; [|split; [|split]]].
  - destruct (AIService.chat w _ None _ _ st) as [[response|e] st']; [|by eexists].
    destruct (re_search response) as [m|]; [|by eexists].
    destruct (json_loads w m); by eexists.
  - intros Hnone. by rewrite chat_no_service.
  - intros service msg Hs Hr. rewrite (chat_first_service _ _ _ _ _ Hs), Hr. done.
  - intros service response Hs Hr Hre. rewrite (chat_first_service _ _ _ _ _ Hs), Hr.
    simpl. by rewrite Hre.
  - intros service response m Hs Hr Hre Hj. rewrite (chat_first_service _ _ _ _ _ Hs), Hr.
    simpl. by rewrite Hre, Hj.
Qed.

End ExtractionFacts.

(** Without any backend the extraction of a turn is the fallback mapping. *)
Lemma extraction_falls_back_witness :
  fst (PaperGenerator._extract_information Scenario.offline "我研究大模型" "initial"
         Scenario.empty_store)
  = Val {[ "用户补充信息" := VStr "我研究大模型" ]}.
Proof.
  destruct (extraction_falls_back Scenario.offline "我研究大模型" "initial"
              Scenario.empty_store) as (_ & H & _).
  apply H. reflexivity.
Defined.

(** ** The stage controller *)

Section GeneratorFacts.
Import ConversationManager PaperGenerator.
Context (w : World) (cfg : Config) (p : PromptTemplates).

Lemma _extract_information_total user_input stage st :
  ∃ extracted st', _extract_information w user_input stage st = (Val extracted, st')
                   ∧ same_store st st'.
Proof.
  unfold _extract_information, try_except, bind.
  match goal with |- context [AIService.chat w ?a ?b ?c ?d st] =>
    pose proof (chat_same_store w a b c d st) as Hs;
    destruct (AIService.chat w a b c d st) as [[response|e] st'] end; simpl in Hs.
  - destruct (re_search response) as [m|]; [destruct (json_loads w m)|]; by eexists _, _.
  - by eexists _, _.
Qed.

Lemma generate_sections_spec sid collected_info todo : ∀ paper st s,
  in_memory st sid s →
  ∃ paper' st' s',
    generate_sections w cfg p sid collected_info todo paper st = (Val paper', st')
    ∧ in_memory st' sid s'
    ∧ only_traces_differ s s'
    ∧ dom paper' = dom paper ∪ list_to_set todo.
Proof.
  induction todo as [|section todo IH]; intros paper st s Hs; simpl.
  - exists paper, st, s. unfold ret. repeat split; try done. set_solver.
  - unfold bind.
    destruct (collaborative_generation_total w cfg p section collected_info 1 st)
      as (r & st1 & -> & Hst1).
    destruct (update_context_in_memory w st1 sid s
                (only_generation_process section (CollaborationEngine.iterations r))
                (in_memory_same_store _ _ _ _ Hs Hst1)) as (st2 & t & -> & Hs2 & _).
    destruct (IH (<[section := CollaborationEngine.final_content r]> paper) st2 _ Hs2)
      as (paper' & st' & s' & -> & Hs' & Hd & Hdom).
    exists paper', st', s'. split; [done|]. split; [done|]. split.
    + destruct Hd as (? & ? & ? & ? & ? & ? & ? & ? & ?). repeat split; done.
    + rewrite Hdom, dom_insert_L. set_solver.
Qed.

Lemma _start_paper_generation_spec sid info st s :
  in_memory st sid s →
  ∃ paper st' s' st_g s_g st_p note done_msg,
    _start_paper_generation w cfg p sid info st
    = (Val (RespCompleted sid COMPLETED completion_message paper "completed"), st')
    ∧ in_memory st' sid s'
    ∧ current_stage (context s') = Some COMPLETED
    ∧ paper_content (context s') = Some paper
    ∧ status s' = "completed"
    ∧ collected_info (context s') = collected_info (context s)
    ∧ messages s' = messages s ++ [note; done_msg]
    ∧ (role note = "assistant" ∧ content note = notification)
    ∧ (role done_msg = "assistant" ∧ content done_msg = completion_message)
    ∧ dom paper = list_to_set sections
    ∧ in_memory st_g sid s_g
    ∧ current_stage (context s_g) = Some GENERATING
    ∧ _generate_full_paper w cfg p sid info st_g = (Val paper, st_p).
Proof.
  intros Hs. unfold _start_paper_generation, bind.
  destruct (update_context_in_memory w st sid s (only_stage GENERATING) Hs)
    as (st1 & t1 & -> & Hs1 & _).
  destruct (add_message_in_memory w st1 sid _ "assistant" notification None Hs1)
    as (st2 & t2 & t2' & -> & Hs2 & _).
  unfold _generate_full_paper.
  destruct (generate_sections_spec sid info sections ∅ st2 _ Hs2)
    as (paper & st3 & s3 & Hgen & Hs3 & Hd & Hdom).
  rewrite Hgen.
  destruct (update_context_in_memory w st3 sid s3 (paper_content_and_stage paper COMPLETED) Hs3)
    as (st4 & t4 & -> & Hs4 & _).
  destruct (update_session_status_in_memory w st4 sid _ "completed" Hs4)
    as (st5 & t5 & -> & Hs5 & _).
  destruct (add_message_in_memory w st5 sid _ "assistant" completion_message None Hs5)
    as (st6 & t6 & t6' & -> & Hs6 & _).
  destruct Hd as (Hd1 & Hd2 & Hd3 & Hd4 & Hd5 & Hd6 & Hd7 & Hd8 & Hd9).
  cbn in Hd4, Hd7.
  eexists paper, st6, _, st2, _, st3,
    {| role := "assistant"; content := notification; timestamp := t2; metadata := ∅ |},
    {| role := "assistant"; content := completion_message; timestamp := t6;
       metadata := ∅ |}.
  split_and!; [reflexivity | exact Hs6 | reflexivity | reflexivity | reflexivity
               | exact Hd7 | | reflexivity | reflexivity | reflexivity | reflexivity
               | | exact Hs2 | reflexivity | exact Hgen].
  - cbn [messages with_messages with_status with_context]. rewrite Hd4. cbn [messages with_messages].
    by rewrite <- app_assoc.
  - rewrite Hdom, dom_empty_L. apply union_empty_l_L.
Qed.

Lemma _collect_missing_information_spec sid info missing st s :
  in_memory st sid s →
  ∃ st' s' msg,
    _collect_missing_information w sid info missing st
    = (Val (RespMissing sid "collecting_missing" (missing_prompt missing) missing
              "collecting"), st')
    ∧ in_memory st' sid s'
    ∧ messages s' = messages s ++ [msg]
    ∧ context s' = context s
    ∧ status s' = status s.
Proof.
  intros Hs. unfold _collect_missing_information, bind.
  destruct (add_message_in_memory w st sid _ "assistant" (missing_prompt missing) None Hs)
    as (st1 & t1 & t1' & -> & Hs1 & _).
  eexists _, _, _. split; [reflexivity|]. split; [exact Hs1|]. done.
Qed.

Lemma stage_flow_lookup (current_round : nat) :
  ∃ stage,
    stage_flow !! ((if length stage_flow <=? current_round
                    then length stage_flow - 1 else current_round)
                   `min` (length stage_flow - 1)) = Some stage
    ∧ stage_flow !! (current_round `min` (length stage_flow - 1)) = Some stage.
Proof.
  change (length stage_flow) with 7.
  destruct (7 <=? current_round) eqn:E.
  - apply Nat.leb_le in E. replace (current_round `min` (7 - 1)) with 6 by lia.
    simpl. eauto.
  - apply Nat.leb_gt in E. replace (current_round `min` (7 - 1)) with current_round by lia.
    destruct (lookup_lt_is_Some_2 stage_flow current_round) as [stage Hst];
      [simpl; lia | eauto].
Qed.

Lemma _continue_information_collection_spec sid stage0 info current_round st s :
  in_memory st sid s →
  ∃ stage reply st' s' msg st_c,
    let history :=
      map (fun msg => {| chat_role := role msg; chat_content := content msg |})
        (drop (length (messages s) - 6) (messages s)) in
    stage_flow !! (current_round `min` (length stage_flow - 1)) = Some stage
    ∧ _continue_information_collection w cfg p sid stage0 info current_round st
      = (Val (RespCollecting sid stage reply (current_round + 1) "collecting"), st')
    ∧ in_memory st' sid s'
    ∧ messages s' = messages s ++ [msg]
    ∧ (role msg = "assistant" ∧ content msg = reply)
    ∧ current_stage (context s') = Some stage
    ∧ collected_info (context s') = collected_info (context s)
    ∧ paper_content (context s') = paper_content (context s)
    ∧ status s' = status s
    ∧ fst (CollaborationEngine.collect_information w cfg p stage info
             (Some history) st_c) = Val reply.
Proof.
  intros Hs. unfold _continue_information_collection.
  destruct (stage_flow_lookup current_round) as (stage & -> & Hstage).
  unfold bind.
  destruct (update_context_in_memory w st sid s (only_stage stage) Hs)
    as (st1 & t1 & -> & Hs1 & _).
  unfold get_messages_for_api, bind.
  rewrite (get_messages_in_memory st1 sid _ 5 Hs1).
  unfold ret at 1. cbn [messages with_context].
  match goal with |- context [CollaborationEngine.collect_information w cfg p ?a ?b ?c st1] =>
    pose proof (eq_refl (CollaborationEngine.collect_information w cfg p a b c st1)) as Hc;
    destruct (collect_information_total w cfg p a b c st1) as (reply & st2 & Hreply & Hst2);
    rewrite Hreply end.
  destruct (add_message_in_memory w st2 sid _ "assistant" reply None
              (in_memory_same_store _ _ _ _ Hs1 Hst2)) as (st3 & t3 & t3' & -> & Hs3 & _).
  eexists stage, reply, st3, _, _, st1. cbn zeta.
  split; [exact Hstage|]. split; [reflexivity|]. split; [exact Hs3|].
  split_and!; try reflexivity. by rewrite Hreply.
Qed.

Lemma process_user_input_intake sid user_input st s :
  find_session st sid = Some s →
  ∃ extracted st_x st1 s1 user_msg,
    let stage := default INITIAL (current_stage (context s)) in
    let info := extracted ∪ default ∅ (collected_info (context s)) in
    let current_round := length (messages s1) / 2 in
    fst (_extract_information w user_input stage st_x) = Val extracted
    ∧ in_memory st1 sid s1
    ∧ messages s1 = messages s ++ [user_msg]
    ∧ (role user_msg = "user" ∧ content user_msg = user_input)
    ∧ context s1 = dict_update (context s) (only_collected_info info)
    ∧ status s1 = status s
    ∧ process_user_input w cfg p sid user_input st
      = (if current_round <? min_rounds cfg then
           _continue_information_collection w cfg p sid stage info current_round
         else if is_complete (_check_information_completeness info)
                 || (max_rounds cfg <=? current_round) then
           _start_paper_generation w cfg p sid info
         else
           _collect_missing_information w sid info
             (missing_info (_check_information_completeness info))) st1.
Proof.
  intros Hfind. unfold process_user_input, bind.
  destruct (get_session_find st sid) as (Hg1 & _ & Hg3 & _).
  specialize (Hg3 s Hfind). rewrite Hfind in Hg1.
  destruct (get_session sid st) as [r0 st0]. simpl in Hg1, Hg3. subst r0.
  destruct (add_message_in_memory w st0 sid s "user" user_input None Hg3)
    as (sta & t & t' & -> & Hsa & _).
  rewrite (get_context_in_memory _ _ _ Hsa).
  cbn [context with_messages].
  destruct (_extract_information_total user_input
              (default INITIAL (current_stage (context s))) sta)
    as (extracted & stb & Hex & Hstb).
  rewrite Hex.
  destruct (update_context_in_memory w stb sid _
              (only_collected_info (extracted ∪ default ∅ (collected_info (context s))))
              (in_memory_same_store _ _ _ _ Hsa Hstb)) as (stc & tc & -> & Hsc & _).
  unfold current. rewrite Hsc. cbn [default].
  eexists extracted, sta, stc, _, _. cbn zeta.
  split_and!; [by rewrite Hex | exact Hsc | reflexivity | reflexivity | reflexivity
               | reflexivity | reflexivity | reflexivity].
Qed.

Lemma turn_collected_info sid user_input st s :
  find_session st sid = Some s →
  ∃ extracted st_x s',
    fst (_extract_information w user_input
           (default INITIAL (current_stage (context s))) st_x) = Val extracted
    ∧ in_memory (snd (process_user_input w cfg p sid user_input st)) sid s'
    ∧ collected_info (context s') = Some (extracted ∪ info_of st sid).
Proof.
  intros Hfind.
  destruct (process_user_input_intake sid user_input st s Hfind)
    as (extracted & st_x & st1 & s1 & user_msg & Hex & Hs1 & Hms & Huser & Hctx & Hst & Heq).
  cbn zeta in Heq. rewrite Heq. clear Heq.
  assert (Hinfo : collected_info (context s1) = Some (extracted ∪ info_of st sid)).
  { rewrite Hctx. unfold info_of. by rewrite Hfind. }
  exists extracted, st_x.
  destruct (length (messages s1) / 2 <? min_rounds cfg).
  - destruct (_continue_information_collection_spec sid
                (default INITIAL (current_stage (context s)))
                (extracted ∪ default ∅ (collected_info (context s)))
                (length (messages s1) / 2) st1 s1 Hs1)
      as (stage & reply & st' & s' & msg & st_c & _ & -> & Hs' & _ & _ & _ & Hci & _).
    exists s'. split_and!; [done | done | by rewrite Hci].
  - destruct (is_complete _ || _).
    + destruct (_start_paper_generation_spec sid
                  (extracted ∪ default ∅ (collected_info (context s))) st1 s1 Hs1)
        as (paper & st' & s' & st_g & s_g & st_p & note & done_msg & -> & Hs' & _
            & _ & _ & Hci & _).
      exists s'. split_and!; [done | done | by rewrite Hci].
    + destruct (_collect_missing_information_spec sid
                  (extracted ∪ default ∅ (collected_info (context s)))
                  (missing_info (_check_information_completeness
                     (extracted ∪ default ∅ (collected_info (context s))))) st1 s1 Hs1)
        as (st' & s' & msg & -> & Hs' & _ & Hc & _).
      exists s'. split_and!; [done | done | by rewrite Hc].
Qed.

Lemma turn_info_of sid user_input st s :
  find_session st sid = Some s →
  ∃ extracted st_x s',
    fst (_extract_information w user_input
           (default INITIAL (current_stage (context s))) st_x) = Val extracted
    ∧ find_session (snd (process_user_input w cfg p sid user_input st)) sid = Some s'
    ∧ info_of (snd (process_user_input w cfg p sid user_input st)) sid
      = extracted ∪ info_of st sid.
Proof.
  intros Hfind.
  destruct (turn_collected_info sid user_input st s Hfind)
    as (extracted & st_x & s' & Hex & Hs' & Hci).
  exists extracted, st_x, s'. apply find_session_in_memory in Hs'.
  split_and!; [done | done |]. unfold info_of at 1. by rewrite Hs', Hci.
Qed.

Lemma run_turns_keys sid inputs : ∀ st s,
  find_session st sid = Some s →
  dom (info_of st sid) ⊆ dom (info_of (run_turns w cfg p sid inputs st) sid).
Proof.
  induction inputs as [|user_input inputs IH]; intros st s Hfind; simpl; [done|].
  destruct (turn_info_of sid user_input st s Hfind) as (extracted & st_x & s' & _ & Hs' & Hinfo).
  etrans; [|apply (IH _ s' Hs')]. rewrite Hinfo, dom_union_L. apply union_subseteq_r.
Qed.

(** C7, amended.  Across every sequence of user turns of one session the
    key set of [collected_info] never shrinks.  One turn replaces
    [collected_info] by the union of the extracted mapping and the former
    one, the extracted values winning; so a required field that was filled
    is not reported missing after the turn provided the turn's extraction
    does not hold that field or holds a truthy value for it. *)
Theorem collected_info_accumulates (sid : string) (st : State) (s : ConversationSession) :
  find_session st sid = Some s →
  (∀ inputs, dom (info_of st sid) ⊆ dom (info_of (run_turns w cfg p sid inputs st) sid))
  ∧ (∀ user_input, ∃ extracted st_x,
       let st' := snd (process_user_input w cfg p sid user_input st) in
       fst (_extract_information w user_input
              (default INITIAL (current_stage (context s))) st_x) = Val extracted
       ∧ info_of st' sid = extracted ∪ info_of st sid
       ∧ ∀ field,
           filled (info_of st sid) field →
           extracted !! field = None ∨ filled extracted field →
           field ∉ missing_info (_check_information_completeness (info_of st' sid))).
Proof.
  intros Hfind. split.
  - intros inputs. by apply (run_turns_keys sid inputs st s).
  - intros user_input.
    destruct (turn_info_of sid user_input st s Hfind) as (extracted & st_x & s' & Hex & _ & Hinfo).
    exists extracted, st_x. cbn zeta. split_and!; [done | done |].
    intros field Hfilled Hturn. apply filled_not_missing. rewrite Hinfo.
    destruct Hturn as [Hnone | (v & Hv & Ht)].
    + destruct Hfilled as (v & Hv & Ht). exists v. split; [|done].
      by rewrite lookup_union_r.
    + exists v. split; [|done]. by rewrite (lookup_union_Some_l _ _ _ _ Hv).
Qed.

End GeneratorFacts.

Section ExportFacts.
Import ConversationManager PaperGenerator.
Context (w : World).

Lemma now_spec st :
  now w st = (Val (clock w (clock_reads st)),
              {| active_sessions := active_sessions st; storage := storage st;
                 requests := requests st; clock_reads := S (clock_reads st) |}).
Proof. done. Qed.

(** Either rendering reads the clock once and uses only its reading to the
    second. *)
Lemma export_rendering_stamp (export : gmap string string → M string) paper st st2 :
  export = _export_as_markdown w ∨ export = _export_as_text w →
  strftime_seconds (clock w (clock_reads st)) = strftime_seconds (clock w (clock_reads st2)) →
  fst (export paper st) = fst (export paper st2)
  ∧ active_sessions (snd (export paper st)) = active_sessions st
  ∧ clock_reads (snd (export paper st)) = S (clock_reads st).
Proof.
  intros [-> | ->] Hstamp; unfold _export_as_markdown, _export_as_text, bind;
    rewrite !now_spec; unfold ret; cbn [fst snd active_sessions clock_reads];
    by rewrite Hstamp.
Qed.

Lemma export_paper_in_memory sid format st s :
  in_memory st sid s →
  export_paper w sid format st
  = match paper_content (context s) with
    | None => (Val "", st)
    | Some paper =>
        if bool_decide (paper = ∅) then (Val "", st)
        else if String.eqb format "markdown" then _export_as_markdown w paper st
        else if String.eqb format "text" then _export_as_text w paper st
        else _export_as_markdown w paper st
    end.
Proof.
  intros Hs. unfold export_paper, get_paper_content, bind.
  rewrite (get_context_in_memory _ _ _ Hs). unfold ret at 1.
  destruct (paper_content (context s)) as [paper|]; [|done].
  destruct (bool_decide (paper = ∅)); [done|].
  destruct (String.eqb format "markdown"); [done|].
  by destruct (String.eqb format "text").
Qed.

Lemma export_twice_in_memory sid format st s :
  in_memory st sid s →
  strftime_seconds (clock w (clock_reads st))
  = strftime_seconds (clock w (S (clock_reads st))) →
  fst (export_paper w sid format (snd (export_paper w sid format st)))
  = fst (export_paper w sid format st).
Proof.
  intros Hs Hstamp. rewrite (export_paper_in_memory sid format st s Hs).
  destruct (paper_content (context s)) as [paper|] eqn:Hp.
  2:{ cbn [snd fst]. by rewrite (export_paper_in_memory sid format st s Hs), Hp. }
  destruct (bool_decide (paper = ∅)) eqn:He.
  { cbn [snd fst]. by rewrite (export_paper_in_memory sid format st s Hs), Hp, He. }
  assert (Hboth : ∀ export, export = _export_as_markdown w ∨ export = _export_as_text w →
            export_paper w sid format (snd (export paper st)) = export paper (snd (export paper st))
            → fst (export_paper w sid format (snd (export paper st))) = fst (export paper st)).
  { intros export Hexp Heq. rewrite Heq.
    destruct (export_rendering_stamp export paper st (snd (export paper st)) Hexp) as (H1 & H2 & H3).
    - destruct (export_rendering_stamp export paper st st Hexp eq_refl) as (_ & _ & Hc).
      by rewrite Hc.
    - by rewrite H1. }
  assert (Hmem : ∀ export, export = _export_as_markdown w ∨ export = _export_as_text w →
            in_memory (snd (export paper st)) sid s).
  { intros export Hexp.
    destruct (export_rendering_stamp export paper st st Hexp eq_refl) as (_ & Ha & _).
    unfold in_memory. by rewrite Ha. }
  destruct (String.eqb format "markdown") eqn:Hm; [|destruct (String.eqb format "text") eqn:Ht].
  - apply Hboth; [by left|].
    rewrite (export_paper_in_memory sid format _ s (Hmem _ (or_introl eq_refl))), Hp, He, Hm. done.
  - apply Hboth; [by right|].
    rewrite (export_paper_in_memory sid format _ s (Hmem _ (or_intror eq_refl))), Hp, He, Hm, Ht. done.
  - apply Hboth; [by left|].
    rewrite (export_paper_in_memory sid format _ s (Hmem _ (or_introl eq_refl))), Hp, He, Hm, Ht. done.
Qed.

(** C8, amended.  Exporting a session twice in a row in the same format
    yields the same text whenever the clock reads the same second at both
    exports: the text depends on the mapping, the format and the time of the
    export printed to the second. *)
Theorem export_twice_same_second (sid format : string) (st : State) :
  strftime_seconds (clock w (clock_reads st))
  = strftime_seconds (clock w (S (clock_reads st))) →
  fst (export_paper w sid format (snd (export_paper w sid format st)))
  = fst (export_paper w sid format st).
Proof.
  intros Hstamp.
  destruct (find_session st sid) as [s|] eqn:Hfind.
  - destruct (get_session_find st sid) as (Hg1 & _ & Hg3 & _).
    pose proof (get_session_clock st sid) as Hc.
    specialize (Hg3 s Hfind). rewrite Hfind in Hg1.
    destruct (get_session sid st) as [r0 st0] eqn:E. cbn [fst snd] in Hg1, Hg3, Hc. subst r0.
    assert (Hsame : export_paper w sid format st = export_paper w sid format st0).
    { unfold export_paper, get_paper_content, get_context, bind.
      by rewrite E, (get_session_in_memory _ _ _ Hg3). }
    rewrite Hsame. apply (export_twice_in_memory sid format st0 s Hg3). by rewrite Hc.
  - pose proof (get_session_not_found _ _ Hfind) as Hg.
    unfold export_paper, get_paper_content, get_context, bind. rewrite Hg.
    cbn [ret paper_content empty_context snd fst]. by rewrite Hg.
Qed.
End ExportFacts.

(** ** The properties on the scenarios *)


(** Two turns of a session keep the key it started with. *)
Lemma collected_info_accumulates_witness :
  let st :=
    Scenario.holding
      (Scenario.session (Scenario.transcript 0) {[ "研究主题" := VStr "大模型" ]} None) in
  dom (info_of st Scenario.sid)
  ⊆ dom (info_of (run_turns Scenario.blanking Scenario.defaults Scenario.prompts
                    Scenario.sid ["第一轮"; "第二轮"] st) Scenario.sid).
Proof.
  intros st.
  destruct (collected_info_accumulates Scenario.blanking Scenario.defaults Scenario.prompts
              Scenario.sid st
              (Scenario.session (Scenario.transcript 0) {[ "研究主题" := VStr "大模型" ]} None))
    as [H _].
  - reflexivity.
  - exact (H ["第一轮"; "第二轮"]).
Defined.

(** C7 as stated fails.  The research topic is filled; the backend extracts
    an empty research topic from the next turn; the merge overwrites the
    value and the completeness check reports the field as missing. *)
Lemma overwrite_counterexample :
  let st :=
    Scenario.holding
      (Scenario.session (Scenario.transcript 0) {[ "研究主题" := VStr "大模型" ]} None) in
  let st' :=
    snd (PaperGenerator.process_user_input Scenario.blanking Scenario.defaults
           Scenario.prompts Scenario.sid "第一轮" st) in
  info_of st Scenario.sid !! "研究主题" = Some (VStr "大模型")
  ∧ PaperGenerator.missing_info
      (PaperGenerator._check_information_completeness (info_of st Scenario.sid))
    = ["研究背景"; "研究目标"; "研究方法"; "数据来源"; "研究发现"]
  ∧ info_of st' Scenario.sid !! "研究主题" = Some (VStr "")
  ∧ PaperGenerator.missing_info
      (PaperGenerator._check_information_completeness (info_of st' Scenario.sid))
    = ["研究主题"; "研究背景"; "研究目标"; "研究方法"; "数据来源"; "研究发现"].
Proof. vm_compute. repeat split. Qed.

(** Two exports within one second give the same text. *)
Lemma export_twice_same_second_witness :
  let st :=
    Scenario.holding
      (Scenario.session (Scenario.transcript 30) ∅ (Some {[ "abstract" := "摘要正文" ]})) in
  fst (PaperGenerator.export_paper Scenario.offline_racing Scenario.sid "markdown"
         (snd (PaperGenerator.export_paper Scenario.offline_racing Scenario.sid "markdown" st)))
  = fst (PaperGenerator.export_paper Scenario.offline_racing Scenario.sid "markdown" st).
Proof.
  intros st.
  apply (export_twice_same_second Scenario.offline_racing Scenario.sid "markdown" st).
  reflexivity.
Defined.

(** C8 as stated fails.  The same mapping exported twice, with nothing
    changed in between, gives two texts that differ when the clock has moved
    to the next second: each text carries the time of its export. *)
Lemma export_counterexample :
  let st :=
    Scenario.holding
      (Scenario.session (Scenario.transcript 30) ∅ (Some {[ "abstract" := "摘要正文" ]})) in
  let first := PaperGenerator.export_paper Scenario.offline Scenario.sid "text" st in
  let second := PaperGenerator.export_paper Scenario.offline Scenario.sid "text" (snd first) in
  find_session (snd first) Scenario.sid = find_session st Scenario.sid
  ∧ match fst first, fst second with
    | Val text1, Val text2 => String.eqb text1 text2 = false
    | _, _ => False
    end.
Proof. vm_compute. repeat split. Qed.

(** * Further properties of the code *)

Section StoreExtras.
Import ConversationManager.
Context (w : World).

(** X1.  Whenever [create_session] returns a session, its identifier is
    the user followed by the time of the first clock reading, to the second;
    the session has the given user and title, no message, the initial
    context and the status ["active"], and it is created and updated at the
    same instant.  Right afterwards [get_session] returns it, its file holds
    it, [get_messages] returns the empty list, and every other identifier
    resolves as before. *)
Theorem create_session_then_found (user heading : string) (st : State)
    (s : ConversationSession) (st' : State) :
  create_session w user heading st = (Val s, st') →
  session_id s = user +:+ "_" +:+ strftime_compact (clock w (clock_reads st))
  ∧ (user_id s = user ∧ title s = heading ∧ messages s = []
     ∧ context s = initial_context ∧ status s = "active"
     ∧ created_at s = updated_at s)
  ∧ get_session (session_id s) st' = (Val (Some s), st')
  ∧ storage st' !! session_id s = Some (Stored s)
  ∧ get_messages (session_id s) None st' = (Val [], st')
  ∧ (∀ other, other ≠ session_id s → find_session st' other = find_session st other).
Proof.
  unfold create_session, bind, now, mutate, _save_session, ret. cbn.
  intros [= <- <-]. cbn.
  split_and!; try reflexivity.
  - unfold get_session. cbn. by rewrite lookup_insert_eq.
  - by rewrite lookup_insert_eq.
  - unfold get_messages, bind, get_session. cbn. by rewrite lookup_insert_eq.
  - intros other Hne. unfold find_session. cbn.
    rewrite !lookup_insert_ne by done. done.
Qed.

(** X2.  Session identifiers are unique only to the second: when a user
    creates two sessions while the clock shows the same second, the second
    one gets the identifier of the first and takes its place, in memory and
    in the file. *)
Theorem create_session_same_second (user heading1 heading2 : string) (st : State) :
  strftime_compact (clock w (clock_reads st))
  = strftime_compact (clock w (S (S (clock_reads st)))) →
  ∃ s1 st1 s2 st2,
    create_session w user heading1 st = (Val s1, st1)
    ∧ create_session w user heading2 st1 = (Val s2, st2)
    ∧ session_id s2 = session_id s1
    ∧ title s2 = heading2
    ∧ active_sessions st2 !! session_id s1 = Some s2
    ∧ storage st2 !! session_id s1 = Some (Stored s2).
Proof.
  intros Hsame.
  unfold create_session, bind, now, mutate, _save_session, ret. cbn.
  eexists _, _, _, _. split; [reflexivity|]. split; [reflexivity|]. cbn.
  rewrite <- Hsame. split_and!; try reflexivity; by rewrite lookup_insert_eq.
Qed.

(** X3.  [delete_session] never raises, whether the session exists or not.
    Afterwards the identifier resolves to nothing, [get_session] returns
    [None], [add_message] raises the session-not-found [ValueError], and
    every other identifier resolves as before. *)
Theorem delete_session_forgets (session_id : string) (st : State) :
  ∃ st',
    delete_session session_id st = (Val (), st')
    ∧ find_session st' session_id = None
    ∧ (∀ other, other ≠ session_id → find_session st' other = find_session st other)
    ∧ get_session session_id st' = (Val None, st')
    ∧ (∀ role content metadata,
         add_message w session_id role content metadata st'
         = (Raise (ValueError ("会话不存在: " +:+ session_id)), st')).
Proof.
  eexists. split; [reflexivity|].
  assert (Hnone : find_session
            {| active_sessions := delete session_id (active_sessions st);
               storage := delete session_id (storage st);
               requests := requests st; clock_reads := clock_reads st |} session_id = None).
  { unfold find_session. cbn. by rewrite !lookup_delete_eq. }
  split; [exact Hnone|]. split; [|split].
  - intros other Hne. unfold find_session. cbn. by rewrite !lookup_delete_ne.
  - unfold get_session, bind, _load_session, ret. cbn. by rewrite !lookup_delete_eq.
  - intros role content metadata. unfold add_message, bind, get_session, _load_session, ret.
    cbn. by rewrite !lookup_delete_eq.
Qed.
End StoreExtras.

Section ReadExtras.
Import ConversationManager.

Lemma get_messages_find st sid s limit :
  find_session st sid = Some s →
  ∃ st',
    get_messages sid limit st
    = (Val (match limit with
            | Some (S n) => drop (length (messages s) - S n) (messages s)
            | Some 0 => messages s
            | None => messages s
            end), st')
    ∧ in_memory st' sid s.
Proof.
  intros Hfind. unfold get_messages, bind.
  destruct (get_session_find st sid) as (Hg1 & _ & Hg3 & _).
  specialize (Hg3 s Hfind). rewrite Hfind in Hg1.
  destruct (get_session sid st) as [r0 st0]. cbn [fst snd] in Hg1, Hg3. subst r0.
  by exists st0.
Qed.

(** X4.  For an existing session [get_messages] returns a suffix of the
    transcript: all of it without a limit or with the limit 0, otherwise its
    last [limit] messages, or all of them when there are fewer.
    [get_messages_for_api] returns the roles and contents of the same
    messages in the same order. *)
Theorem get_messages_is_suffix (sid : string) (limit : option nat) (st : State)
    (s : ConversationSession) :
  find_session st sid = Some s →
  ∃ ms st' st'',
    get_messages sid limit st = (Val ms, st')
    ∧ ms `suffix_of` messages s
    ∧ length ms = match limit with
                  | Some (S n) => S n `min` length (messages s)
                  | Some 0 => length (messages s)
                  | None => length (messages s)
                  end
    ∧ get_messages_for_api sid limit st
      = (Val (map (fun msg => {| chat_role := role msg; chat_content := content msg |}) ms),
         st'').
Proof.
  intros Hfind. destruct (get_messages_find st sid s limit Hfind) as (st' & Hget & _).
  eexists _, st', st'. split; [exact Hget|].
  split; [|split].
  - destruct limit as [[|n]|]; [done | apply suffix_drop | done].
  - destruct limit as [[|n]|]; [done | | done]. rewrite length_drop. lia.
  - unfold get_messages_for_api, bind. by rewrite Hget.
Qed.

Lemma insert_latest_first_perm x l : insert_latest_first x l ≡ₚ x :: l.
Proof.
  induction l as [|y l IH]; cbn; [done|].
  destruct (String.ltb _ _); [|done]. rewrite IH. apply Permutation_swap.
Qed.

Lemma sort_latest_first_perm l : sort_latest_first l ≡ₚ l.
Proof.
  induction l as [|x l IH]; cbn; [done|].
  fold (sort_latest_first l). by rewrite insert_latest_first_perm, IH.
Qed.

Lemma ltb_asym a b : String.ltb a b = true → String.ltb b a = false.
Proof.
  unfold String.ltb. rewrite (String.compare_antisym a b).
  by destruct (String.compare b a).
Qed.

Lemma insert_latest_first_sorted x l :
  Sorted (λ a b, not_later b a) l → Sorted (λ a b, not_later b a) (insert_latest_first x l).
Proof.
  induction l as [|y l IH]; intros Hs; cbn.
  - by repeat constructor.
  - destruct (String.ltb (updated_at x) (updated_at y)) eqn:E.
    + inversion Hs as [|? ? Hs' Hhd]; subst. constructor; [by apply IH|].
      destruct l as [|z l]; cbn.
      * constructor. by apply ltb_asym.
      * destruct (String.ltb (updated_at x) (updated_at z)).
        -- inversion Hhd; subst. by constructor.
        -- constructor. by apply ltb_asym.
    + constructor; [done|]. by constructor.
Qed.

Lemma sort_latest_first_sorted l : Sorted (λ a b, not_later b a) (sort_latest_first l).
Proof.
  induction l as [|x l IH]; cbn; [constructor|]. by apply insert_latest_first_sorted.
Qed.

Lemma listed_sessions_elem st listing user s :
  s ∈ listed_sessions st listing user ↔
  ∃ name, name ∈ listing ∧ storage st !! name = Some (Stored s)
          ∧ (user = None ∨ user = Some (user_id s)).
Proof.
  induction listing as [|name listing IH]; cbn.
  - split; [by intros ?%elem_of_nil | by intros (? & ?%elem_of_nil & _)].
  - assert (Hrest : (∃ n, n ∈ listing ∧ storage st !! n = Some (Stored s)
                         ∧ (user = None ∨ user = Some (user_id s)))
                    → ∃ n, n ∈ name :: listing ∧ storage st !! n = Some (Stored s)
                         ∧ (user = None ∨ user = Some (user_id s))).
    { intros (n & ? & ?). exists n. split; [by right | done]. }
    destruct (storage st !! name) as [[s0|]|] eqn:E.
    + destruct user as [u|].
      * destruct (String.eqb_spec (user_id s0) u) as [Hu|Hu].
        -- rewrite elem_of_cons, IH. split.
           ++ intros [->|H]; [|by apply Hrest].
              exists name. split; [by left|]. split; [done|]. right. by rewrite Hu.
           ++ intros (n & [->|Hin]%elem_of_cons & Hn & Huser).
              ** left. congruence.
              ** right. by exists n.
        -- rewrite IH. split; [by apply Hrest|].
           intros (n & [->|Hin]%elem_of_cons & Hn & Huser).
           ++ destruct Huser as [|Huser]; [done|]. congruence.
           ++ by exists n.
      * rewrite elem_of_cons, IH. split.
        -- intros [->|H]; [|by apply Hrest].
           exists name. split; [by left|]. split; [done|]. by left.
        -- intros (n & [->|Hin]%elem_of_cons & Hn & Huser).
           ** left. congruence.
           ** right. by exists n.
    + rewrite IH. split; [by apply Hrest|].
      intros (n & [->|Hin]%elem_of_cons & Hn & Huser); [congruence | by exists n].
    + rewrite IH. split; [by apply Hrest|].
      intros (n & [->|Hin]%elem_of_cons & Hn & Huser); [congruence | by exists n].
Qed.

(** X5.  [list_sessions] never raises and changes nothing.  It returns
    exactly the sessions whose listed file loads, restricted to the user when
    one is given; files that are missing or do not load are skipped.  The
    result is a permutation of the sessions in listing order, arranged so
    that no session stands before one that was updated later. *)
Theorem list_sessions_latest_first (listing : list string) (user : option string)
    (st : State) :
  ∃ sessions,
    list_sessions listing user st = (Val sessions, st)
    ∧ (∀ s, s ∈ sessions ↔
         ∃ name, name ∈ listing ∧ storage st !! name = Some (Stored s)
                 ∧ (user = None ∨ user = Some (user_id s)))
    ∧ sessions ≡ₚ listed_sessions st listing user
    ∧ Sorted (λ a b, not_later b a) sessions.
Proof.
  eexists. split; [reflexivity|]. split; [|split].
  - intros s. rewrite sort_latest_first_perm. apply listed_sessions_elem.
  - apply sort_latest_first_perm.
  - apply sort_latest_first_sorted.
Qed.
End ReadExtras.

Section DispatchExtras.
Import CollaborationEngine.
Context (w : World) (cfg : Config) (p : PromptTemplates).

Lemma no_service_mapping role :
  service_names w = [] → role_service_mapping w !! role = None.
Proof.
  intros H. unfold role_service_mapping, _assign_services_to_roles,
    AIService.get_service_names. rewrite H. apply lookup_empty.
Qed.

Lemma no_service_chat messages role temperature max_tokens st :
  service_names w = [] →
  AIService.chat w messages (role_service_mapping w !! role) temperature max_tokens st
  = (Raise (Exception "没有可用的AI服务"), st).
Proof. intros H. rewrite (no_service_mapping role H). by apply chat_no_service. Qed.

Lemma no_service_generate_content section info requirements st :
  service_names w = [] →
  generate_content w cfg p section info requirements st
  = (Val "内容生成失败: 没有可用的AI服务", st).
Proof.
  intros H. unfold generate_content, try_except. by rewrite (no_service_chat _ _ _ _ _ H).
Qed.

Lemma no_service_review_quality content section st :
  service_names w = [] →
  review_quality w cfg p content section st
  = (Val {| review := "审核失败: 没有可用的AI服务"; review_status := "error" |}, st).
Proof.
  intros H. unfold review_quality, try_except, bind.
  by rewrite (no_service_chat _ _ _ _ _ H).
Qed.

Lemma no_service_optimize_structure content section st :
  service_names w = [] →
  optimize_structure w cfg p content section st
  = (Val "结构优化失败: 没有可用的AI服务", st).
Proof.
  intros H. unfold optimize_structure, try_except. by rewrite (no_service_chat _ _ _ _ _ H).
Qed.

Lemma no_service_collect_information stage info history st :
  service_names w = [] →
  collect_information w cfg p stage info history st
  = (Val "信息收集失败: 没有可用的AI服务", st).
Proof.
  intros H. unfold collect_information, try_except. by rewrite (no_service_chat _ _ _ _ _ H).
Qed.

Lemma no_service_improve c r o st :
  service_names w = [] →
  improve w cfg c r o st = (Raise (Exception "没有可用的AI服务"), st).
Proof. intros H. unfold improve. by rewrite (no_service_chat _ _ _ _ _ H). Qed.

Lemma no_backend_generation_run section info k st :
  service_names w = [] →
  collaborative_generation w cfg p section info k st
  = (Val {| CollaborationEngine.section := section;
            final_content := "内容生成失败: 没有可用的AI服务";
            iterations :=
              match k with
              | 0 =>
                  [{| iteration := 0; type := "initial_generation";
                      iter_content := "内容生成失败: 没有可用的AI服务" |}]
              | S _ =>
                  [{| iteration := 0; type := "initial_generation";
                      iter_content := "内容生成失败: 没有可用的AI服务" |};
                   {| iteration := 1; type := "quality_review";
                      iter_content := "审核失败: 没有可用的AI服务" |};
                   {| iteration := 1; type := "structure_optimization";
                      iter_content := "结构优化失败: 没有可用的AI服务" |}]
              end;
            status := match k with 0 => "success" | S _ => "error" end;
            error := match k with 0 => None | S _ => Some "没有可用的AI服务" end |}, st).
Proof.
  intros Hnone.
  unfold collaborative_generation, generation_block, guarded.
  rewrite (no_service_generate_content _ _ _ _ Hnone).
  destruct k as [|k]; [reflexivity|].
  cbn [refine]. unfold guarded.
  rewrite (no_service_review_quality _ _ _ Hnone).
  rewrite (no_service_optimize_structure _ _ _ Hnone).
  rewrite (no_service_improve _ _ _ _ Hnone). reflexivity.
Qed.

(** X6.  With no registered backend [collaborative_generation] still
    returns a result, issues no request and changes nothing; the content it
    returns is the generator's failure text.  With no iteration asked for the
    status is ["success"] with one trace record; with at least one it is
    ["error"], carrying the no-service message, with three records. *)
Theorem no_backend_generation (section : string) (collected_info : gmap string value)
    (k : nat) (st : State) :
  service_names w = [] →
  ∃ r,
    collaborative_generation w cfg p section collected_info k st = (Val r, st)
    ∧ final_content r = "内容生成失败: 没有可用的AI服务"
    ∧ (k = 0 → status r = "success" ∧ error r = None ∧ length (iterations r) = 1)
    ∧ (1 ≤ k → status r = "error" ∧ error r = Some "没有可用的AI服务"
               ∧ length (iterations r) = 3).
Proof.
  intros Hnone. eexists. split; [by apply no_backend_generation_run|].
  cbn. split; [done|]. split.
  - by intros ->.
  - intros Hk. destruct k; [lia | done].
Qed.

Lemma role_mapping_lookup i role :
  1 ≤ length (service_names w) →
  roles !! i = Some role →
  role_service_mapping w !! role
  = service_names w !! (i mod length (service_names w)).
Proof.
  intros Hlen Hrole. unfold role_service_mapping, _assign_services_to_roles,
    AIService.get_service_names.
  destruct (service_names w) as [|a [|b l]] eqn:E.
  - cbn in Hlen. lia.
  - cbn [length]. rewrite Nat.mod_1_r. cbn [lookup list_lookup].
    destruct (roles_lookup_cases i role Hrole) as [[-> ->]|[[-> ->]|[[-> ->]|[-> ->]]]];
      repeat (rewrite lookup_insert_ne by done); apply lookup_insert_eq.
  - apply assign_loop_roles; [cbn; lia | done].
Qed.

(** X7.  With at least one registered backend, none under the empty name,
    the role at position [i] of the role list has the backend at position
    [i mod n] of the registration order, [get_service] resolves it to that
    backend, and a chat for the role is one request to that backend: its
    reply is returned, its failure is raised, and the sessions are left
    alone. *)
Theorem role_request_reaches_assigned_backend (i : nat) (role : string) :
  1 ≤ length (service_names w) →
  "" ∉ service_names w →
  roles !! i = Some role →
  ∃ name,
    service_names w !! (i mod length (service_names w)) = Some name
    ∧ role_service_mapping w !! role = Some name
    ∧ AIService.get_service w (role_service_mapping w !! role) = Some name
    ∧ ∀ messages temperature max_tokens st,
        AIService.chat w messages (role_service_mapping w !! role) temperature max_tokens st
        = (match backend w (requests st) name messages temperature max_tokens with
           | Reply text => Val text
           | Failure msg => Raise (Exception msg)
           end,
           {| active_sessions := active_sessions st; storage := storage st;
              requests := S (requests st); clock_reads := clock_reads st |}).
Proof.
  intros Hlen Hne Hrole.
  destruct (lookup_lt_is_Some_2 (service_names w) (i mod length (service_names w)))
    as [name Hname]; [apply Nat.mod_upper_bound; lia|].
  exists name. split; [done|].
  rewrite (role_mapping_lookup i role Hlen Hrole), Hname. split; [done|].
  assert (Hin : name ∈ service_names w) by (by eapply list_elem_of_lookup_2).
  assert (Hget : AIService.get_service w (Some name) = Some name).
  { unfold AIService.get_service, str_truthy.
    destruct (String.eqb_spec name "") as [->|_]; [done|]. cbn.
    by rewrite bool_decide_eq_true_2. }
  split; [done|]. intros messages temperature max_tokens st.
  unfold AIService.chat. rewrite Hget. by destruct (backend w _ _ _ _ _).
Qed.
End DispatchExtras.

Section RegexExtras.
Import PaperGenerator.

Lemma is_close_char c : is_close c = true → String c "" = "}".
Proof. unfold is_close. intros H%Ascii.eqb_eq. by subst. Qed.

Lemma is_open_char c : is_open c = true → String c "" = "{".
Proof. unfold is_open. intros H%Ascii.eqb_eq. by subst. Qed.

Lemma until_close_some s body :
  until_close s = Some body → no_close body ∧ ∃ post, s = body +:+ "}" +:+ post.
Proof.
  revert body. induction s as [|c s IH]; intros body; cbn; [done|].
  destruct (is_close c) eqn:E.
  - intros [= <-]. split; [done|]. exists s. cbn.
    apply is_close_char in E. by injection E as ->.
  - destruct (until_close s) as [b|]; [|done]. intros [= <-].
    destruct (IH b eq_refl) as (Hb & post & ->). split; [done|]. by exists post.
Qed.

Lemma until_close_none s : until_close s = None → no_close s.
Proof.
  induction s as [|c s IH]; cbn; [done|].
  destruct (is_close c) eqn:E; [done|].
  destruct (until_close s); [done|]. intros _. split; [done | by apply IH].
Qed.

(** A text without closing brace in front of a closing brace: what
    [until_close] finds is that text. *)
Lemma until_close_app body post :
  no_close body → until_close (body +:+ "}" +:+ post) = Some body.
Proof.
  induction body as [|c body IH]; [done|].
  intros [Hc Hb]. change (until_close (String c (body +:+ "}" +:+ post)) = Some (String c body)).
  cbn [until_close]. by rewrite Hc, IH.
Qed.

Lemma no_close_app a b : no_close (a +:+ b) → no_close a ∧ no_close b.
Proof.
  induction a as [|c a IH]; cbn; [done|]. intros [Hc H]. destruct (IH H). done.
Qed.

Lemma append_cons c (a b : string) : String c a +:+ b = String c (a +:+ b).
Proof. reflexivity. Qed.

Lemma string_app_assoc (a b c : string) : (a +:+ b) +:+ c = a +:+ (b +:+ c).
Proof.
  induction a as [|x a IH]; [reflexivity|]. by rewrite !append_cons, IH.
Qed.

(** X8.  The search for [\{[^}]+\}].  What it finds is a fragment of the
    text that opens with a brace, closes with a brace and holds in between at
    least one character, none of them a closing brace.  It finds nothing
    only when the text has no such fragment. *)
Theorem re_search_brace_delimited (s : string) :
  (∀ found, re_search s = Some found →
     ∃ pre body post,
       s = pre +:+ found +:+ post
       ∧ found = "{" +:+ body +:+ "}"
       ∧ body ≠ ""
       ∧ no_close body)
  ∧ (re_search s = None →
     ∀ pre body post,
       body ≠ "" → no_close body → s ≠ pre +:+ "{" +:+ body +:+ "}" +:+ post).
Proof.
  split.
  - induction s as [|c s IH]; intros found; cbn; [done|].
    assert (Hskip : re_search s = Some found →
              ∃ pre body post, String c s = pre +:+ found +:+ post
                ∧ found = "{" +:+ body +:+ "}" ∧ body ≠ "" ∧ no_close body).
    { intros (pre & body & post & -> & ? & ? & ?)%IH.
      by exists (String c pre), body, post. }
    destruct (is_open c) eqn:E; [|done].
    destruct (until_close s) as [[|b body]|] eqn:U; [done | | done].
    intros [= <-]. apply until_close_some in U as (Hb & post & ->).
    exists "", (String b body), post. apply is_open_char in E. injection E as ->.
    split_and!; [| reflexivity | done | exact Hb].
    rewrite <- (string_app_assoc (String b body) "}" post). reflexivity.
  - induction s as [|c s IH]; cbn.
    + intros _ [|? ?] body post _ _; by destruct body.
    + intros Hnone pre body post Hne Hnc Heq.
      destruct pre as [|c' pre].
      * cbn in Heq. injection Heq as -> ->.
        change (is_open _) with true in Hnone. cbn iota in Hnone.
        change ("" +:+ body +:+ "}" +:+ post) with (body +:+ "}" +:+ post) in Hnone.
        rewrite (until_close_app body post Hnc) in Hnone.
        destruct body; done.
      * cbn in Heq. injection Heq as -> ->.
        assert (re_search (pre +:+ "{" +:+ body +:+ "}" +:+ post) = None) as Hrest.
        { destruct (is_open c'); [|done].
          destruct (until_close _) as [[|? ?]|]; done. }
        by apply (IH Hrest pre body post).
Qed.
End RegexExtras.

Section ExtractionExtras.
Import PaperGenerator.
Context (w : World).

(** X9.  [_extract_information] returns after at most one backend request
    and leaves the sessions alone.  What it returns is either the one-entry
    fallback with the user's text, or the mapping [json.loads] reads from the
    brace-delimited fragment found in the reply of the first registered
    backend to the extraction messages. *)
Theorem extraction_result_cases (user_input stage : string) (st : State) :
  ∃ extracted st',
    _extract_information w user_input stage st = (Val extracted, st')
    ∧ same_store st st'
    ∧ requests st ≤ requests st' ≤ S (requests st)
    ∧ (extracted = {[ "用户补充信息" := VStr user_input ]}
       ∨ ∃ service response found,
           head (service_names w) = Some service
           ∧ backend w (requests st) service (extraction_messages user_input stage)
               (3 # 10)%Q 1000 = Reply response
           ∧ re_search response = Some found
           ∧ json_loads w found = Some extracted).
Proof.
  unfold _extract_information, try_except, bind.
  destruct (head (service_names w)) as [service|] eqn:Hs.
  - rewrite (chat_first_service w _ _ _ _ _ Hs).
    destruct (backend w _ _ _ _ _) as [response|msg] eqn:Hb.
    + destruct (re_search response) as [found|] eqn:Hre.
      * destruct (json_loads w found) as [d|] eqn:Hj.
        -- exists d. eexists. split; [reflexivity|]. split; [done|]. cbn. split; [lia|].
           right. by exists service, response, found.
        -- eexists _, _. split; [reflexivity|]. split; [done|]. cbn. split; [lia|]. by left.
      * eexists _, _. split; [reflexivity|]. split; [done|]. cbn. split; [lia|]. by left.
    + eexists _, _. split; [reflexivity|]. split; [done|]. cbn. split; [lia|]. by left.
  - assert (service_names w = []) as Hnil by (by destruct (service_names w)).
    rewrite (chat_no_service w _ _ _ _ Hnil).
    eexists _, _. split; [reflexivity|]. split; [done|]. split; [lia|]. by left.
Qed.
End ExtractionExtras.

Section EngineExtras.
Import CollaborationEngine.
Context (w : World) (cfg : Config) (p : PromptTemplates).

(** One call of [AIServiceManager.chat] issues at most one request. *)
Lemma chat_requests messages service_name temperature max_tokens st :
  let st' := snd (AIService.chat w messages service_name temperature max_tokens st) in
  requests st ≤ requests st' ≤ S (requests st).
Proof.
  unfold AIService.chat. destruct (AIService.get_service w service_name); [|cbn; lia].
  destruct (backend w _ _ _ _ _); cbn; lia.
Qed.

Lemma try_except_snd {A} (m : M A) (h : exn → A) st :
  snd (try_except m (fun e => ret (h e)) st) = snd (m st).
Proof. unfold try_except, ret. by destruct (m st) as [[a|e] st']. Qed.

Lemma generate_content_requests section info requirements st :
  let st' := snd (generate_content w cfg p section info requirements st) in
  requests st ≤ requests st' ≤ S (requests st).
Proof. unfold generate_content. rewrite try_except_snd. apply chat_requests. Qed.

Lemma optimize_structure_requests content section st :
  let st' := snd (optimize_structure w cfg p content section st) in
  requests st ≤ requests st' ≤ S (requests st).
Proof. unfold optimize_structure. rewrite try_except_snd. apply chat_requests. Qed.

Lemma review_quality_requests content section st :
  let st' := snd (review_quality w cfg p content section st) in
  requests st ≤ requests st' ≤ S (requests st).
Proof.
  unfold review_quality. rewrite try_except_snd. unfold bind.
  match goal with |- context [AIService.chat w ?a ?b ?c ?d st] =>
    pose proof (chat_requests a b c d st) as H;
    destruct (AIService.chat w a b c d st) as [[x|e] st'] end; exact H.
Qed.

Lemma improve_requests c r o st :
  let st' := snd (improve w cfg c r o st) in
  requests st ≤ requests st' ≤ S (requests st).
Proof. apply chat_requests. Qed.

(** The loop from a trace of [3 * i + 1] records whose last one holds the
    current content: either it completes, with [3 * (i + n) + 1] records of
    which the last holds the content it returns, or it stops in some
    iteration [i + j + 1] after the review and the optimization of that
    iteration, returning the content of the record before them. *)
Lemma refine_shape section n : ∀ i c tr st,
  length tr = 3 * i + 1 →
  (∃ rec, last tr = Some rec ∧ iter_content rec = c) →
  let out := refine w cfg p section n i c tr st in
  requests st ≤ requests (snd out) ≤ requests st + 3 * n
  ∧ ∃ c',
      current_content (snd (fst out)) = Some c'
      ∧ ((fst (fst out) = None
          ∧ length (trace (snd (fst out))) = 3 * (i + n) + 1
          ∧ ∃ rec, last (trace (snd (fst out))) = Some rec ∧ iter_content rec = c')
         ∨ (∃ e j rec,
              fst (fst out) = Some e ∧ j < n
              ∧ length (trace (snd (fst out))) = 3 * (i + j) + 3
              ∧ trace (snd (fst out)) !! (3 * (i + j)) = Some rec
              ∧ iter_content rec = c')).
Proof.
  induction n as [|n IH]; intros i c tr st Hlen Hlast; cbn [refine].
  - cbn. split; [lia|]. exists c. split; [done|]. left.
    split; [done|]. split; [by rewrite Nat.add_0_r | done].
  - unfold guarded.
    pose proof (review_quality_requests c section st) as Hr1.
    destruct (review_quality_total w cfg p c section st) as (r & st1 & Hrev & _).
    rewrite Hrev in Hr1 |- *. cbn [snd] in Hr1.
    pose proof (optimize_structure_requests c section st1) as Hr2.
    destruct (optimize_structure_total w cfg p c section st1) as (o & st2 & Hopt & _).
    rewrite Hopt in Hr2 |- *. cbn [snd] in Hr2.
    pose proof (improve_requests c (review r) o st2) as Hr3.
    destruct (improve w cfg c (review r) o st2) as [[c'|e] st3]; cbn [snd] in Hr3.
    + match goal with |- context [refine w cfg p section n (S i) c' ?t st3] =>
        destruct (IH (S i) c' t st3) as (Hreq & c'' & Hcur & Hcases) end.
      { rewrite !length_app. cbn. lia. }
      { eexists. split; [apply last_snoc | done]. }
      cbn zeta. split; [lia|]. exists c''. split; [done|].
      destruct Hcases as [(Hn & Hl & Hrec) | (e & j & rec & He & Hj & Hl & Hlk & Hrc)].
      * left. split; [done|]. split; [|done]. rewrite Hl. lia.
      * right. exists e, (S j), rec. split; [done|]. split; [lia|].
        split; [rewrite Hl; lia|]. split; [|done].
        replace (3 * (i + S j)) with (3 * (S i + j)) by lia. done.
    + cbn. split; [lia|]. exists c. split; [done|]. right.
      destruct Hlast as (rec & Hrec & Hc).
      exists e, 0, rec. split; [done|]. split; [lia|].
      split; [rewrite !length_app; cbn; lia|]. split; [|done].
      rewrite <- app_assoc. rewrite lookup_app_l by lia.
      rewrite last_lookup in Hrec. rewrite <- Hrec. f_equal. lia.
Qed.

Lemma collaborative_generation_full (section : string)
    (collected_info : gmap string value) (k : nat) (st : State) :
  ∃ r st',
    collaborative_generation w cfg p section collected_info k st = (Val r, st')
    ∧ same_store st st'
    ∧ requests st ≤ requests st' ≤ requests st + 1 + 3 * k
    ∧ ((status r = "success" ∧ error r = None
        ∧ length (iterations r) = 1 + 3 * k
        ∧ ∃ rec, last (iterations r) = Some rec ∧ iter_content rec = final_content r)
       ∨ (status r = "error" ∧ is_Some (error r)
          ∧ ∃ i rec, 1 ≤ i ≤ k
                     ∧ length (iterations r) = 3 * i
                     ∧ iterations r !! (3 * (i - 1)) = Some rec
                     ∧ iter_content rec = final_content r)).
Proof.
  destruct (collaborative_generation_total w cfg p section collected_info k st)
    as (r & st' & Hrun & Hsame).
  exists r, st'. split; [exact Hrun|]. split; [exact Hsame|].
  unfold collaborative_generation, generation_block, guarded in Hrun.
  pose proof (generate_content_requests section collected_info "" st) as Hr0.
  destruct (generate_content_total w cfg p section collected_info "" st)
    as (c0 & st0 & Hgen & _).
  rewrite Hgen in Hrun, Hr0. cbn [snd] in Hr0.
  match type of Hrun with context [refine w cfg p section k 0 c0 ?t st0] =>
    destruct (refine_shape section k 0 c0 t st0) as (Hreq & c' & Hcur & Hcases);
      [reflexivity | eexists; split; reflexivity |];
    destruct (refine w cfg p section k 0 c0 t st0) as [[exc fr] st1] end.
  cbn [fst snd] in *. injection Hrun as <- <-.
  split; [lia|].
  destruct Hcases as [(-> & Hl & rec & Hrec & Hc) | (e & j & rec & -> & Hj & Hl & Hlk & Hrc)].
  - left. cbn. split_and!; try done; [lia|]. exists rec. by rewrite Hcur.
  - right. cbn. split_and!; try done. exists (S j), rec.
    split_and!; [lia | lia | rewrite Hl; lia | | by rewrite Hcur].
    rewrite <- Hlk. f_equal. lia.
Qed.


(** X10.  [collaborative_generation] with [k] iterations never raises,
    leaves the sessions alone and issues at most [1 + 3 * k] backend
    requests, whatever the backends answer. *)
Theorem collaborative_generation_budget (section : string)
    (collected_info : gmap string value) (k : nat) (st : State) :
  ∃ r st',
    collaborative_generation w cfg p section collected_info k st = (Val r, st')
    ∧ same_store st st'
    ∧ requests st ≤ requests st' ≤ requests st + 1 + 3 * k.
Proof.
  destruct (collaborative_generation_full section collected_info k st)
    as (r & st' & H1 & H2 & H3 & _). by exists r, st'.
Qed.

(** X11.  The trace of [collaborative_generation].  A run with the status
    ["success"] has no error and [1 + 3 * k] records, the last of which holds
    the content returned.  A run with the status ["error"] stopped in some
    iteration [i] between 1 and [k]: it has [3 * i] records, ending with the
    review and the optimization of that iteration, and the content returned
    is the one of the record before them. *)
Theorem collaborative_generation_trace (section : string)
    (collected_info : gmap string value) (k : nat) (st : State) :
  ∃ r,
    fst (collaborative_generation w cfg p section collected_info k st) = Val r
    ∧ ((status r = "success" ∧ error r = None
        ∧ length (iterations r) = 1 + 3 * k
        ∧ ∃ rec, last (iterations r) = Some rec ∧ iter_content rec = final_content r)
       ∨ (status r = "error" ∧ is_Some (error r)
          ∧ ∃ i rec, 1 ≤ i ≤ k
                     ∧ length (iterations r) = 3 * i
                     ∧ iterations r !! (3 * (i - 1)) = Some rec
                     ∧ iter_content rec = final_content r)).
Proof.
  destruct (collaborative_generation_full section collected_info k st)
    as (r & st' & H1 & _ & _ & H4). exists r. by rewrite H1.
Qed.
End EngineExtras.

Section PaperExtras.
Import ConversationManager PaperGenerator.
Context (w : World) (cfg : Config) (p : PromptTemplates).

(** The loop over the sections still to do: it fills [paper] and the traces
    for these sections and leaves the other entries of both alone. *)
Lemma generate_sections_full sid info todo : ∀ paper st s,
  in_memory st sid s →
  NoDup todo →
  ∃ paper' st' s',
    generate_sections w cfg p sid info todo paper st = (Val paper', st')
    ∧ in_memory st' sid s'
    ∧ only_traces_differ s s'
    ∧ requests st ≤ requests st' ≤ requests st + 4 * length todo
    ∧ (∀ section, section ∉ todo →
         paper' !! section = paper !! section
         ∧ generation_process (context s') !! section
           = generation_process (context s) !! section)
    ∧ (∀ section, section ∈ todo →
         ∃ text trace rec,
           paper' !! section = Some text
           ∧ generation_process (context s') !! section = Some trace
           ∧ 3 ≤ length trace ≤ 4
           ∧ rec ∈ trace ∧ iter_content rec = text).
Proof.
  induction todo as [|section todo IH]; intros paper st s Hs Hnd; cbn [generate_sections].
  - exists paper, st, s. unfold ret. split_and!; try done; try (cbn; lia).
    by intros section ?%elem_of_nil.
  - apply NoDup_cons in Hnd as [Hnotin Hnd]. unfold bind.
    destruct (collaborative_generation_full w cfg p section info 1 st)
      as (r & st1 & -> & Hst1 & Hreq1 & Hshape).
    destruct (update_context_in_memory w st1 sid s
                (only_generation_process section (CollaborationEngine.iterations r))
                (in_memory_same_store _ _ _ _ Hs Hst1)) as (st2 & t & -> & Hs2 & Hreq2).
    destruct (IH (<[section := CollaborationEngine.final_content r]> paper) st2 _ Hs2 Hnd)
      as (paper' & st' & s' & -> & Hs' & Hd & Hreq & Hout & Hin).
    exists paper', st', s'. split; [done|]. split; [done|]. split.
    { destruct Hd as (? & ? & ? & ? & ? & ? & ? & ? & ?). repeat split; done. }
    split; [cbn [length]; lia|]. split.
    + intros other [Hne Hnot]%not_elem_of_cons.
      destruct (Hout other Hnot) as [H1 H2]. rewrite H1, H2.
      rewrite lookup_insert_ne by done. split; [done|]. cbn.
      rewrite lookup_union_r; [done|]. by apply lookup_singleton_ne.
    + intros other [->|Hother]%elem_of_cons; [|by apply Hin].
      destruct (Hout section Hnotin) as [H1 H2]. rewrite H1, H2.
      rewrite lookup_insert_eq. cbn.
      rewrite (lookup_union_Some_l _ _ _ (CollaborationEngine.iterations r))
        by apply lookup_singleton_eq.
      destruct Hshape as [(_ & _ & Hl & rec & Hrec & Hc) | (_ & _ & i & rec & Hi & Hl & Hlk & Hc)].
      * exists (CollaborationEngine.final_content r), (CollaborationEngine.iterations r), rec.
        split_and!; try done; [lia | lia |].
        rewrite last_lookup in Hrec. by eapply list_elem_of_lookup_2.
      * exists (CollaborationEngine.final_content r), (CollaborationEngine.iterations r), rec.
        split_and!; try done; [lia | lia |]. by eapply list_elem_of_lookup_2.
Qed.

Lemma sections_NoDup : NoDup sections.
Proof. compute_done. Qed.

Lemma _generate_full_paper_run (sid : string) (info : gmap string value)
    (st : State) (s : ConversationSession) :
  in_memory st sid s →
  ∃ paper st' s',
    _generate_full_paper w cfg p sid info st = (Val paper, st')
    ∧ in_memory st' sid s'
    ∧ only_traces_differ s s'
    ∧ requests st ≤ requests st' ≤ requests st + 28
    ∧ dom paper = list_to_set sections
    ∧ (∀ section, section ∈ sections →
         ∃ text trace rec,
           paper !! section = Some text
           ∧ generation_process (context s') !! section = Some trace
           ∧ 3 ≤ length trace ≤ 4
           ∧ rec ∈ trace ∧ iter_content rec = text).
Proof.
  intros Hs. unfold _generate_full_paper.
  destruct (generate_sections_full sid info sections ∅ st s Hs sections_NoDup)
    as (paper & st' & s' & Hrun & Hs' & Hd & Hreq & Hout & Hin).
  exists paper, st', s'. split_and!; try done; [cbn in Hreq; lia | cbn in Hreq; lia |].
  apply set_eq. intros k. rewrite elem_of_dom, elem_of_list_to_set. split.
  - intros Hk. destruct (decide (k ∈ sections)) as [|Hno]; [done|].
    destruct (Hout k Hno) as [H1 _]. rewrite H1, lookup_empty in Hk. by destruct Hk.
  - intros Hk. destruct (Hin k Hk) as (text & _ & _ & -> & _). by eexists.
Qed.

Lemma _generate_full_paper_unknown (sid : string) (info : gmap string value) (st : State) :
  find_session st sid = None →
  ∃ st',
    _generate_full_paper w cfg p sid info st
    = (Raise (ValueError ("会话不存在: " +:+ sid)), st')
    ∧ same_store st st'
    ∧ requests st ≤ requests st' ≤ requests st + 4.
Proof.
  intros Hfind. unfold _generate_full_paper, sections. cbn [generate_sections]. unfold bind.
  destruct (collaborative_generation_full w cfg p ABSTRACT info 1 st)
    as (r & st1 & -> & Hst1 & Hreq1 & _).
  assert (Hfind1 : find_session st1 sid = None).
  { destruct Hst1 as (Ha & Hd & _). unfold find_session in *. by rewrite Ha, Hd. }
  unfold update_context, bind. rewrite (get_session_not_found _ _ Hfind1).
  exists st1. split_and!; try done; lia.
Qed.

(** X12.  [_generate_full_paper] for a session in memory never raises and
    issues at most 28 backend requests.  The paper has exactly the seven
    sections.  The session keeps its transcript, status, collected
    information, stage and stored paper; for every section its context gets
    a trace of three or four records, one of which holds the text of that
    section. *)
Theorem full_paper_has_seven_sections (sid : string) (info : gmap string value)
    (st : State) (s : ConversationSession) :
  in_memory st sid s →
  ∃ paper st' s',
    _generate_full_paper w cfg p sid info st = (Val paper, st')
    ∧ in_memory st' sid s'
    ∧ only_traces_differ s s'
    ∧ requests st ≤ requests st' ≤ requests st + 28
    ∧ dom paper = list_to_set sections
    ∧ (∀ section, section ∈ sections →
         ∃ text trace rec,
           paper !! section = Some text
           ∧ generation_process (context s') !! section = Some trace
           ∧ 3 ≤ length trace ≤ 4
           ∧ rec ∈ trace ∧ iter_content rec = text).
Proof. apply _generate_full_paper_run. Qed.

(** X13.  [_generate_full_paper] for a session that does not exist raises
    the session-not-found [ValueError], but only after the abstract was
    generated: up to four backend requests are spent first. *)
Theorem full_paper_unknown_session (sid : string) (info : gmap string value) (st : State) :
  find_session st sid = None →
  ∃ st',
    _generate_full_paper w cfg p sid info st
    = (Raise (ValueError ("会话不存在: " +:+ sid)), st')
    ∧ same_store st st'
    ∧ requests st ≤ requests st' ≤ requests st + 4.
Proof. apply _generate_full_paper_unknown. Qed.

(** X14.  [regenerate_section] for a session that does not exist raises the
    session-not-found [ValueError] after the section was generated from an
    empty [collected_info], at the cost of up to four backend requests. *)
Theorem regenerate_unknown_session (sid section requirements : string) (st : State) :
  find_session st sid = None →
  ∃ st',
    regenerate_section w cfg p sid section requirements st
    = (Raise (ValueError ("会话不存在: " +:+ sid)), st')
    ∧ same_store st st'
    ∧ requests st ≤ requests st' ≤ requests st + 4.
Proof.
  intros Hfind. unfold regenerate_section, bind, get_context, bind.
  rewrite (get_session_not_found _ _ Hfind). unfold ret at 1.
  destruct (collaborative_generation_full w cfg p section
              (default ∅ (collected_info empty_context)) 1 st)
    as (r & st1 & -> & Hst1 & Hreq1 & _).
  assert (Hfind1 : find_session st1 sid = None).
  { destruct Hst1 as (Ha & Hd & _). unfold find_session in *. by rewrite Ha, Hd. }
  unfold update_context, bind. rewrite (get_session_not_found _ _ Hfind1).
  exists st1. split_and!; try done; lia.
Qed.

(** X15.  [regenerate_section] on an existing session that has no paper
    yet succeeds for any section name, and leaves a paper that consists of
    that one section. *)
Theorem regenerate_without_paper (sid section requirements : string) (st : State)
    (s : ConversationSession) :
  find_session st sid = Some s →
  paper_content (context s) = None →
  ∃ content st',
    regenerate_section w cfg p sid section requirements st
    = (Val (RespRegenerated sid section content "success"), st')
    ∧ get_paper_content sid st' = (Val (Some {[ section := content ]}), st').
Proof.
  intros Hfind Hpaper. unfold regenerate_section, bind.
  destruct (get_context_find st sid s Hfind) as (st0 & -> & Hs0 & _).
  destruct (collaborative_generation_total w cfg p section
              (default ∅ (collected_info (context s))) 1 st0) as (result & st1 & Hgen & Hst1).
  rewrite Hgen, Hpaper. change (default ∅ None) with (∅ : gmap string string).
  destruct (update_context_in_memory w st1 sid s
              (only_paper_content (<[section := CollaborationEngine.final_content result]> ∅))
              (in_memory_same_store _ _ _ _ Hs0 Hst1)) as (st2 & t & -> & Hs2 & _).
  eexists _, st2. split; [reflexivity|].
  unfold get_paper_content, bind. rewrite (get_context_in_memory _ _ _ Hs2). reflexivity.
Qed.
End PaperExtras.

Lemma keeps_ret {A} I (a : A) : keeps I (ret a).
Proof. by intros st H. Qed.

Lemma keeps_raise {A} I e : keeps I (@raise A e).
Proof. by intros st H. Qed.

Lemma keeps_bind {A B} I (m : M A) (k : A → M B) :
  keeps I m → (∀ a, keeps I (k a)) → keeps I (bind m k).
Proof.
  intros Hm Hk st H. unfold bind. specialize (Hm st H).
  destruct (m st) as [[a|e] st']; [by apply Hk | done].
Qed.

Lemma keeps_try_except {A} I (m : M A) (h : exn → M A) :
  keeps I m → (∀ e, keeps I (h e)) → keeps I (try_except m h).
Proof.
  intros Hm Hh st H. unfold try_except. specialize (Hm st H).
  destruct (m st) as [[a|e] st']; [done | by apply Hh].
Qed.

Lemma keeps_same_store {A} I (m : M A) :
  (∀ st st', same_store st st' → I st → I st') →
  (∀ st, same_store st (snd (m st))) → keeps I m.
Proof. intros HI Hm st H. eapply HI; [apply Hm | done]. Qed.

Lemma persisted_same_store sid st st' : same_store st st' → persisted st sid → persisted st' sid.
Proof. intros (Ha & Hs & _) (s & ? & ? & ?). exists s. by rewrite Ha, Hs. Qed.

Section StoreInvariant.
Import ConversationManager.
Context (w : World).

Lemma add_message_persisted sid st s role content md :
  active_sessions st !! sid = Some s → session_id s = sid →
  persisted (snd (add_message w sid role content md st)) sid.
Proof.
  intros Hs Hid. unfold add_message, bind. rewrite (get_session_in_memory _ _ _ Hs).
  unfold now, mutate, _save_session, ret. cbn.
  eexists. split; [cbn; apply lookup_insert_eq|]. cbn.
  split; [exact Hid|]. rewrite Hid. apply lookup_insert_eq.
Qed.

Lemma update_context_persisted sid st s u :
  active_sessions st !! sid = Some s → session_id s = sid →
  persisted (snd (update_context w sid u st)) sid.
Proof.
  intros Hs Hid. unfold update_context, bind. rewrite (get_session_in_memory _ _ _ Hs).
  unfold now, mutate, _save_session, ret. cbn.
  eexists. split; [cbn; apply lookup_insert_eq|]. cbn.
  split; [exact Hid|]. rewrite Hid. apply lookup_insert_eq.
Qed.

Lemma update_session_status_persisted sid st s new_status :
  active_sessions st !! sid = Some s → session_id s = sid →
  persisted (snd (update_session_status w sid new_status st)) sid.
Proof.
  intros Hs Hid. unfold update_session_status, bind.
  rewrite (get_session_in_memory _ _ _ Hs).
  unfold now, mutate, _save_session, ret. cbn.
  eexists. split; [cbn; apply lookup_insert_eq|]. cbn.
  split; [exact Hid|]. rewrite Hid. apply lookup_insert_eq.
Qed.

(** X16.  For a session held in memory under its own identifier, whenever
    [add_message], [update_context] or [update_session_status] returns, the
    file of the session holds the very value that is in memory. *)
Theorem mutators_write_through (sid : string) (st : State) (s : ConversationSession) :
  active_sessions st !! sid = Some s →
  session_id s = sid →
  (∀ role content metadata message st',
     add_message w sid role content metadata st = (Val message, st') → persisted st' sid)
  ∧ (∀ updates st',
       update_context w sid updates st = (Val (), st') → persisted st' sid)
  ∧ (∀ new_status st',
       update_session_status w sid new_status st = (Val (), st') → persisted st' sid).
Proof.
  intros Hs Hid. split_and!.
  - intros role content metadata message st' Hrun.
    pose proof (add_message_persisted sid st s role content metadata Hs Hid) as H.
    by rewrite Hrun in H.
  - intros updates st' Hrun.
    pose proof (update_context_persisted sid st s updates Hs Hid) as H.
    by rewrite Hrun in H.
  - intros new_status st' Hrun.
    pose proof (update_session_status_persisted sid st s new_status Hs Hid) as H.
    by rewrite Hrun in H.
Qed.

Lemma keeps_get_session sid sid' : keeps (λ st, persisted st sid) (get_session sid').
Proof.
  intros st (s & Hs & Hid & Hd). unfold get_session.
  destruct (active_sessions st !! sid') as [s'|] eqn:E; [by exists s|].
  unfold bind, _load_session, mutate, ret. cbn.
  destruct (storage st !! sid') as [[s'|]|] eqn:E'; cbn; try by exists s.
  assert (sid ≠ sid') by congruence.
  exists s. cbn. by rewrite lookup_insert_ne.
Qed.

Lemma keeps_add_message sid role content md :
  keeps (λ st, persisted st sid) (add_message w sid role content md).
Proof. intros st (s & Hs & Hid & Hd). by apply (add_message_persisted sid st s). Qed.

Lemma keeps_update_context sid u :
  keeps (λ st, persisted st sid) (update_context w sid u).
Proof. intros st (s & Hs & Hid & Hd). by apply (update_context_persisted sid st s). Qed.

Lemma keeps_update_session_status sid new_status :
  keeps (λ st, persisted st sid) (update_session_status w sid new_status).
Proof.
  intros st (s & Hs & Hid & Hd). by apply (update_session_status_persisted sid st s).
Qed.
End StoreInvariant.


Section ControllerExtras.
Import ConversationManager PaperGenerator.
Context (w : World) (cfg : Config) (p : PromptTemplates).

Lemma unknown_session_turn_run sid user_input st :
  find_session st sid = None →
  process_user_input w cfg p sid user_input st = (Val (RespError "会话不存在"), st).
Proof.
  intros Hfind. unfold process_user_input, bind.
  by rewrite (get_session_not_found _ _ Hfind).
Qed.

(** What a turn on an existing session does, by the branch it takes. *)
Lemma turn_outcome sid user_input st s :
  find_session st sid = Some s →
  ∃ extracted st_x user_msg r st' s' replies,
    let info := extracted ∪ default ∅ (collected_info (context s)) in
    let current_round := (length (messages s) + 1) / 2 in
    fst (_extract_information w user_input
           (default INITIAL (current_stage (context s))) st_x) = Val extracted
    ∧ process_user_input w cfg p sid user_input st = (Val r, st')
    ∧ in_memory st' sid s'
    ∧ messages s' = messages s ++ user_msg :: replies
    ∧ (role user_msg = "user" ∧ content user_msg = user_input)
    ∧ Forall (λ m, role m = "assistant") replies
    ∧ collected_info (context s') = Some info
    ∧ ((current_round < min_rounds cfg
        ∧ length replies = 1
        ∧ (∃ stage reply,
             stage_flow !! (current_round `min` (length stage_flow - 1)) = Some stage
             ∧ r = RespCollecting sid stage reply (current_round + 1) "collecting"
             ∧ current_stage (context s') = Some stage)
        ∧ paper_content (context s') = paper_content (context s)
        ∧ status s' = status s)
       ∨ (min_rounds cfg ≤ current_round
          ∧ (is_complete (_check_information_completeness info) = true
             ∨ max_rounds cfg ≤ current_round)
          ∧ length replies = 2
          ∧ (∃ paper,
               r = RespCompleted sid COMPLETED completion_message paper "completed"
               ∧ paper_content (context s') = Some paper
               ∧ dom paper = list_to_set sections)
          ∧ current_stage (context s') = Some COMPLETED
          ∧ status s' = "completed")
       ∨ (min_rounds cfg ≤ current_round < max_rounds cfg
          ∧ is_complete (_check_information_completeness info) = false
          ∧ length replies = 1
          ∧ r = RespMissing sid "collecting_missing"
                  (missing_prompt (missing_info (_check_information_completeness info)))
                  (missing_info (_check_information_completeness info)) "collecting"
          ∧ Forall (λ m, content m
                         = missing_prompt
                             (missing_info (_check_information_completeness info))) replies
          ∧ current_stage (context s') = current_stage (context s)
          ∧ paper_content (context s') = paper_content (context s)
          ∧ status s' = status s)).
Proof.
  intros Hfind.
  destruct (process_user_input_intake w cfg p sid user_input st s Hfind)
    as (extracted & st_x & st1 & s1 & user_msg & Hex & Hs1 & Hms & Huser & Hctx & Hst & Heq).
  cbn zeta in Heq. rewrite Hms, length_app in Heq. cbn [length] in Heq.
  set (info := extracted ∪ default ∅ (collected_info (context s))) in *.
  set (current_round := (length (messages s) + 1) / 2) in *.
  assert (Hc1 : collected_info (context s1) = Some info) by (by rewrite Hctx).
  assert (Hc2 : current_stage (context s1) = current_stage (context s)) by (by rewrite Hctx).
  assert (Hc3 : paper_content (context s1) = paper_content (context s)) by (by rewrite Hctx).
  exists extracted, st_x, user_msg.
  destruct (Nat.ltb_spec current_round (min_rounds cfg)) as [Hlt|Hge].
  - destruct (_continue_information_collection_spec w cfg p sid
                (default INITIAL (current_stage (context s))) info current_round st1 s1 Hs1)
      as (stage & reply & st' & s' & msg & st_c & Hstage & Hrun & Hs' & Hms' & Hmsg & Hcur
          & Hci & Hpc & Hstat & _).
    exists (RespCollecting sid stage reply (current_round + 1) "collecting"), st', s', [msg].
    cbn zeta. split_and!; try done.
    + by rewrite Heq.
    + by rewrite Hms', Hms, <- app_assoc.
    + by destruct Huser.
    + by destruct Huser.
    + constructor; [by destruct Hmsg | constructor].
    + by rewrite Hci.
    + left. split_and!; try done; [by exists stage, reply | congruence | congruence].
  - destruct (is_complete (_check_information_completeness info)
              || (max_rounds cfg <=? current_round)) eqn:Hgo.
    + destruct (_start_paper_generation_spec w cfg p sid info st1 s1 Hs1)
        as (paper & st' & s' & st_g & s_g & st_p & note & done_msg & Hrun & Hs' & Hstage
            & Hpaper & Hstatus & Hci & Hms' & Hnote & Hdone & Hdom & _).
      exists (RespCompleted sid COMPLETED completion_message paper "completed"), st', s',
        [note; done_msg].
      cbn zeta. split_and!; try done.
      * by rewrite Heq.
      * by rewrite Hms', Hms, <- app_assoc.
      * by destruct Huser.
      * by destruct Huser.
      * repeat constructor; [by destruct Hnote | by destruct Hdone].
      * by rewrite Hci.
      * right. left. split_and!; try done; [|by exists paper].
        apply orb_true_iff in Hgo as [?|?%Nat.leb_le]; [by left | by right].
    + apply orb_false_iff in Hgo as [Hinc Hmax%Nat.leb_gt].
      destruct (_collect_missing_information_spec w sid info
                  (missing_info (_check_information_completeness info)) st1 s1 Hs1)
        as (st' & s' & msg & Hrun & Hs' & Hms' & Hc & Hstat).
      pose proof Hrun as Hrun'.
      unfold _collect_missing_information, bind in Hrun'.
      destruct (add_message_in_memory w st1 sid s1 "assistant"
                  (missing_prompt (missing_info (_check_information_completeness info)))
                  None Hs1) as (st2 & t2 & t2' & Hadd & Hs2 & _).
      rewrite Hadd in Hrun'. unfold ret in Hrun'. injection Hrun' as <-.
      unfold in_memory in Hs2, Hs'. rewrite Hs2 in Hs'. injection Hs' as <-.
      eexists _, st2, _, [_].
      cbn zeta. split_and!; try done.
      * by rewrite Heq, Hrun.
      * cbn [messages with_messages]. by rewrite Hms, <- app_assoc.
      * by destruct Huser.
      * by destruct Huser.
      * by repeat constructor.
      * right. right. split_and!; try done. by repeat constructor.
Qed.

Lemma process_user_input_unfold sid user_input st :
  process_user_input w cfg p sid user_input st
  = match get_session sid st with
    | (Val (Some session), st0) =>
        match add_message w sid "user" user_input None st0 with
        | (Val _, sta) => turn_tail w cfg p sid user_input session sta
        | (Raise e, sta) => (Raise e, sta)
        end
    | (Val None, st0) => (Val (RespError "会话不存在"), st0)
    | (Raise e, st0) => (Raise e, st0)
    end.
Proof.
  unfold process_user_input, bind.
  destruct (get_session sid st) as [[[session|]|e] st0]; try reflexivity.
Qed.

(** An invariant of the state that the operations on the session [sid] and
    the calls that leave the store alone keep is kept by a whole turn. *)
Section KeptByTurn.
Context (I : State → Prop) (sid : string).
Hypothesis I_same_store : ∀ st st', same_store st st' → I st → I st'.
Hypothesis I_get_session : keeps I (get_session sid).
Hypothesis I_add_message : ∀ role content md, keeps I (add_message w sid role content md).
Hypothesis I_update_context : ∀ u, keeps I (update_context w sid u).
Hypothesis I_update_status : ∀ x, keeps I (update_session_status w sid x).

Lemma keeps_untouched {A} (m : M A) : (∀ st, same_store st (snd (m st))) → keeps I m.
Proof. intros Hm. by apply keeps_same_store. Qed.

Lemma keeps_get_context : keeps I (get_context sid).
Proof.
  unfold get_context. apply keeps_bind; [apply I_get_session|].
  intros [x|]; apply keeps_ret.
Qed.

Lemma keeps_get_messages_for_api limit : keeps I (get_messages_for_api sid limit).
Proof.
  unfold get_messages_for_api, get_messages.
  apply keeps_bind; [|intros; apply keeps_ret].
  apply keeps_bind; [apply I_get_session|].
  intros [s|]; apply keeps_ret.
Qed.

Lemma keeps_collaborative_generation section info k :
  keeps I (CollaborationEngine.collaborative_generation w cfg p section info k).
Proof.
  apply keeps_untouched. intros st.
  destruct (collaborative_generation_total w cfg p section info k st)
    as (c & st' & -> & H). done.
Qed.

Lemma keeps_continue stage info current_round :
  keeps I (_continue_information_collection w cfg p sid stage info current_round).
Proof.
  unfold _continue_information_collection.
  destruct (stage_flow !! _); [|apply keeps_raise].
  apply keeps_bind; [apply I_update_context|]. intros _.
  apply keeps_bind; [apply keeps_get_messages_for_api|]. intros history.
  apply keeps_bind.
  { apply keeps_untouched. intros st.
    destruct (collect_information_total w cfg p s info (Some history) st)
      as (c & st' & -> & H). done. }
  intros reply. apply keeps_bind; [apply I_add_message|]. intros; apply keeps_ret.
Qed.

Lemma keeps_generate_sections info todo : ∀ paper,
  keeps I (generate_sections w cfg p sid info todo paper).
Proof.
  induction todo as [|section todo IH]; intros paper; cbn [generate_sections].
  - apply keeps_ret.
  - apply keeps_bind; [apply keeps_collaborative_generation|].
    intros result. apply keeps_bind; [apply I_update_context|]. intros _. apply IH.
Qed.

Lemma keeps_start info : keeps I (_start_paper_generation w cfg p sid info).
Proof.
  unfold _start_paper_generation.
  apply keeps_bind; [apply I_update_context|]. intros _.
  apply keeps_bind; [apply I_add_message|]. intros _.
  apply keeps_bind; [apply keeps_generate_sections|]. intros paper.
  apply keeps_bind; [apply I_update_context|]. intros _.
  apply keeps_bind; [apply I_update_status|]. intros _.
  apply keeps_bind; [apply I_add_message|]. intros; apply keeps_ret.
Qed.

Lemma keeps_missing info missing :
  keeps I (_collect_missing_information w sid info missing).
Proof.
  unfold _collect_missing_information.
  apply keeps_bind; [apply I_add_message|]. intros; apply keeps_ret.
Qed.

Lemma keeps_turn_tail user_input session : keeps I (turn_tail w cfg p sid user_input session).
Proof.
  unfold turn_tail.
  apply keeps_bind; [apply keeps_get_context|].
  intros context. apply keeps_bind.
  { apply keeps_untouched. intros st'.
    destruct (_extract_information_total w user_input
                (default INITIAL (current_stage context)) st') as (c & st'' & -> & H). done. }
  intros extracted. apply keeps_bind; [apply I_update_context|]. intros _.
  apply keeps_bind; [by intros st' H|]. intros session'.
  destruct (_ <? _); [apply keeps_continue|].
  destruct (_ || _); [apply keeps_start | apply keeps_missing].
Qed.

Lemma keeps_turn user_input : keeps I (process_user_input w cfg p sid user_input).
Proof.
  intros st H. rewrite process_user_input_unfold.
  pose proof (I_get_session st H) as H0.
  destruct (get_session sid st) as [[[session|]|e] st0]; cbn [snd] in *; try done.
  pose proof (I_add_message "user" user_input None st0 H0) as Ha.
  destruct (add_message w sid "user" user_input None st0) as [[m|e] sta]; cbn [snd] in *;
    [|done].
  by apply keeps_turn_tail.
Qed.

Lemma keeps_regenerate section requirements :
  keeps I (regenerate_section w cfg p sid section requirements).
Proof.
  unfold regenerate_section.
  apply keeps_bind; [apply keeps_get_context|]. intros context.
  apply keeps_bind; [apply keeps_collaborative_generation|]. intros result.
  apply keeps_bind; [apply I_update_context|]. intros; apply keeps_ret.
Qed.
End KeptByTurn.

(** X17.  Whenever a user turn of an existing session, stored under its own
    identifier, returns a response, whichever branch the controller took,
    the session is in memory and its file holds the same value. *)
Theorem turn_is_persisted (sid user_input : string) (st : State) (s : ConversationSession)
    (response : Response) (st' : State) :
  find_session st sid = Some s →
  session_id s = sid →
  process_user_input w cfg p sid user_input st = (Val response, st') →
  persisted st' sid.
Proof.
  intros Hfind Hid Hrun.
  change st' with (snd (Val response, st')). rewrite <- Hrun. clear Hrun.
  rewrite process_user_input_unfold.
  destruct (get_session_find st sid) as (Hg1 & _ & Hg3 & _).
  specialize (Hg3 s Hfind). rewrite Hfind in Hg1.
  destruct (get_session sid st) as [r0 st0]. cbn [fst snd] in Hg1, Hg3. subst r0.
  pose proof (add_message_persisted w sid st0 s "user" user_input None Hg3 Hid) as Hp.
  destruct (add_message w sid "user" user_input None st0) as [[m|e] sta]; [|exact Hp].
  cbn [snd] in Hp. revert sta Hp.
  apply (keeps_turn_tail (λ st, persisted st sid) sid).
  - intros st1 st2. apply persisted_same_store.
  - apply keeps_get_session.
  - apply keeps_add_message.
  - apply keeps_update_context.
  - apply keeps_update_session_status.
Qed.

Lemma beside_write sid other x st s' n :
  other ≠ sid → session_id s' = sid → beside sid other x st →
  beside sid other x
    {| active_sessions := <[sid := s']> (active_sessions st);
       storage := <[sid := Stored s']> (storage st);
       requests := requests st; clock_reads := n |}.
Proof.
  intros Hne Hid [_ Hx]. split.
  - exists s'. cbn. by rewrite lookup_insert_eq.
  - unfold find_session in *. cbn. by rewrite !lookup_insert_ne.
Qed.

Lemma beside_kept sid other x :
  other ≠ sid →
  (∀ st st', same_store st st' → beside sid other x st → beside sid other x st')
  ∧ keeps (beside sid other x) (get_session sid)
  ∧ (∀ role content md, keeps (beside sid other x) (add_message w sid role content md))
  ∧ (∀ u, keeps (beside sid other x) (update_context w sid u))
  ∧ (∀ y, keeps (beside sid other x) (update_session_status w sid y)).
Proof.
  intros Hne. split_and!.
  - intros st st' (Ha & Hd & _) [(s & Hs & Hid) Hx]. split.
    + exists s. by rewrite Ha.
    + unfold find_session in *. by rewrite Ha, Hd.
  - intros st H. pose proof H as [(s & Hs & Hid) Hx].
    by rewrite (get_session_in_memory _ _ _ Hs).
  - intros role content md st H. pose proof H as [(s & Hs & Hid) Hx].
    unfold add_message, bind. rewrite (get_session_in_memory _ _ _ Hs).
    unfold now, mutate, _save_session, ret. cbn. rewrite Hid. by apply beside_write.
  - intros u st H. pose proof H as [(s & Hs & Hid) Hx].
    unfold update_context, bind. rewrite (get_session_in_memory _ _ _ Hs).
    unfold now, mutate, _save_session, ret. cbn. rewrite Hid. by apply beside_write.
  - intros y st H. pose proof H as [(s & Hs & Hid) Hx].
    unfold update_session_status, bind. rewrite (get_session_in_memory _ _ _ Hs).
    unfold now, mutate, _save_session, ret. cbn. rewrite Hid. by apply beside_write.
Qed.

(** X18.  A user turn of an existing session that is stored under its own
    identifier leaves every other identifier resolving to what it resolved
    to before.  (The file a turn writes is named after the identifier the
    session holds, so a session stored under another identifier than its own
    is excluded.) *)
Theorem turn_leaves_other_sessions (sid other user_input : string) (st : State)
    (s : ConversationSession) :
  find_session st sid = Some s →
  session_id s = sid →
  other ≠ sid →
  find_session (snd (process_user_input w cfg p sid user_input st)) other
  = find_session st other.
Proof.
  intros Hfind Hid Hne.
  destruct (beside_kept sid other (find_session st other) Hne) as (K1 & K2 & K3 & K4 & K5).
  rewrite process_user_input_unfold.
  destruct (get_session_find st sid) as (Hg1 & _ & Hg3 & _).
  specialize (Hg3 s Hfind). rewrite Hfind in Hg1.
  assert (H0 : beside sid other (find_session st other) (snd (get_session sid st))).
  { split; [by exists s|].
    unfold get_session, bind, _load_session, mutate, ret, find_session.
    destruct (active_sessions st !! sid) eqn:Ea; [done|].
    destruct (storage st !! sid) as [[s0|]|] eqn:Es; cbn; try done.
    by rewrite lookup_insert_ne. }
  destruct (get_session sid st) as [r0 st0]. cbn [fst snd] in Hg1, Hg3, H0. subst r0.
  pose proof (K3 "user" user_input None st0 H0) as Ha.
  destruct (add_message w sid "user" user_input None st0) as [[m|e] sta]; cbn [snd] in *;
    [|by destruct Ha].
  by destruct (keeps_turn_tail (beside sid other (find_session st other)) sid
                 K1 K2 K3 K4 K5 user_input s sta Ha).
Qed.

Lemma process_user_input_total sid user_input st :
  ∃ r st', process_user_input w cfg p sid user_input st = (Val r, st').
Proof.
  destruct (find_session st sid) as [s|] eqn:Hfind.
  - destruct (turn_outcome sid user_input st s Hfind)
      as (? & ? & ? & r & st' & ? & ? & _ & Hrun & _). by exists r, st'.
  - eexists _, _. by apply unknown_session_turn_run.
Qed.
End ControllerExtras.

Section TurnTheorems.
Import ConversationManager PaperGenerator.
Context (w : World) (cfg : Config) (p : PromptTemplates).

(** X19.  For a session that does not exist [process_user_input] answers
    with the error response and changes nothing: the user's message is not
    stored, nothing is extracted and no backend is asked. *)
Theorem unknown_session_turn (sid user_input : string) (st : State) :
  find_session st sid = None →
  process_user_input w cfg p sid user_input st = (Val (RespError "会话不存在"), st)
  ∧ find_session (snd (process_user_input w cfg p sid user_input st)) sid = None
  ∧ requests (snd (process_user_input w cfg p sid user_input st)) = requests st.
Proof.
  intros Hnone. rewrite (unknown_session_turn_run w cfg p sid user_input st Hnone).
  by split_and!.
Qed.

(** X20.  A user turn only appends to the transcript: the messages of
    before, then the user's message with the text of the turn, then one or
    two messages of the assistant. *)
Theorem transcript_is_append_only (sid user_input : string) (st : State)
    (s : ConversationSession) :
  find_session st sid = Some s →
  ∃ s' user_msg replies,
    in_memory (snd (process_user_input w cfg p sid user_input st)) sid s'
    ∧ messages s' = messages s ++ user_msg :: replies
    ∧ (role user_msg = "user" ∧ content user_msg = user_input)
    ∧ Forall (λ m, role m = "assistant") replies
    ∧ 1 ≤ length replies ≤ 2.
Proof.
  intros Hfind.
  destruct (turn_outcome w cfg p sid user_input st s Hfind)
    as (extracted & st_x & user_msg & r & st' & s' & replies & _ & Hrun & Hs' & Hms & Huser
        & Hroles & _ & Hcases).
  exists s', user_msg, replies. rewrite Hrun.
  assert (1 ≤ length replies ≤ 2)
    by (destruct Hcases as [(_ & Hl & _) | [(_ & _ & Hl & _) | (_ & _ & Hl & _)]]; lia).
  destruct Huser. cbn [snd]. split_and!; try done; lia.
Qed.

Lemma info_of_in_memory st sid s info :
  in_memory st sid s → collected_info (context s) = Some info → info_of st sid = info.
Proof.
  intros Hs Hc. unfold info_of. by rewrite (find_session_in_memory _ _ _ Hs), Hc.
Qed.

(** X21.  Once the floor of rounds is reached, a turn after which every
    required field is filled generates the paper: the response is the
    completion with the seven sections, which are stored, and the session
    ends in the stage [completed] with the status ["completed"]. *)
Theorem complete_info_starts_generation (sid user_input : string) (st : State)
    (s : ConversationSession) :
  find_session st sid = Some s →
  min_rounds cfg ≤ (length (messages s) + 1) / 2 →
  let run := process_user_input w cfg p sid user_input st in
  is_complete (_check_information_completeness (info_of (snd run) sid)) = true →
  ∃ paper s',
    fst run = Val (RespCompleted sid COMPLETED completion_message paper "completed")
    ∧ in_memory (snd run) sid s'
    ∧ paper_content (context s') = Some paper
    ∧ dom paper = list_to_set sections
    ∧ current_stage (context s') = Some COMPLETED
    ∧ status s' = "completed".
Proof.
  intros Hfind Hmin run. subst run.
  destruct (turn_outcome w cfg p sid user_input st s Hfind)
    as (extracted & st_x & user_msg & r & st' & s' & replies & _ & Hrun & Hs' & _ & _
        & _ & Hinfo & Hcases).
  rewrite Hrun. cbn [fst snd]. rewrite (info_of_in_memory _ _ _ _ Hs' Hinfo). intros Hc.
  destruct Hcases as [(Hlt & _) | [(_ & _ & _ & (paper & -> & Hp & Hd) & Hstage & Hstat)
                                   | (_ & Hinc & _)]].
  - lia.
  - by exists paper, s'.
  - congruence.
Qed.

(** X22.  Between the floor and the ceiling of rounds, a turn after which
    some required field is still missing does not generate: the response
    lists the missing fields, which are not empty, the one reply appended is
    the request for them, and the stage, the paper and the status of the
    session stay as they were. *)
Theorem incomplete_info_asks_for_missing (sid user_input : string) (st : State)
    (s : ConversationSession) :
  find_session st sid = Some s →
  min_rounds cfg ≤ (length (messages s) + 1) / 2 < max_rounds cfg →
  let run := process_user_input w cfg p sid user_input st in
  let missing := missing_info (_check_information_completeness (info_of (snd run) sid)) in
  is_complete (_check_information_completeness (info_of (snd run) sid)) = false →
  ∃ s',
    fst run = Val (RespMissing sid "collecting_missing" (missing_prompt missing) missing
                     "collecting")
    ∧ missing ≠ []
    ∧ in_memory (snd run) sid s'
    ∧ (∃ user_msg reply,
         messages s' = messages s ++ [user_msg; reply]
         ∧ role reply = "assistant" ∧ content reply = missing_prompt missing)
    ∧ current_stage (context s') = current_stage (context s)
    ∧ paper_content (context s') = paper_content (context s)
    ∧ status s' = status s.
Proof.
  intros Hfind Hround run missing. subst run missing.
  destruct (turn_outcome w cfg p sid user_input st s Hfind)
    as (extracted & st_x & user_msg & r & st' & s' & replies & _ & Hrun & Hs' & Hms & _
        & Hroles & Hinfo & Hcases).
  rewrite Hrun. cbn [fst snd]. rewrite (info_of_in_memory _ _ _ _ Hs' Hinfo). intros Hc.
  destruct Hcases as [(Hlt & _) | [(_ & [Hcomp|Hmax] & _)
                                   | (_ & _ & Hlen & -> & Hcontent & Hstage & Hp & Hstat)]].
  - lia.
  - congruence.
  - lia.
  - exists s'. split_and!; try done.
    + intros Hnil. unfold _check_information_completeness in Hc, Hnil.
      cbn [is_complete missing_info] in Hc, Hnil. by rewrite Hnil in Hc.
    + destruct replies as [|reply [|? ?]]; try done.
      exists user_msg, reply. split; [done|].
      apply Forall_cons in Hroles as [Hr _]. apply Forall_cons in Hcontent as [Hcn _]. done.
Qed.
End TurnTheorems.

Section DialogueExtras.
Import ConversationManager PaperGenerator.
Context (w : World) (cfg : Config) (p : PromptTemplates) (t : PromptTexts).

Lemma initial_prompt_text :
  PromptBuilder.build_information_collection_message t INITIAL None
  = initial_collection_prompt t.
Proof.
  unfold PromptBuilder.build_information_collection_message,
    PromptBuilder.get_information_collection_prompt, PromptBuilder.INFORMATION_COLLECTION.
  by rewrite lookup_insert_eq.
Qed.

Lemma start_new_paper_run user ttl st :
  ∃ r st' s' t1 t2 t3,
    start_new_paper w t user ttl st = (Val r, st')
    ∧ r = {| started_session_id :=
               user +:+ "_" +:+ strftime_compact (clock w (clock_reads st));
             started_stage := INITIAL;
             started_message := initial_collection_prompt t;
             started_round := 1 |}
    ∧ in_memory st' (started_session_id r) s'
    ∧ storage st' !! started_session_id r = Some (Stored s')
    ∧ s' = {| session_id := started_session_id r; user_id := user; title := ttl;
              messages :=
                [{| role := "system"; content := SYSTEM_ROLE t; timestamp := t1;
                    metadata := ∅ |};
                 {| role := "assistant"; content := initial_collection_prompt t;
                    timestamp := t2; metadata := ∅ |}];
              context := initial_context;
              created_at := isoformat (clock w (S (clock_reads st)));
              updated_at := t3; status := "active" |}.
Proof.
  unfold start_new_paper. rewrite initial_prompt_text.
  unfold bind, create_session, bind, now, mutate, _save_session, ret.
  cbn [fst snd clock_reads active_sessions storage requests session_id].
  unfold add_message, bind, get_session. cbn. rewrite lookup_insert_eq.
  unfold now, mutate, _save_session, ret, bind. cbn. rewrite lookup_insert_eq. cbn.
  eexists _, _, _, _, _, _. split; [reflexivity|]. split; [reflexivity|].
  unfold in_memory. cbn. rewrite !lookup_insert_eq. done.
Qed.

(** Turns of the collection phase, from a transcript of [2 * m] messages. *)
Lemma collecting_turns sid inputs : ∀ st s m,
  find_session st sid = Some s →
  length (messages s) = 2 * m →
  inputs ≠ [] →
  m + length inputs ≤ min_rounds cfg →
  ∃ s',
    find_session (run_turns w cfg p sid inputs st) sid = Some s'
    ∧ length (messages s') = 2 * (m + length inputs)
    ∧ current_stage (context s')
      = stage_flow !! ((m + length inputs - 1) `min` (length stage_flow - 1))
    ∧ paper_content (context s') = paper_content (context s)
    ∧ status s' = status s.
Proof.
  induction inputs as [|user_input inputs IH]; intros st s m Hfind Hlen Hne Hm; [done|].
  cbn [run_turns length] in *.
  destruct (turn_outcome w cfg p sid user_input st s Hfind)
    as (extracted & st_x & user_msg & r & st' & s' & replies & _ & Hrun & Hs' & Hms & _
        & _ & _ & Hcases).
  rewrite Hrun. cbn [snd].
  assert (Hround : (length (messages s) + 1) / 2 = m).
  { rewrite Hlen. replace (2 * m + 1) with (1 + m * 2) by lia.
    rewrite Nat.div_add by lia. done. }
  rewrite Hround in Hcases.
  destruct Hcases as [(_ & Hl & (stage & reply & Hstage & _ & Hcur) & Hp & Hstat)
                      | [(Hge & _) | ([Hge _] & _)]]; [|lia|lia].
  assert (Hlen' : length (messages s') = 2 * S m).
  { rewrite Hms, length_app. cbn [length]. lia. }
  apply find_session_in_memory in Hs'.
  destruct inputs as [|next inputs].
  - exists s'. cbn [run_turns length]. split; [done|]. split; [rewrite Hlen'; lia|].
    split; [|done]. rewrite Hcur, <- Hstage. f_equal. lia.
  - destruct (IH st' s' (S m) Hs' Hlen' ltac:(done) ltac:(cbn [length] in *; lia))
      as (s'' & Hf & Hl'' & Hst'' & Hp'' & Hs'').
    exists s''. split; [done|]. split; [rewrite Hl''; cbn [length]; lia|].
    split; [|split; congruence]. rewrite Hst''. f_equal. cbn [length]. lia.
Qed.

(** X23.  A dialogue from its start.  [start_new_paper] answers round 1;
    after [n] turns of the user, [n] below the floor of rounds and at least
    1, the transcript has [2 + 2 * n] messages, the stage is the one at
    position [n] of the stage flow, or the last one beyond its end, no paper
    exists and the session is still ["active"]. *)
Theorem dialogue_rounds (user ttl : string) (inputs : list string) (st : State) :
  inputs ≠ [] →
  length inputs < min_rounds cfg →
  let opened := start_new_paper w t user ttl st in
  ∃ r s',
    fst opened = Val r
    ∧ started_round r = 1
    ∧ find_session (run_turns w cfg p (started_session_id r) inputs (snd opened))
        (started_session_id r) = Some s'
    ∧ length (messages s') = 2 + 2 * length inputs
    ∧ current_stage (context s')
      = stage_flow !! (length inputs `min` (length stage_flow - 1))
    ∧ paper_content (context s') = None
    ∧ status s' = "active".
Proof.
  intros Hne Hlen opened. subst opened.
  destruct (start_new_paper_run user ttl st)
    as (r & st' & s0 & t1 & t2 & t3 & -> & Hr & Hs0 & _ & Hs0eq).
  cbn [fst snd].
  destruct (collecting_turns (started_session_id r) inputs st' s0 1
              (find_session_in_memory _ _ _ Hs0)) as (s' & Hf & Hl & Hst & Hp & Hstat).
  - by rewrite Hs0eq.
  - done.
  - lia.
  - exists r, s'. split; [done|]. split; [by rewrite Hr|]. split; [done|].
    split; [rewrite Hl; lia|]. split; [|split].
    + rewrite Hst. f_equal. lia.
    + rewrite Hp. by rewrite Hs0eq.
    + rewrite Hstat. by rewrite Hs0eq.
Qed.
End DialogueExtras.

Section ExportExtras.
Import ConversationManager PaperGenerator.
Context (w : World).

(** [export_sections] looks up the keys of its order only. *)
Lemma export_sections_agree render order (paper1 paper2 : gmap string string) : ∀ text,
  (∀ key, key ∈ order.*1 → paper1 !! key = paper2 !! key) →
  export_sections render order paper1 text = export_sections render order paper2 text.
Proof.
  induction order as [|[key heading] order IH]; intros text Hagree; [done|].
  cbn [export_sections]. rewrite <- (Hagree key) by (cbn; left).
  destruct (paper1 !! key); apply IH; intros k Hk; apply Hagree; cbn; by right.
Qed.



(** X24.  Both renderings read the seven section names only: two papers
    that agree on these give the same markdown text and the same plain text,
    whatever other sections either one holds. *)
Theorem export_ignores_other_sections (paper1 paper2 : gmap string string) (st : State) :
  (∀ section, section ∈ sections → paper1 !! section = paper2 !! section) →
  _export_as_markdown w paper1 st = _export_as_markdown w paper2 st
  ∧ _export_as_text w paper1 st = _export_as_text w paper2 st.
Proof.
  intros Hagree. unfold _export_as_markdown, _export_as_text, bind, ret.
  rewrite !now_spec. split; f_equal; f_equal; apply export_sections_agree; exact Hagree.
Qed.
End ExportExtras.

Section RouteExtras.
Import ConversationManager PaperGenerator.
Context (w : World) (cfg : Config) (p : PromptTemplates) (t : PromptTexts).



End RouteExtras.

Section HandlerExtras.
Import ConversationManager PaperGenerator.
Context (w : World) (cfg : Config) (p : PromptTemplates) (t : PromptTexts).

Lemma create_session_run user heading st :
  let s := {| session_id := user +:+ "_" +:+ strftime_compact (clock w (clock_reads st));
              user_id := user; title := heading; messages := [];
              context := initial_context;
              created_at := isoformat (clock w (S (clock_reads st)));
              updated_at := isoformat (clock w (S (clock_reads st)));
              status := "active" |} in
  create_session w user heading st
  = (Val s,
     {| active_sessions := <[session_id s := s]> (active_sessions st);
        storage := <[session_id s := Stored s]> (storage st);
        requests := requests st; clock_reads := S (S (clock_reads st)) |}).
Proof. reflexivity. Qed.

Lemma get_session_requests st sid : requests (snd (get_session sid st)) = requests st.
Proof.
  unfold get_session, bind, _load_session, mutate, ret.
  destruct (active_sessions st !! sid); [done|].
  by destruct (storage st !! sid) as [[|]|].
Qed.

(** X26.  A start request that keeps the dialogue is answered with what
    [start_new_paper] returns: round 1 in the stage [initial].  The session
    named in the answer has the two opening messages and the initial context:
    whatever [collected_info] the request carried, nothing of it is in that
    session. *)
Theorem start_paper_drops_prefilled_info (data : App.StartRequest) (st : State) :
  default false (App.req_skip_conversation data) = false →
  ∃ r st' s',
    App.start_paper w t data st = (Val (App.Success (App.Opened r)), st')
    ∧ (started_stage r = INITIAL ∧ started_round r = 1
       ∧ started_message r = initial_collection_prompt t)
    ∧ in_memory st' (started_session_id r) s'
    ∧ context s' = initial_context
    ∧ info_of st' (started_session_id r) = ∅
    ∧ length (messages s') = 2.
Proof.
  intros Hskip. unfold App.start_paper, try_except, bind. rewrite Hskip.
  rewrite create_session_run. cbn zeta. cbn [session_id].
  match goal with |- context [(if ?c then ?a else ?b) ?st1] =>
    assert (∃ st2, (if c then a else b) st1 = (Val (), st2)) as (st2 & ->) end.
  { destruct (App.dict_truthy _); [|by eexists].
    match goal with |- context [update_context w ?i ?u ?st1] =>
      destruct (update_context_in_memory w st1 i _ u (lookup_insert_eq _ _ _))
        as (st2 & ? & -> & _) end.
    by eexists. }
  destruct (start_new_paper_run w t (default "default_user" (App.req_user_id data))
              (default "新论文项目" (App.req_title data)) st2)
    as (r & st' & s' & t1 & t2 & t3 & -> & Hr & Hs' & _ & Hs'eq).
  exists r, st', s'. split; [reflexivity|].
  split; [by rewrite Hr|]. split; [done|].
  assert (Hctx : context s' = initial_context) by (by rewrite Hs'eq).
  split; [done|]. split; [|by rewrite Hs'eq].
  unfold info_of. by rewrite (find_session_in_memory _ _ _ Hs'), Hctx.
Qed.

(** X27.  A start request that skips the dialogue creates a session
    without any message and answers with the stage ["generating"].  The
    session holds the [collected_info] of the request; its stored stage is
    ["generating"] only when that mapping is not empty, otherwise it stays
    ["initial"]. *)
Theorem start_paper_skips_dialogue (data : App.StartRequest) (st : State) :
  App.req_skip_conversation data = Some true →
  let info := default ∅ (App.req_collected_info data) in
  ∃ s st',
    App.start_paper w t data st
    = (Val (App.Success (App.Skipped (session_id s) "generating"
                           "项目创建成功，即将开始生成论文")), st')
    ∧ in_memory st' (session_id s) s
    ∧ session_id s
      = default "default_user" (App.req_user_id data) +:+ "_"
        +:+ strftime_compact (clock w (clock_reads st))
    ∧ messages s = []
    ∧ paper_content (context s) = None
    ∧ status s = "active"
    ∧ collected_info (context s) = Some info
    ∧ current_stage (context s)
      = Some (if App.dict_truthy info then "generating" else "initial").
Proof.
  intros Hskip info. unfold App.start_paper, try_except, bind. rewrite Hskip.
  change (default false (Some true)) with true.
  rewrite create_session_run. cbn zeta. cbn [session_id]. fold info.
  destruct (App.dict_truthy info) eqn:Hinfo.
  - match goal with |- context [update_context w ?i ?u ?st1] =>
      destruct (update_context_in_memory w st1 i _ u (lookup_insert_eq _ _ _))
        as (st2 & t2 & -> & Hs2 & _) end.
    match type of Hs2 with in_memory _ _ ?s2 => exists s2, st2 end.
    split; [reflexivity|]. split; [exact Hs2|]. done.
  - unfold ret.
    match goal with |- context [<[_ := ?s0]> (active_sessions st)] => exists s0 end.
    eexists. split; [reflexivity|].
    split; [apply lookup_insert_eq|]. cbn. split_and!; try done.
    unfold App.dict_truthy in Hinfo. apply negb_false_iff, bool_decide_eq_true in Hinfo.
    by rewrite Hinfo.
Qed.

(** X29.  The direct generation route on an existing session answers with
    the seven-section paper after at most 28 backend requests, stores it,
    and sets the stage and the status to ["completed"].  Unlike a generating
    turn of the dialogue it adds no message to the transcript; the collected
    information is kept. *)
Theorem generate_paper_route (sid : string) (st : State) (s : ConversationSession) :
  sid ≠ "" →
  find_session st sid = Some s →
  ∃ paper st' s',
    App.generate_paper w cfg p (Some sid) st = (Val (App.Success (paper, sid)), st')
    ∧ in_memory st' sid s'
    ∧ dom paper = list_to_set sections
    ∧ paper_content (context s') = Some paper
    ∧ current_stage (context s') = Some "completed"
    ∧ status s' = "completed"
    ∧ messages s' = messages s
    ∧ collected_info (context s') = collected_info (context s)
    ∧ requests st ≤ requests st' ≤ requests st + 28.
Proof.
  intros Hne Hfind. unfold App.generate_paper, try_except, bind.
  assert (Hb : App.blank (Some sid) = false).
  { unfold App.blank, str_truthy. rewrite negb_involutive. by apply String.eqb_neq. }
  rewrite Hb. change (default "" (Some sid)) with sid. cbn zeta.
  pose proof (get_session_requests st sid) as Hreq0.
  unfold get_context, bind.
  destruct (get_session_find st sid) as (Hg1 & _ & Hg3 & _).
  specialize (Hg3 s Hfind). rewrite Hfind in Hg1.
  destruct (get_session sid st) as [r0 st0]. cbn [fst snd] in Hg1, Hg3, Hreq0. subst r0.
  unfold ret at 1.
  destruct (_generate_full_paper_run w cfg p sid (default ∅ (collected_info (context s)))
              st0 s Hg3) as (paper & st1 & s1 & -> & Hs1 & Hd & Hreq1 & Hdom & _).
  destruct (update_context_in_memory w st1 sid s1
              (paper_content_and_stage paper "completed") Hs1) as (st2 & t2 & -> & Hs2 & Hreq2).
  destruct (update_session_status_in_memory w st2 sid _ "completed" Hs2)
    as (st3 & t3 & -> & Hs3 & Hreq3).
  unfold ret. eexists paper, st3, _. split; [reflexivity|]. split; [exact Hs3|].
  destruct Hd as (_ & _ & _ & Hms & _ & _ & Hci & _).
  cbn. split_and!; try done; lia.
Qed.

(** X30.  The direct generation route on a session that does not exist
    answers 500 with the session-not-found text, after up to four backend
    requests, and creates nothing. *)
Theorem generate_paper_route_unknown (sid : string) (st : State) :
  sid ≠ "" →
  find_session st sid = None →
  ∃ st',
    App.generate_paper w cfg p (Some sid) st
    = (Val (App.Error 500 ("会话不存在: " +:+ sid)), st')
    ∧ same_store st st'
    ∧ requests st ≤ requests st' ≤ requests st + 4.
Proof.
  intros Hne Hfind. unfold App.generate_paper, try_except, bind.
  assert (Hb : App.blank (Some sid) = false).
  { unfold App.blank, str_truthy. rewrite negb_involutive. by apply String.eqb_neq. }
  rewrite Hb. change (default "" (Some sid)) with sid. cbn zeta.
  unfold get_context, bind. rewrite (get_session_not_found _ _ Hfind). unfold ret at 1.
  destruct (_generate_full_paper_unknown w cfg p sid
              (default ∅ (collected_info empty_context)) st Hfind)
    as (st' & -> & Hsame & Hreq).
  by exists st'.
Qed.
End HandlerExtras.

(** ** The controller, step by step *)

Section PinnedGenerator.
Import ConversationManager PaperGenerator.
Context (w : World) (cfg : Config) (p : PromptTemplates).

(** A registered role's chat is one request to its backend. *)
Lemma role_chat_registered i role messages temperature max_tokens st :
  1 ≤ length (service_names w) →
  "" ∉ service_names w →
  CollaborationEngine.roles !! i = Some role →
  ∃ name,
    service_names w !! (i mod length (service_names w)) = Some name
    ∧ AIService.chat w messages (CollaborationEngine.role_service_mapping w !! role)
        temperature max_tokens st
      = (match backend w (requests st) name messages temperature max_tokens with
         | Reply text => Val text
         | Failure msg => Raise (Exception msg)
         end,
         {| active_sessions := active_sessions st; storage := storage st;
            requests := S (requests st); clock_reads := clock_reads st |}).
Proof.
  intros Hlen Hne Hrole.
  destruct (lookup_lt_is_Some_2 (service_names w) (i mod length (service_names w)))
    as [name Hname]; [apply Nat.mod_upper_bound; lia|].
  exists name. split; [done|].
  rewrite (role_mapping_lookup w i role Hlen Hrole), Hname.
  assert (Hin : name ∈ service_names w) by (by eapply list_elem_of_lookup_2).
  assert (Hget : AIService.get_service w (Some name) = Some name).
  { unfold AIService.get_service, str_truthy.
    destruct (String.eqb_spec name "") as [->|_]; [done|]. cbn.
    by rewrite bool_decide_eq_true_2. }
  unfold AIService.chat. rewrite Hget. by destruct (backend w _ _ _ _ _).
Qed.

Lemma last_six_again {A} (l : list A) :
  length l ≤ 6 →
  match l with
  | m :: h => drop (length (m :: h) - 6) (m :: h)
  | [] => []
  end = l.
Proof.
  intros Hl. destruct l as [|m h]; [done|].
  replace (length (m :: h) - 6) with 0 by lia. done.
Qed.

(** The first steps of a turn of an existing session, each from the state
    the step before it left. *)
Lemma turn_intake_run sid user_input st s :
  find_session st sid = Some s →
  ∃ user_msg st_a extracted st_x st_i s_i,
    let stage := default INITIAL (current_stage (context s)) in
    let info := extracted ∪ default ∅ (collected_info (context s)) in
    let current_round := (length (messages s) + 1) / 2 in
    add_message w sid "user" user_input None (snd (get_session sid st)) = (Val user_msg, st_a)
    ∧ (role user_msg = "user" ∧ content user_msg = user_input)
    ∧ _extract_information w user_input stage st_a = (Val extracted, st_x)
    ∧ update_context w sid (only_collected_info info) st_x = (Val (), st_i)
    ∧ in_memory st_i sid s_i
    ∧ messages s_i = messages s ++ [user_msg]
    ∧ context s_i = dict_update (context s) (only_collected_info info)
    ∧ status s_i = status s
    ∧ process_user_input w cfg p sid user_input st
      = (if current_round <? min_rounds cfg then
           _continue_information_collection w cfg p sid stage info current_round
         else if is_complete (_check_information_completeness info)
                 || (max_rounds cfg <=? current_round) then
           _start_paper_generation w cfg p sid info
         else
           _collect_missing_information w sid info
             (missing_info (_check_information_completeness info))) st_i.
Proof.
  intros Hfind. unfold process_user_input, bind.
  destruct (get_session_find st sid) as (Hg1 & _ & Hg3 & _).
  specialize (Hg3 s Hfind). rewrite Hfind in Hg1.
  destruct (get_session sid st) as [r0 st0]. cbn [fst snd] in *. subst r0.
  destruct (add_message_in_memory w st0 sid s "user" user_input None Hg3)
    as (sta & t & t' & Hadd & Hsa & Hqa).
  rewrite Hadd.
  rewrite (get_context_in_memory _ _ _ Hsa).
  cbn [context with_messages].
  destruct (_extract_information_total w user_input
              (default INITIAL (current_stage (context s))) sta)
    as (extracted & stb & Hex & Hstb).
  rewrite Hex.
  destruct (update_context_in_memory w stb sid _
              (only_collected_info (extracted ∪ default ∅ (collected_info (context s))))
              (in_memory_same_store _ _ _ _ Hsa Hstb)) as (stc & tc & Hupd & Hsc & Hqc).
  rewrite Hupd.
  unfold current. rewrite Hsc. cbn [default].
  eexists _, sta, extracted, stb, stc, _. cbn zeta.
  split; [reflexivity|]. split; [done|]. split; [exact Hex|]. split; [exact Hupd|].
  split; [exact Hsc|]. split; [reflexivity|]. split; [reflexivity|]. split; [reflexivity|].
  unfold id. cbn [messages with_context with_messages]. rewrite length_app. reflexivity.
Qed.

(** [_continue_information_collection] on a session in memory, step by
    step; the reply is what the collector's request returns, or the failure
    text of the collector when the request raises. *)
Lemma _continue_information_collection_run sid stage0 info current_round st s :
  in_memory st sid s →
  ∃ stage reply st_c st_r st' s' assistant_msg,
    let history :=
      map (fun msg => {| chat_role := role msg; chat_content := content msg |})
        (drop (length (messages s) - 6) (messages s)) in
    let role_config :=
      CollaborationEngine.role_config_get cfg CollaborationEngine.INFORMATION_COLLECTOR in
    let request :=
      [{| chat_role := "system";
          chat_content := default "信息收集专家" (description role_config) |}]
      ++ history
      ++ [{| chat_role := "user";
             chat_content :=
               get_model_collaboration_prompt p CollaborationEngine.INFORMATION_COLLECTOR
                 (_format_collected_info p info) stage |}] in
    let asked :=
      AIService.chat w request
        (CollaborationEngine.role_service_mapping w
           !! CollaborationEngine.INFORMATION_COLLECTOR)
        (default (7 # 10)%Q (temperature role_config)) 2000 st_c in
    stage_flow !! (current_round `min` (length stage_flow - 1)) = Some stage
    ∧ update_context w sid (only_stage stage) st = (Val (), st_c)
    ∧ snd asked = st_r
    ∧ reply = match fst asked with
              | Val text => text
              | Raise e => "信息收集失败: " +:+ str_exn e
              end
    ∧ CollaborationEngine.collect_information w cfg p stage info (Some history) st_c
      = (Val reply, st_r)
    ∧ add_message w sid "assistant" reply None st_r = (Val assistant_msg, st')
    ∧ (role assistant_msg = "assistant" ∧ content assistant_msg = reply)
    ∧ _continue_information_collection w cfg p sid stage0 info current_round st
      = (Val (RespCollecting sid stage reply (current_round + 1) "collecting"), st')
    ∧ in_memory st' sid s'
    ∧ messages s' = messages s ++ [assistant_msg]
    ∧ current_stage (context s') = Some stage
    ∧ collected_info (context s') = collected_info (context s)
    ∧ paper_content (context s') = paper_content (context s)
    ∧ status s' = status s.
Proof.
  intros Hs. unfold _continue_information_collection.
  destruct (stage_flow_lookup current_round) as (stage & -> & Hstage).
  unfold bind.
  destruct (update_context_in_memory w st sid s (only_stage stage) Hs)
    as (st1 & t1 & Hupd & Hs1 & _).
  rewrite Hupd.
  unfold get_messages_for_api, bind.
  rewrite (get_messages_in_memory st1 sid _ 5 Hs1).
  unfold ret at 1. cbn [messages with_context].
  set (history := map (fun msg => {| chat_role := role msg; chat_content := content msg |})
                    (drop (length (messages s) - 6) (messages s))).
  assert (Hhist : length history ≤ 6).
  { unfold history. rewrite length_map, length_drop. lia. }
  assert (Hcollect :
    CollaborationEngine.collect_information w cfg p stage info (Some history) st1
    = try_except
        (AIService.chat w
           ([{| chat_role := "system";
                chat_content :=
                  default "信息收集专家"
                    (description (CollaborationEngine.role_config_get cfg
                                    CollaborationEngine.INFORMATION_COLLECTOR)) |}]
            ++ history
            ++ [{| chat_role := "user";
                   chat_content :=
                     get_model_collaboration_prompt p
                       CollaborationEngine.INFORMATION_COLLECTOR
                       (_format_collected_info p info) stage |}])
           (CollaborationEngine.role_service_mapping w
              !! CollaborationEngine.INFORMATION_COLLECTOR)
           (default (7 # 10)%Q
              (temperature (CollaborationEngine.role_config_get cfg
                              CollaborationEngine.INFORMATION_COLLECTOR))) 2000)
        (fun e => ret ("信息收集失败: " +:+ str_exn e)) st1).
  { unfold CollaborationEngine.collect_information. by rewrite (last_six_again history Hhist). }
  rewrite Hcollect. unfold try_except.
  match goal with |- context [AIService.chat w ?a ?b ?c ?d st1] =>
    pose proof (chat_same_store w a b c d st1) as Hst2;
    destruct (AIService.chat w a b c d st1) as [[text|e] st2] eqn:Hchat end;
    cbn [snd] in Hst2.
  - destruct (add_message_in_memory w st2 sid _ "assistant" text None
                (in_memory_same_store _ _ _ _ Hs1 Hst2)) as (st3 & t3 & t3' & Hadd & Hs3 & _).
    rewrite Hadd.
    match type of Hs3 with in_memory _ _ ?s3 =>
      eexists stage, text, st1, st2, st3, s3, _ end. cbn zeta. fold history. rewrite Hchat, Hcollect.
    unfold try_except. rewrite Hchat.
    split_and!; try reflexivity; try done.
  - unfold ret at 1.
    destruct (add_message_in_memory w st2 sid _ "assistant" ("信息收集失败: " +:+ str_exn e)
                None (in_memory_same_store _ _ _ _ Hs1 Hst2))
      as (st3 & t3 & t3' & Hadd & Hs3 & _).
    rewrite Hadd.
    match type of Hs3 with in_memory _ _ ?s3 =>
      eexists stage, _, st1, st2, st3, s3, _ end. cbn zeta. fold history. rewrite Hchat, Hcollect.
    unfold try_except. rewrite Hchat.
    split_and!; try reflexivity; try done.
Qed.


(** With a backend registered, a role's chat is one request; an answer the
    backends give to that request whatever is asked is what the chat
    returns. *)
Lemma role_chat_answer i role messages temperature max_tokens st :
  1 ≤ length (service_names w) →
  "" ∉ service_names w →
  CollaborationEngine.roles !! i = Some role →
  let asked :=
    AIService.chat w messages (CollaborationEngine.role_service_mapping w !! role)
      temperature max_tokens st in
  requests (snd asked) = S (requests st)
  ∧ (∀ text, (∀ name msgs t m, backend w (requests st) name msgs t m = Reply text) →
       fst asked = Val text)
  ∧ (∀ msg, (∀ name msgs t m, backend w (requests st) name msgs t m = Failure msg) →
       fst asked = Raise (Exception msg)).
Proof.
  intros Hlen Hne Hrole asked. subst asked.
  destruct (role_chat_registered i role messages temperature max_tokens st Hlen Hne Hrole)
    as (name & _ & ->).
  cbn [fst snd requests]. split; [done|]. split.
  - intros text Hall. by rewrite Hall.
  - intros msg Hall. by rewrite Hall.
Qed.

(** One iteration of the collaborative generation, request by request. *)
Lemma one_iteration_run section info st0 :
  ∃ c0 sa rv sb o sc result st1,
    CollaborationEngine.generate_content w cfg p section info "" st0 = (Val c0, sa)
    ∧ CollaborationEngine.review_quality w cfg p c0 section sa = (Val rv, sb)
    ∧ CollaborationEngine.optimize_structure w cfg p c0 section sb = (Val o, sc)
    ∧ snd (CollaborationEngine.improve w cfg c0 (CollaborationEngine.review rv) o sc) = st1
    ∧ CollaborationEngine.final_content result
      = match fst (CollaborationEngine.improve w cfg c0 (CollaborationEngine.review rv) o sc) with
        | Val improved => improved
        | Raise _ => c0
        end
    ∧ CollaborationEngine.collaborative_generation w cfg p section info 1 st0
      = (Val result, st1)
    ∧ same_store st0 st1
    ∧ (1 ≤ length (service_names w) → "" ∉ service_names w →
       requests sc = requests st0 + 3
       ∧ requests st1 = requests st0 + 4
       ∧ (∀ text,
            (∀ name msgs t m, backend w (requests st0 + 3) name msgs t m = Reply text) →
            CollaborationEngine.final_content result = text)
       ∧ (∀ text msg,
            (∀ name msgs t m, backend w (requests st0 + 3) name msgs t m = Failure msg) →
            (∀ name msgs t m, backend w (requests st0) name msgs t m = Reply text) →
            CollaborationEngine.final_content result = text)).
Proof.
  destruct (generate_content_total w cfg p section info "" st0) as (c0 & sa & Hgen & Hsa).
  destruct (review_quality_total w cfg p c0 section sa) as (rv & sb & Hrev & Hsb).
  destruct (optimize_structure_total w cfg p c0 section sb) as (o & sc & Hopt & Hsc).
  pose proof (improve_same_store w cfg c0 (CollaborationEngine.review rv) o sc) as Hst1.
  assert (Hrun : ∃ result,
            CollaborationEngine.collaborative_generation w cfg p section info 1 st0
            = (Val result,
               snd (CollaborationEngine.improve w cfg c0 (CollaborationEngine.review rv) o sc))
            ∧ CollaborationEngine.final_content result
              = match fst (CollaborationEngine.improve w cfg c0
                             (CollaborationEngine.review rv) o sc) with
                | Val improved => improved
                | Raise _ => c0
                end).
  { unfold CollaborationEngine.collaborative_generation, CollaborationEngine.generation_block,
      CollaborationEngine.guarded.
    rewrite Hgen. cbn [CollaborationEngine.refine]. unfold CollaborationEngine.guarded.
    rewrite Hrev, Hopt.
    destruct (CollaborationEngine.improve w cfg c0 (CollaborationEngine.review rv) o sc)
      as [[c1|e] st1]; eexists; split; reflexivity. }
  destruct Hrun as (result & Hrun & Hfinal).
  exists c0, sa, rv, sb, o, sc, result,
    (snd (CollaborationEngine.improve w cfg c0 (CollaborationEngine.review rv) o sc)).
  split; [done|]. split; [done|]. split; [done|]. split; [reflexivity|].
  split; [done|]. split; [done|].
  split; [eauto using same_store_trans|].
  intros Hlen Hne.
  assert (Hqa : requests sa = S (requests st0)
                ∧ ∀ text, (∀ name msgs t m, backend w (requests st0) name msgs t m = Reply text)
                          → c0 = text).
  { unfold CollaborationEngine.generate_content, try_except in Hgen.
    match type of Hgen with context [AIService.chat w ?a ?b ?c ?d st0] =>
      destruct (role_chat_answer 1 CollaborationEngine.CONTENT_GENERATOR a c d st0 Hlen Hne
                  eq_refl) as (Hq & Hreply & _);
      destruct (AIService.chat w a b c d st0) as [[x|e] sx] end;
      cbn [fst snd] in *; unfold ret in Hgen; injection Hgen as <- <-.
    - split; [done|]. intros text Hall. specialize (Hreply text Hall). congruence.
    - split; [done|]. intros text Hall. specialize (Hreply text Hall). congruence. }
  assert (Hqb : requests sb = S (requests sa)).
  { unfold CollaborationEngine.review_quality, try_except, bind in Hrev.
    match type of Hrev with context [AIService.chat w ?a ?b ?c ?d sa] =>
      destruct (role_chat_answer 2 CollaborationEngine.QUALITY_REVIEWER a c d sa Hlen Hne
                  eq_refl) as (Hq & _);
      destruct (AIService.chat w a b c d sa) as [[x|e] sx] end;
      cbn [fst snd] in *; unfold ret in Hrev; by injection Hrev as <- <-. }
  assert (Hqc : requests sc = S (requests sb)).
  { unfold CollaborationEngine.optimize_structure, try_except in Hopt.
    match type of Hopt with context [AIService.chat w ?a ?b ?c ?d sb] =>
      destruct (role_chat_answer 3 CollaborationEngine.STRUCTURE_OPTIMIZER a c d sb Hlen Hne
                  eq_refl) as (Hq & _);
      destruct (AIService.chat w a b c d sb) as [[x|e] sx] end;
      cbn [fst snd] in *; unfold ret in Hopt; by injection Hopt as <- <-. }
  destruct Hqa as [Hqa Hc0].
  assert (Hsc3 : requests sc = requests st0 + 3) by lia.
  unfold CollaborationEngine.improve in Hfinal |- *.
  match type of Hfinal with context [AIService.chat w ?a ?b ?c ?d sc] =>
    destruct (role_chat_answer 1 CollaborationEngine.CONTENT_GENERATOR a c d sc Hlen Hne
                eq_refl) as (Hq & Hreply & Hfail) end.
  rewrite Hsc3 in Hreply, Hfail.
  split; [done|]. split; [lia|]. split.
  - intros text Hall. rewrite Hfinal. by rewrite (Hreply text Hall).
  - intros text msg Hbad Hgood. rewrite Hfinal. rewrite (Hfail msg Hbad). by apply Hc0.
Qed.

End PinnedGenerator.

Section ControllerClaims.
Import ConversationManager PaperGenerator.
Context (w : World) (cfg : Config) (p : PromptTemplates).

(** C6.  On a user turn of an existing session the controller takes
    [round = floor(message_count / 2)] over the transcript that now ends with
    the user message.  Whenever [round < min_rounds] the turn is these steps,
    each from the state the step before it left: the user message is
    appended, the information is extracted and merged into
    [collected_info], [current_stage] is set to
    [stage_flow[min(round, len(stage_flow) - 1)]], the collector role is asked
    with the last six messages of the transcript, its reply is appended as an
    assistant message, and the response holds that stage, that reply,
    [round + 1] and the status ["collecting"].  The reply is what the request
    to the collector's backend returned, or the collector's failure text when
    that request failed: with a backend registered it is the answer of the
    first registered backend to the request built from the system role, the
    history and the collaboration prompt, and that is one request. *)
Theorem collection_round (sid user_input : string) (st : State) (s : ConversationSession) :
  find_session st sid = Some s →
  let current_round := (length (messages s) + 1) / 2 in
  current_round < min_rounds cfg →
  ∃ stage reply st' s' user_msg assistant_msg extracted st_a st_x st_i st_c st_r,
    let info := extracted ∪ default ∅ (collected_info (context s)) in
    let history :=
      map (fun msg => {| chat_role := role msg; chat_content := content msg |})
        (drop (length (messages s ++ [user_msg]) - 6) (messages s ++ [user_msg])) in
    let role_config :=
      CollaborationEngine.role_config_get cfg CollaborationEngine.INFORMATION_COLLECTOR in
    let request :=
      [{| chat_role := "system";
          chat_content := default "信息收集专家" (description role_config) |}]
      ++ history
      ++ [{| chat_role := "user";
             chat_content :=
               get_model_collaboration_prompt p CollaborationEngine.INFORMATION_COLLECTOR
                 (_format_collected_info p info) stage |}] in
    let temperature := default (7 # 10)%Q (temperature role_config) in
    let asked :=
      AIService.chat w request
        (CollaborationEngine.role_service_mapping w
           !! CollaborationEngine.INFORMATION_COLLECTOR) temperature 2000 st_c in
    stage_flow !! (current_round `min` (length stage_flow - 1)) = Some stage
    ∧ add_message w sid "user" user_input None (snd (get_session sid st))
      = (Val user_msg, st_a)
    ∧ _extract_information w user_input (default INITIAL (current_stage (context s))) st_a
      = (Val extracted, st_x)
    ∧ update_context w sid (only_collected_info info) st_x = (Val (), st_i)
    ∧ update_context w sid (only_stage stage) st_i = (Val (), st_c)
    ∧ snd asked = st_r
    ∧ reply = match fst asked with
              | Val text => text
              | Raise e => "信息收集失败: " +:+ str_exn e
              end
    ∧ (∀ name,
         head (service_names w) = Some name →
         "" ∉ service_names w →
         requests st_r = S (requests st_c)
         ∧ reply = match backend w (requests st_c) name request temperature 2000 with
                   | Reply text => text
                   | Failure msg => "信息收集失败: " +:+ msg
                   end)
    ∧ CollaborationEngine.collect_information w cfg p stage info (Some history) st_c
      = (Val reply, st_r)
    ∧ add_message w sid "assistant" reply None st_r = (Val assistant_msg, st')
    ∧ process_user_input w cfg p sid user_input st
      = (Val (RespCollecting sid stage reply (current_round + 1) "collecting"), st')
    ∧ in_memory st' sid s'
    ∧ current_stage (context s') = Some stage
    ∧ messages s' = messages s ++ [user_msg; assistant_msg]
    ∧ (role user_msg = "user" ∧ content user_msg = user_input)
    ∧ (role assistant_msg = "assistant" ∧ content assistant_msg = reply).
Proof.
  intros Hfind current_round Hround.
  destruct (turn_intake_run w cfg p sid user_input st s Hfind)
    as (user_msg & st_a & extracted & st_x & st_i & s_i & Hadd & Huser & Hex & Hupd & Hsi
        & Hms & Hctx & Hstat & Heq).
  cbn zeta in Heq, Hex, Hupd. fold current_round in Heq.
  destruct (Nat.ltb_spec current_round (min_rounds cfg)) as [_|Hge]; [|lia].
  destruct (_continue_information_collection_run w cfg p sid
              (default INITIAL (current_stage (context s)))
              (extracted ∪ default ∅ (collected_info (context s))) current_round st_i s_i Hsi)
    as (stage & reply & st_c & st_r & st' & s' & assistant_msg & Hstage & Hstg & Hasked
        & Hreply & Hcollect & Hreplied & Hamsg & Hrun & Hs' & Hms' & Hcur & _).
  cbn zeta in Hasked, Hreply, Hcollect. rewrite Hms in Hasked, Hreply, Hcollect.
  exists stage, reply, st', s', user_msg, assistant_msg, extracted, st_a, st_x, st_i, st_c, st_r.
  cbn zeta.
  split; [exact Hstage|]. split; [exact Hadd|]. split; [exact Hex|]. split; [exact Hupd|].
  split; [exact Hstg|]. split; [exact Hasked|]. split; [exact Hreply|].
  split.
  { intros name Hhead Hne.
    assert (Hlen : 1 ≤ length (service_names w)).
    { destruct (service_names w); [done | cbn; lia]. }
    match type of Hasked with context [AIService.chat w ?a ?b ?c ?d st_c] =>
      destruct (role_chat_registered w 0 CollaborationEngine.INFORMATION_COLLECTOR a c d st_c
                  Hlen Hne eq_refl) as (name' & Hname' & Hchat) end.
    rewrite Nat.Div0.mod_0_l in Hname'.
    assert (name' = name) as ->.
    { rewrite <- head_lookup in Hname'. congruence. }
    rewrite Hchat in Hasked, Hreply. cbn [fst snd] in Hasked, Hreply.
    split; [by rewrite <- Hasked|].
    rewrite Hreply. by destruct (backend w _ _ _ _ _). }
  split; [exact Hcollect|]. split; [exact Hreplied|].
  split; [by rewrite Heq|]. split; [exact Hs'|]. split; [exact Hcur|].
  split; [by rewrite Hms', Hms, <- app_assoc|].
  split; [exact Huser | exact Hamsg].
Qed.


(** C9.  For a session whose context holds a section-to-text mapping
    [paper], [regenerate_section] reads the context, runs one iteration of
    the collaborative generation from there (first generation, review,
    optimization, improved generation) and stores [paper] with the entry of
    [section] set to the content of that run: the improved generation, or
    the first generation when the improved one failed.  With a backend
    registered these are four requests, and the new text is what the backend
    answered to the fourth, or to the first when the fourth failed.  The text
    of every other section stays as it was; the transcript, the stage, the
    collected fields, the traces and the status of the session are not
    touched, so the turn logic of [process_user_input] is not involved. *)
Theorem regenerate_replaces_one_section (sid section requirements : string) (st : State)
    (s : ConversationSession) (paper : gmap string string) :
  find_session st sid = Some s →
  paper_content (context s) = Some paper →
  ∃ st0 c0 sa rv sb o sc result st1 st' s',
    let info := default ∅ (collected_info (context s)) in
    let content := CollaborationEngine.final_content result in
    let paper' := <[section := content]> paper in
    get_context sid st = (Val (context s), st0)
    ∧ requests st0 = requests st
    ∧ CollaborationEngine.generate_content w cfg p section info "" st0 = (Val c0, sa)
    ∧ CollaborationEngine.review_quality w cfg p c0 section sa = (Val rv, sb)
    ∧ CollaborationEngine.optimize_structure w cfg p c0 section sb = (Val o, sc)
    ∧ snd (CollaborationEngine.improve w cfg c0 (CollaborationEngine.review rv) o sc) = st1
    ∧ content
      = match fst (CollaborationEngine.improve w cfg c0 (CollaborationEngine.review rv) o sc) with
        | Val improved => improved
        | Raise _ => c0
        end
    ∧ CollaborationEngine.collaborative_generation w cfg p section info 1 st0
      = (Val result, st1)
    ∧ (1 ≤ length (service_names w) → "" ∉ service_names w →
       requests st1 = requests st + 4
       ∧ (∀ text,
            (∀ name msgs t m, backend w (requests st + 3) name msgs t m = Reply text) →
            content = text)
       ∧ (∀ text msg,
            (∀ name msgs t m, backend w (requests st + 3) name msgs t m = Failure msg) →
            (∀ name msgs t m, backend w (requests st) name msgs t m = Reply text) →
            content = text))
    ∧ update_context w sid (only_paper_content paper') st1 = (Val (), st')
    ∧ requests st' = requests st1
    ∧ regenerate_section w cfg p sid section requirements st
      = (Val (RespRegenerated sid section content "success"), st')
    ∧ in_memory st' sid s'
    ∧ paper_content (context s') = Some paper'
    ∧ paper' !! section = Some content
    ∧ (∀ other, other ≠ section → paper' !! other = paper !! other)
    ∧ messages s' = messages s
    ∧ current_stage (context s') = current_stage (context s)
    ∧ collected_info (context s') = collected_info (context s)
    ∧ generation_process (context s') = generation_process (context s)
    ∧ status s' = status s.
Proof.
  intros Hfind Hpaper. unfold regenerate_section, bind.
  pose proof (get_session_requests st sid) as Hq0.
  assert (Hctx : ∃ st0, get_context sid st = (Val (context s), st0) ∧ in_memory st0 sid s
                        ∧ requests st0 = requests st).
  { unfold get_context, bind.
    destruct (get_session_find st sid) as (Hg1 & _ & Hg3 & _).
    specialize (Hg3 s Hfind). rewrite Hfind in Hg1.
    destruct (get_session sid st) as [r0 st0]. cbn [fst snd] in *. subst r0.
    by exists st0. }
  destruct Hctx as (st0 & Hget & Hs0 & Hreq0). rewrite Hget.
  destruct (one_iteration_run w cfg p section (default ∅ (collected_info (context s))) st0)
    as (c0 & sa & rv & sb & o & sc & result & st1 & Hgen & Hrev & Hopt & Himp & Hfinal
        & Hrun & Hsame & Hreq).
  rewrite Hrun, Hpaper. change (default ∅ (Some paper)) with paper.
  destruct (update_context_in_memory w st1 sid s
              (only_paper_content (<[section := CollaborationEngine.final_content result]> paper))
              (in_memory_same_store _ _ _ _ Hs0 Hsame)) as (st2 & t & Hupd & Hs2 & Hreq2).
  rewrite Hupd.
  match type of Hs2 with in_memory _ _ ?s2 =>
    exists st0, c0, sa, rv, sb, o, sc, result, st1, st2, s2 end.
  cbn zeta.
  split; [reflexivity|]. split; [exact Hreq0|]. split; [exact Hgen|]. split; [exact Hrev|].
  split; [exact Hopt|]. split; [exact Himp|]. split; [exact Hfinal|]. split; [exact Hrun|].
  split.
  { intros Hlen Hne. destruct (Hreq Hlen Hne) as (_ & Hq4 & Hgood & Hbad).
    rewrite Hreq0 in Hq4, Hgood, Hbad. done. }
  split; [exact Hupd|]. split; [exact Hreq2|]. split; [reflexivity|]. split; [exact Hs2|].
  split; [reflexivity|]. split; [apply lookup_insert_eq|].
  split; [intros other Hne; by rewrite lookup_insert_ne|].
  split_and!; try reflexivity. cbn. apply (left_id_L ∅ (∪)).
Qed.
End ControllerClaims.

(** ** The further properties on the scenarios *)

(** A session created in an empty store is found under the identifier made
    of the user and the second of its creation. *)
Lemma create_session_then_found_witness :
  ∃ s st',
    ConversationManager.create_session Scenario.offline "u" "第一篇" Scenario.empty_store
    = (Val s, st')
    ∧ session_id s = Scenario.sid
    ∧ ConversationManager.get_session Scenario.sid st' = (Val (Some s), st').
Proof.
  destruct (ConversationManager.create_session Scenario.offline "u" "第一篇"
              Scenario.empty_store) as [[s|e] st'] eqn:Hrun; [|discriminate Hrun].
  destruct (create_session_then_found Scenario.offline "u" "第一篇" Scenario.empty_store
              s st' Hrun) as (Hid & _ & Hget & _).
  exists s, st'. split; [reflexivity|].
  assert (session_id s = Scenario.sid) as Hsid by (rewrite Hid; reflexivity).
  split; [exact Hsid|]. rewrite <- Hsid. exact Hget.
Defined.

(** A turn on an empty store. *)
Lemma unknown_session_turn_witness :
  PaperGenerator.process_user_input Scenario.offline Scenario.defaults Scenario.prompts
    "nobody" "你好" Scenario.empty_store
  = (Val (PaperGenerator.RespError "会话不存在"), Scenario.empty_store).
Proof.
  destruct (unknown_session_turn Scenario.offline Scenario.defaults Scenario.prompts
              "nobody" "你好" Scenario.empty_store) as (Hrun & _).
  - reflexivity.
  - exact Hrun.
Defined.

(** Two sessions of one user created within one second: the second takes
    the place of the first. *)
Lemma create_session_same_second_witness :
  ∃ s1 st1 s2 st2,
    ConversationManager.create_session Scenario.offline_racing "u" "第一篇"
      Scenario.empty_store = (Val s1, st1)
    ∧ ConversationManager.create_session Scenario.offline_racing "u" "第二篇" st1
      = (Val s2, st2)
    ∧ session_id s2 = session_id s1
    ∧ title s2 = "第二篇"
    ∧ active_sessions st2 !! session_id s1 = Some s2
    ∧ storage st2 !! session_id s1 = Some (Stored s2).
Proof.
  apply (create_session_same_second Scenario.offline_racing "u" "第一篇" "第二篇"
           Scenario.empty_store).
  reflexivity.
Defined.

(** The last two of six messages. *)
Lemma get_messages_is_suffix_witness :
  ∃ ms st' st'',
    ConversationManager.get_messages Scenario.sid (Some 2)
      (Scenario.holding (Scenario.session (Scenario.transcript 5) ∅ None)) = (Val ms, st')
    ∧ ms `suffix_of` Scenario.transcript 5
    ∧ length ms = 2
    ∧ ConversationManager.get_messages_for_api Scenario.sid (Some 2)
        (Scenario.holding (Scenario.session (Scenario.transcript 5) ∅ None))
      = (Val (map (fun msg => {| chat_role := role msg; chat_content := content msg |}) ms),
         st'').
Proof.
  apply (get_messages_is_suffix Scenario.sid (Some 2)
           (Scenario.holding (Scenario.session (Scenario.transcript 5) ∅ None))
           (Scenario.session (Scenario.transcript 5) ∅ None)).
  reflexivity.
Defined.

(** A status update of the held session reaches its file. *)
Lemma mutators_write_through_witness :
  persisted
    (snd (ConversationManager.update_session_status Scenario.offline Scenario.sid "completed"
            (Scenario.holding (Scenario.session (Scenario.transcript 0) ∅ None))))
    Scenario.sid.
Proof.
  destruct (mutators_write_through Scenario.offline Scenario.sid
              (Scenario.holding (Scenario.session (Scenario.transcript 0) ∅ None))
              (Scenario.session (Scenario.transcript 0) ∅ None))
    as (_ & _ & H).
  - reflexivity.
  - reflexivity.
  - destruct (update_session_status_in_memory Scenario.offline
                (Scenario.holding (Scenario.session (Scenario.transcript 0) ∅ None))
                Scenario.sid (Scenario.session (Scenario.transcript 0) ∅ None) "completed")
      as (st' & t & Hrun & _); [reflexivity|].
    rewrite Hrun. exact (H "completed" st' Hrun).
Defined.

(** Without a backend a three-iteration run stops in its first iteration. *)
Lemma no_backend_generation_witness :
  ∃ r,
    CollaborationEngine.collaborative_generation Scenario.offline Scenario.defaults
      Scenario.prompts "abstract" ∅ 3 Scenario.empty_store = (Val r, Scenario.empty_store)
    ∧ CollaborationEngine.final_content r = "内容生成失败: 没有可用的AI服务"
    ∧ CollaborationEngine.status r = "error"
    ∧ length (CollaborationEngine.iterations r) = 3.
Proof.
  destruct (no_backend_generation Scenario.offline Scenario.defaults Scenario.prompts
              "abstract" ∅ 3 Scenario.empty_store) as (r & Hrun & Hc & _ & H).
  - reflexivity.
  - exists r. destruct H as (Hs & _ & Hl); [lia|]. done.
Defined.

(** With three backends the optimizer's requests go to the first one. *)
Lemma role_request_reaches_assigned_backend_witness :
  ∃ st',
    AIService.chat Scenario.three_backends []
      (CollaborationEngine.role_service_mapping Scenario.three_backends
         !! CollaborationEngine.STRUCTURE_OPTIMIZER) (7 # 10)%Q 4000 Scenario.empty_store
    = (Val "ok", st')
    ∧ requests st' = 1.
Proof.
  destruct (role_request_reaches_assigned_backend Scenario.three_backends 3
              CollaborationEngine.STRUCTURE_OPTIMIZER) as (name & _ & _ & _ & H).
  - simpl. lia.
  - intros Hin. repeat (apply elem_of_cons in Hin as [Hin|Hin]; [discriminate Hin|]).
    by apply elem_of_nil in Hin.
  - reflexivity.
  - eexists. rewrite H. split; reflexivity.
Defined.

(** The full paper of a held session without a backend: seven sections,
    no request. *)
Lemma full_paper_has_seven_sections_witness :
  ∃ paper st',
    PaperGenerator._generate_full_paper Scenario.offline Scenario.defaults Scenario.prompts
      Scenario.sid ∅ (Scenario.holding (Scenario.session (Scenario.transcript 0) ∅ None))
    = (Val paper, st')
    ∧ dom paper = list_to_set PaperGenerator.sections
    ∧ requests st' ≤ 28.
Proof.
  destruct (full_paper_has_seven_sections Scenario.offline Scenario.defaults Scenario.prompts
              Scenario.sid ∅
              (Scenario.holding (Scenario.session (Scenario.transcript 0) ∅ None))
              (Scenario.session (Scenario.transcript 0) ∅ None))
    as (paper & st' & s' & Hrun & _ & _ & Hreq & Hdom & _).
  - reflexivity.
  - exists paper, st'. split; [exact Hrun|]. split; [exact Hdom|].
    simpl in Hreq. lia.
Defined.

(** The full paper of a session that does not exist. *)
Lemma full_paper_unknown_session_witness :
  ∃ st',
    PaperGenerator._generate_full_paper Scenario.offline Scenario.defaults Scenario.prompts
      "nobody" ∅ Scenario.empty_store
    = (Raise (ValueError ("会话不存在: " +:+ "nobody")), st').
Proof.
  destruct (full_paper_unknown_session Scenario.offline Scenario.defaults Scenario.prompts
              "nobody" ∅ Scenario.empty_store) as (st' & Hrun & _).
  - reflexivity.
  - exists st'. exact Hrun.
Defined.

(** Regenerating a section of a session that does not exist. *)
Lemma regenerate_unknown_session_witness :
  ∃ st',
    PaperGenerator.regenerate_section Scenario.offline Scenario.defaults Scenario.prompts
      "nobody" "abstract" "" Scenario.empty_store
    = (Raise (ValueError ("会话不存在: " +:+ "nobody")), st').
Proof.
  destruct (regenerate_unknown_session Scenario.offline Scenario.defaults Scenario.prompts
              "nobody" "abstract" "" Scenario.empty_store) as (st' & Hrun & _).
  - reflexivity.
  - exists st'. exact Hrun.
Defined.

(** Regenerating an appendix before any paper exists. *)
Lemma regenerate_without_paper_witness :
  ∃ content st',
    PaperGenerator.regenerate_section Scenario.offline Scenario.defaults Scenario.prompts
      Scenario.sid "appendix" ""
      (Scenario.holding (Scenario.session (Scenario.transcript 0) ∅ None))
    = (Val (PaperGenerator.RespRegenerated Scenario.sid "appendix" content "success"), st')
    ∧ PaperGenerator.get_paper_content Scenario.sid st'
      = (Val (Some {[ "appendix" := content ]}), st').
Proof.
  apply (regenerate_without_paper Scenario.offline Scenario.defaults Scenario.prompts
           Scenario.sid "appendix" ""
           (Scenario.holding (Scenario.session (Scenario.transcript 0) ∅ None))
           (Scenario.session (Scenario.transcript 0) ∅ None)); reflexivity.
Defined.

(** A turn of a fresh session keeps the system message in front. *)
Lemma transcript_is_append_only_witness :
  ∃ s' user_msg replies,
    in_memory
      (snd (PaperGenerator.process_user_input Scenario.offline Scenario.defaults
              Scenario.prompts Scenario.sid "你好"
              (Scenario.holding (Scenario.session (Scenario.transcript 0) ∅ None))))
      Scenario.sid s'
    ∧ messages s' = Scenario.transcript 0 ++ user_msg :: replies
    ∧ content user_msg = "你好".
Proof.
  destruct (transcript_is_append_only Scenario.offline Scenario.defaults Scenario.prompts
              Scenario.sid "你好"
              (Scenario.holding (Scenario.session (Scenario.transcript 0) ∅ None))
              (Scenario.session (Scenario.transcript 0) ∅ None))
    as (s' & user_msg & replies & Hs' & Hms & [_ Hc] & _).
  - reflexivity.
  - exists s', user_msg, replies. split; [exact Hs'|]. split; [exact Hms | exact Hc].
Defined.

(** Round 6 of a session whose six required fields are filled. *)
Lemma complete_info_starts_generation_witness :
  ∃ paper,
    fst (PaperGenerator.process_user_input Scenario.offline Scenario.defaults
           Scenario.prompts Scenario.sid "就这些"
           (Scenario.holding
              (Scenario.session (Scenario.transcript 10) Scenario.complete_info None)))
    = Val (PaperGenerator.RespCompleted Scenario.sid "completed"
             PaperGenerator.completion_message paper "completed")
    ∧ dom paper = list_to_set PaperGenerator.sections.
Proof.
  destruct (complete_info_starts_generation Scenario.offline Scenario.defaults
              Scenario.prompts Scenario.sid "就这些"
              (Scenario.holding
                 (Scenario.session (Scenario.transcript 10) Scenario.complete_info None))
              (Scenario.session (Scenario.transcript 10) Scenario.complete_info None))
    as (paper & s' & Hrun & _ & _ & Hdom & _).
  - reflexivity.
  - vm_compute. lia.
  - vm_compute. reflexivity.
  - exists paper. split; [exact Hrun | exact Hdom].
Defined.

(** Round 6 of a session with nothing collected: all six fields are asked
    for. *)
Lemma incomplete_info_asks_for_missing_witness :
  fst (PaperGenerator.process_user_input Scenario.offline Scenario.defaults
         Scenario.prompts Scenario.sid "继续"
         (Scenario.holding (Scenario.session (Scenario.transcript 10) ∅ None)))
  = Val (PaperGenerator.RespMissing Scenario.sid "collecting_missing"
           (PaperGenerator.missing_prompt PaperGenerator.required_fields)
           PaperGenerator.required_fields "collecting").
Proof.
  destruct (incomplete_info_asks_for_missing Scenario.offline Scenario.defaults
              Scenario.prompts Scenario.sid "继续"
              (Scenario.holding (Scenario.session (Scenario.transcript 10) ∅ None))
              (Scenario.session (Scenario.transcript 10) ∅ None))
    as (s' & Hrun & _).
  - reflexivity.
  - vm_compute. lia.
  - vm_compute. reflexivity.
  - etransitivity; [exact Hrun|]. vm_compute. reflexivity.
Defined.

(** After a turn the file of the session holds what the memory holds. *)
Lemma turn_is_persisted_witness :
  persisted
    (snd (PaperGenerator.process_user_input Scenario.offline Scenario.defaults
            Scenario.prompts Scenario.sid "你好"
            (Scenario.holding (Scenario.session (Scenario.transcript 0) ∅ None))))
    Scenario.sid.
Proof.
  destruct (process_user_input_total Scenario.offline Scenario.defaults Scenario.prompts
              Scenario.sid "你好"
              (Scenario.holding (Scenario.session (Scenario.transcript 0) ∅ None)))
    as (response & st' & Hrun).
  rewrite Hrun.
  apply (turn_is_persisted Scenario.offline Scenario.defaults Scenario.prompts
           Scenario.sid "你好"
           (Scenario.holding (Scenario.session (Scenario.transcript 0) ∅ None))
           (Scenario.session (Scenario.transcript 0) ∅ None) response st');
    [reflexivity | reflexivity | exact Hrun].
Defined.

(** A turn of one session and an identifier nobody holds. *)
Lemma turn_leaves_other_sessions_witness :
  find_session
    (snd (PaperGenerator.process_user_input Scenario.offline Scenario.defaults
            Scenario.prompts Scenario.sid "你好"
            (Scenario.holding (Scenario.session (Scenario.transcript 0) ∅ None))))
    "v_20240101_000000"
  = None.
Proof.
  rewrite (turn_leaves_other_sessions Scenario.offline Scenario.defaults Scenario.prompts
             Scenario.sid "v_20240101_000000" "你好"
             (Scenario.holding (Scenario.session (Scenario.transcript 0) ∅ None))
             (Scenario.session (Scenario.transcript 0) ∅ None)).
  - reflexivity.
  - reflexivity.
  - reflexivity.
  - discriminate.
Defined.

(** A new paper and two answers of the user: six messages, stage
    [methodology]. *)
Lemma dialogue_rounds_witness :
  ∃ r s',
    fst (PaperGenerator.start_new_paper Scenario.offline Scenario.texts "u" "新论文项目"
           Scenario.empty_store) = Val r
    ∧ find_session
        (run_turns Scenario.offline Scenario.defaults Scenario.prompts
           (PaperGenerator.started_session_id r) ["大模型"; "背景"]
           (snd (PaperGenerator.start_new_paper Scenario.offline Scenario.texts "u"
                   "新论文项目" Scenario.empty_store)))
        (PaperGenerator.started_session_id r) = Some s'
    ∧ length (messages s') = 6
    ∧ current_stage (context s') = Some "methodology".
Proof.
  destruct (dialogue_rounds Scenario.offline Scenario.defaults Scenario.prompts
              Scenario.texts "u" "新论文项目" ["大模型"; "背景"] Scenario.empty_store)
    as (r & s' & Hr & _ & Hfind & Hlen & Hstage & _).
  - discriminate.
  - vm_compute. lia.
  - exists r, s'. split; [exact Hr|]. split; [exact Hfind|]. split; [exact Hlen|].
    exact Hstage.
Defined.

(** A start that brings the research topic and keeps the dialogue: the
    session the answer names has nothing collected. *)
Lemma start_paper_drops_prefilled_info_witness :
  ∃ r st',
    App.start_paper Scenario.offline Scenario.texts Scenario.prefilled Scenario.empty_store
    = (Val (App.Success (App.Opened r)), st')
    ∧ info_of st' (PaperGenerator.started_session_id r) = ∅.
Proof.
  destruct (start_paper_drops_prefilled_info Scenario.offline Scenario.texts
              Scenario.prefilled Scenario.empty_store)
    as (r & st' & s' & Hrun & _ & _ & _ & Hinfo & _).
  - reflexivity.
  - exists r, st'. split; [exact Hrun | exact Hinfo].
Defined.

(** A start that skips the dialogue and brings nothing: the answer says
    [generating], the session stays in the stage [initial]. *)
Lemma start_paper_skips_dialogue_witness :
  ∃ s st',
    App.start_paper Scenario.offline Scenario.texts Scenario.skipping Scenario.empty_store
    = (Val (App.Success (App.Skipped (session_id s) "generating"
                           "项目创建成功，即将开始生成论文")), st')
    ∧ in_memory st' (session_id s) s
    ∧ current_stage (context s) = Some "initial".
Proof.
  destruct (start_paper_skips_dialogue Scenario.offline Scenario.texts Scenario.skipping
              Scenario.empty_store)
    as (s & st' & Hrun & Hs & _ & _ & _ & _ & _ & Hstage).
  - reflexivity.
  - exists s, st'. split; [exact Hrun|]. split; [exact Hs | exact Hstage].
Defined.

(** The direct generation for a held session: the paper is stored and no
    message is added. *)
Lemma generate_paper_route_witness :
  ∃ paper st' s',
    App.generate_paper Scenario.offline Scenario.defaults Scenario.prompts
      (Some Scenario.sid)
      (Scenario.holding (Scenario.session (Scenario.transcript 0) ∅ None))
    = (Val (App.Success (paper, Scenario.sid)), st')
    ∧ in_memory st' Scenario.sid s'
    ∧ status s' = "completed"
    ∧ messages s' = Scenario.transcript 0.
Proof.
  destruct (generate_paper_route Scenario.offline Scenario.defaults Scenario.prompts
              Scenario.sid
              (Scenario.holding (Scenario.session (Scenario.transcript 0) ∅ None))
              (Scenario.session (Scenario.transcript 0) ∅ None))
    as (paper & st' & s' & Hrun & Hs' & _ & _ & _ & Hstat & Hms & _).
  - discriminate.
  - reflexivity.
  - exists paper, st', s'. split; [exact Hrun|]. split; [exact Hs'|].
    split; [exact Hstat | exact Hms].
Defined.

(** The direct generation for a session that does not exist. *)
Lemma generate_paper_route_unknown_witness :
  ∃ st',
    App.generate_paper Scenario.offline Scenario.defaults Scenario.prompts (Some "nobody")
      Scenario.empty_store
    = (Val (App.Error 500 ("会话不存在: " +:+ "nobody")), st').
Proof.
  destruct (generate_paper_route_unknown Scenario.offline Scenario.defaults Scenario.prompts
              "nobody" Scenario.empty_store) as (st' & Hrun & _).
  - discriminate.
  - reflexivity.
  - exists st'. exact Hrun.
Defined.

(** An appendix beside the abstract does not change either rendering. *)
Lemma export_ignores_other_sections_witness :
  PaperGenerator._export_as_markdown Scenario.offline {[ "abstract" := "摘要正文" ]}
    Scenario.empty_store
  = PaperGenerator._export_as_markdown Scenario.offline
      {[ "abstract" := "摘要正文"; "appendix" := "附录" ]} Scenario.empty_store
  ∧ PaperGenerator._export_as_text Scenario.offline {[ "abstract" := "摘要正文" ]}
      Scenario.empty_store
    = PaperGenerator._export_as_text Scenario.offline
        {[ "abstract" := "摘要正文"; "appendix" := "附录" ]} Scenario.empty_store.
Proof.
  apply (export_ignores_other_sections Scenario.offline).
  intros section Hin.
  repeat (apply elem_of_cons in Hin as [Hin|Hin]; [rewrite Hin; vm_compute; reflexivity|]).
  by apply elem_of_nil in Hin.
Defined.

(** The second turn of a fresh session with two backends that number their
    answers: round 1, stage [research_background]; the extraction took
    request 0, and the reply is the answer of the collector's backend to
    request 1. *)
Lemma collection_round_witness :
  ∃ st',
    PaperGenerator.process_user_input Scenario.answering Scenario.defaults Scenario.prompts
      Scenario.sid "我研究大模型" (Scenario.holding (Scenario.session (Scenario.transcript 0) ∅ None))
    = (Val (PaperGenerator.RespCollecting Scenario.sid "research_background"
              "ollama #1" 2 "collecting"), st')
    ∧ requests st' = 2.
Proof.
  destruct (collection_round Scenario.answering Scenario.defaults Scenario.prompts
              Scenario.sid "我研究大模型"
              (Scenario.holding (Scenario.session (Scenario.transcript 0) ∅ None))
              (Scenario.session (Scenario.transcript 0) ∅ None))
    as (stage & reply & st' & s' & user_msg & assistant_msg & extracted & st_a & st_x & st_i
        & st_c & st_r & _ & _ & _ & _ & _ & _ & _ & _ & _ & _ & Hrun & _).
  - reflexivity.
  - vm_compute. lia.
  - exists st'. pose proof Hrun as Hvalue. vm_compute in Hvalue.
    injection Hvalue as <- <- <-. split; [exact Hrun | reflexivity].
Defined.


(** Regenerating the abstract of a two-section paper with a backend that
    answers the fourth request with ["better"]: the abstract becomes that
    text and the introduction stays. *)
Lemma regenerate_replaces_one_section_witness :
  let paper : gmap string string := {[ "abstract" := "旧摘要"; "introduction" := "旧引言" ]} in
  let st := Scenario.holding (Scenario.session (Scenario.transcript 30) ∅ (Some paper)) in
  ∃ st' s',
    PaperGenerator.regenerate_section Scenario.one_pass Scenario.defaults Scenario.prompts
      Scenario.sid "abstract" "" st
    = (Val (PaperGenerator.RespRegenerated Scenario.sid "abstract" "better" "success"), st')
    ∧ requests st' = 4
    ∧ in_memory st' Scenario.sid s'
    ∧ paper_content (context s') = Some (<["abstract" := "better"]> paper)
    ∧ (<["abstract" := "better"]> paper) !! "introduction" = Some "旧引言"
    ∧ messages s' = Scenario.transcript 30.
Proof.
  intros paper st.
  destruct (regenerate_replaces_one_section Scenario.one_pass Scenario.defaults
              Scenario.prompts Scenario.sid "abstract" "" st
              (Scenario.session (Scenario.transcript 30) ∅ (Some paper)) paper)
    as (st0 & c0 & sa & rv & sb & o & sc & result & st1 & st' & s' & _ & _ & _ & _ & _ & _
        & _ & _ & Hbackend & Hupd & Hsame & Hrun & Hs' & Hpaper & _ & Hother & Hms & _).
  - reflexivity.
  - reflexivity.
  - cbn zeta in Hbackend, Hupd, Hrun, Hpaper, Hother.
    destruct Hbackend as (Hreq & Hgood & _).
    { simpl. lia. }
    { intros Hin. repeat (apply elem_of_cons in Hin as [Hin|Hin]; [discriminate Hin|]).
      by apply elem_of_nil in Hin. }
    assert (CollaborationEngine.final_content result = "better") as Hcontent.
    { apply Hgood. intros name msgs t m. reflexivity. }
    rewrite Hcontent in Hupd, Hrun, Hpaper, Hother.
    assert (requests st' = 4) as Hreq' by (rewrite Hsame; exact Hreq).
    exists st', s'. split; [exact Hrun|]. split; [exact Hreq'|]. split; [exact Hs'|].
    split; [exact Hpaper|]. split; [|exact Hms].
    rewrite Hother; [reflexivity | discriminate].
Defined.
